(** * Linux-Arctis-7-Plus-ChatMix: a shallow embedding of the two daemons

    The repository holds two near-identical Python programs,
    [Arctis_7_Plus_ChatMix.py] and [AllSound7P_ChatMix.py].  Each one
    locates a USB headset, provisions two virtual PipeWire sinks, and
    then polls the ChatMix dial, turning every report into volume
    commands.

    The embedding keeps the shape of the source.  The instance
    attributes of [Arctis7PlusChatMix] are a record, every external
    call ([os.system], [os.popen], the logger, [time.sleep], pyusb)
    appends an event to a trace, the answers of the outside world are
    read from a [world] record, and Python exceptions are the error
    component of a small state-and-exception monad.  Text is modelled
    as byte strings (ASCII).

    Both scripts register the SIGTERM handler as the first statement
    of [__init__]; the model delivers the signal only while the
    polling loop runs, as one more thing a blocked read can meet.
    The loop itself never ends, so it is run over a finite list of
    such events and the result says whether it is still polling.  The
    module-level assignment of [PIPEWIRE_RUNTIME_DIR] and the set-up
    of the logger are left out. *)

From Stdlib Require Import ZArith List String Ascii Bool Lia QArith Qabs.
From Stdlib Require Import Floats Uint63 HexadecimalString.
Import ListNotations.

Set Warnings "-register-all,-inexact-float".

Local Open Scope string_scope.
Local Open Scope Z_scope.

(** ** Python string operations used by the daemons *)

Module PyStr.

(** [str.isspace] on ASCII: blank, tab, newline, vertical tab, form
    feed, carriage return and the four separators 0x1c-0x1f. *)
Definition is_space (c : ascii) : bool :=
  let n := nat_of_ascii c in
  ((n =? 32) || ((9 <=? n) && (n <=? 13)) || ((28 <=? n) && (n <=? 31)))%nat.

Definition is_digit (c : ascii) : bool :=
  let n := nat_of_ascii c in ((48 <=? n) && (n <=? 57))%nat.

Definition newline : ascii := ascii_of_nat 10.
Definition dquote : ascii := ascii_of_nat 34.

(** [s.lower()] *)
Definition lower_char (c : ascii) : ascii :=
  let n := nat_of_ascii c in
  if ((65 <=? n) && (n <=? 90))%nat then ascii_of_nat (n + 32) else c.

Fixpoint lower (s : string) : string :=
  match s with
  | EmptyString => EmptyString
  | String c s' => String (lower_char c) (lower s')
  end.

(** [s.startswith(p)], returning the remainder on success. *)
Fixpoint strip_prefix (p s : string) : option string :=
  match p, s with
  | EmptyString, _ => Some s
  | String a p', String b s' =>
      if Ascii.eqb a b then strip_prefix p' s' else None
  | String _ _, EmptyString => None
  end.

Definition startswith (s p : string) : bool :=
  match strip_prefix p s with Some _ => true | None => false end.

(** [p in s] *)
Fixpoint contains (p s : string) : bool :=
  if startswith s p then true
  else match s with
       | EmptyString => false
       | String _ s' => contains p s'
       end.

Fixpoint lstrip (s : string) : string :=
  match s with
  | String c s' => if is_space c then lstrip s' else s
  | EmptyString => EmptyString
  end.

(** Drop trailing white space: a character is kept when something
    that is not white space follows it or when it is not white space
    itself. *)
Fixpoint rstrip (s : string) : string :=
  match s with
  | EmptyString => EmptyString
  | String c s' =>
      match rstrip s' with
      | EmptyString => if is_space c then EmptyString else String c EmptyString
      | r => String c r
      end
  end.

(** [s.strip()] *)
Definition strip (s : string) : string := rstrip (lstrip s).

(** [s.split('\n')] *)
Fixpoint split_lines (s : string) : list string :=
  match s with
  | EmptyString => [EmptyString]
  | String c s' =>
      if Ascii.eqb c newline then EmptyString :: split_lines s'
      else match split_lines s' with
           | l :: ls => String c l :: ls
           | [] => [String c EmptyString]
           end
  end.

(** Truth value of a string: the empty string is false. *)
Definition truthy (s : string) : bool :=
  match s with EmptyString => false | _ => true end.

End PyStr.

(** ** The fragment of [re] the daemons use

    Patterns are sequences of literals, single character classes,
    greedy starred or plussed classes, and capturing groups.  The
    matcher backtracks in Python's order (greedy first), passing the
    captures along the continuation, and [search] tries the start
    positions from left to right. *)

Module Re.
Import PyStr.

Inductive cclass : Type :=
| Space                      (* \s *)
| Digit                      (* \d *)
| Dot                        (* .  : anything but a newline *)
| OneOf (cs : list ascii)    (* [...] *)
| NoneOf (cs : list ascii).  (* [^...] *)

Definition mem (c : ascii) (cs : list ascii) : bool :=
  existsb (Ascii.eqb c) cs.

Definition cclass_match (k : cclass) (c : ascii) : bool :=
  match k with
  | Space => is_space c
  | Digit => is_digit c
  | Dot => negb (Ascii.eqb c newline)
  | OneOf cs => mem c cs
  | NoneOf cs => negb (mem c cs)
  end.

Inductive regex : Type :=
| Lit (s : string)
| One (k : cclass)
| Star (k : cclass)
| Plus (k : cclass)
| Group (r : regex)
| Seq (r1 r2 : regex).

Definition captures := list string.

Section Matcher.
Variable R : Type.

Fixpoint star (k : cclass) (s : string) (cont : string -> option R)
  : option R :=
  match s with
  | String c s' =>
      if cclass_match k c then
        match star k s' cont with
        | Some r => Some r
        | None => cont s
        end
      else cont s
  | EmptyString => cont s
  end.

Fixpoint rmatch (r : regex) (s : string) (caps : captures)
         (cont : string -> captures -> option R) : option R :=
  match r with
  | Lit l =>
      match strip_prefix l s with
      | Some s' => cont s' caps
      | None => None
      end
  | One k =>
      match s with
      | String c s' => if cclass_match k c then cont s' caps else None
      | EmptyString => None
      end
  | Star k => star k s (fun s' => cont s' caps)
  | Plus k =>
      match s with
      | String c s' =>
          if cclass_match k c then star k s' (fun s'' => cont s'' caps)
          else None
      | EmptyString => None
      end
  | Group r1 =>
      rmatch r1 s caps
        (fun s' caps' =>
           cont s' (caps' ++
                    [substring 0 (String.length s - String.length s')%nat s])%list)
  | Seq r1 r2 =>
      rmatch r1 s caps (fun s' caps' => rmatch r2 s' caps' cont)
  end.
End Matcher.

(** [re.search(r, s)]: the captures of the leftmost match. *)
Fixpoint search (r : regex) (s : string) : option captures :=
  match rmatch captures r s [] (fun _ caps => Some caps) with
  | Some caps => Some caps
  | None =>
      match s with
      | String _ s' => search r s'
      | EmptyString => None
      end
  end.

(** [m.group(1)] of a pattern with one group. *)
Definition group1 (m : captures) : string := nth 0 m EmptyString.

Fixpoint seq_of (rs : list regex) : regex :=
  match rs with
  | [] => Lit EmptyString
  | [r] => r
  | r :: rs' => Seq r (seq_of rs')
  end.

(** [rf'\s*(\d+)\.\s+{re.escape(name)}'] *)
Definition id_of_name (name : string) : regex :=
  seq_of [Star Space; Group (Plus Digit); Lit "."; Plus Space; Lit name].

(** [r'\s*(\d+)\.\s+<prefix>.*<role>'], as in
    [r'\s*(\d+)\.\s+Arctis.*Game']. *)
Definition id_of_role (prefix role : string) : regex :=
  seq_of [Star Space; Group (Plus Digit); Lit "."; Plus Space;
          Lit prefix; Star Dot; Lit role].

(** [re.compile('.*[aA]rctis.*7')] *)
Definition arctis : regex :=
  seq_of [Star Dot; One (OneOf ["a"%char; "A"%char]); Lit "rctis";
          Star Dot; Lit "7"].

(** The pattern for a quoted node name: [node\.name\s*=\s*], a double
    quote, a group of one or more characters other than a double
    quote, and a closing double quote. *)
Definition node_name : regex :=
  seq_of [Lit "node.name"; Star Space; Lit "="; Star Space;
          One (OneOf [dquote]); Group (Plus (NoneOf [dquote]));
          One (OneOf [dquote])].

End Re.

(** ** Python values, the USB tree and the trace of external calls *)

(** Values that reach the program from [json.loads]. *)
Inductive pyval : Type :=
| PNone
| PBool (b : bool)
| PInt (n : Z)
| PStr (s : string)
| PList (items : list pyval)
| PDict (fields : list (string * pyval)).

Module Py.

(** [bool(v)] *)
Definition truthy (v : pyval) : bool :=
  match v with
  | PNone => false
  | PBool b => b
  | PInt n => negb (n =? 0)
  | PStr s => PyStr.truthy s
  | PList l => match l with [] => false | _ => true end
  | PDict f => match f with [] => false | _ => true end
  end.

(** [v == s] for a string literal [s] *)
Definition eq_str (v : pyval) (s : string) : bool :=
  match v with PStr t => String.eqb t s | _ => false end.

Fixpoint lookup (k : string) (f : list (string * pyval)) : option pyval :=
  match f with
  | [] => None
  | (k', v) :: f' => if String.eqb k k' then Some v else lookup k f'
  end.

Fixpoint chars (s : string) : list pyval :=
  match s with
  | EmptyString => []
  | String c s' => PStr (String c EmptyString) :: chars s'
  end.

(** [hex(n)] *)
Definition hex (n : Z) : string :=
  (if n <? 0 then "-0x" else "0x") ++
  HexadecimalString.NilZero.string_of_uint (N.to_hex_uint (Z.abs_N n)).

End Py.

Record endpoint : Type := {
  bEndpointAddress : Z;
  wMaxPacketSize : Z
}.

Record interface : Type := {
  bInterfaceNumber : Z;
  endpoints : list endpoint
}.

Record configuration : Type := {
  interfaces : list interface
}.

Record device : Type := {
  idVendor : Z;
  idProduct : Z;
  configurations : list configuration;
  (* interface numbers currently claimed by a kernel driver *)
  kernel_driver : list Z
}.

Inductive level : Type := INFO | WARNING | ERROR | FATAL.

(** The stream a command line sends to /dev/null. *)
Inductive fd : Type := Stdout | Stderr.

(** The command lines handed to [os.system] and [os.popen], with the
    interpolated values kept apart from the fixed text. *)
Inductive command : Type :=
| PwDump                      (* pw-dump 2>&1 *)
| PwCliInfoDefaultSink        (* pw-cli info @DEFAULT_AUDIO_SINK@ | grep | cut *)
| WpctlStatus                 (* wpctl status *)
| PwCliListObjects            (* pw-cli list-objects | grep -A 20 ... *)
| PwCliDestroy (node : string) (silenced : fd)
| PwCliCreateNode (name description : string)
| PwLink (output : string) (input_node : pyval) (input_port : string)
| WpctlSetDefault (id : string)
| WpctlSetVolume (id : string) (volume : float).

Inductive event : Type :=
| Log (lvl : level) (msg : string) (args : list pyval)
| Run (c : command)
| Sleep (secs : float)
| UsbFind (vendor product : Z)
| UsbDetachKernelDriver (interface_num : Z)
| UsbRead (addr size : Z) (timeout : option Z).

Abbreviation trace := (list event) (only parsing).

(** What one call to [self.dev.read] can do. *)
Inductive read_result : Type :=
| Data (bytes : list Z)
| USBTimeoutError
| USBError.

(** What the polling loop meets: the outcome of a read, or SIGTERM
    delivered while it runs, which calls the registered handler.  The
    handler is registered by the first statement of [__init__], but a
    signal that arrives during the start-up or while a teardown is
    running is left out: every statement below about a termination
    signal is about one met by a read of the loop. *)
Inductive loop_event : Type :=
| Read (r : read_result)
| Sigterm.

Inductive outcome (A : Type) : Type :=
| Returned (a : A)
| Raised (name : string).
Arguments Returned {A} a.
Arguments Raised {A} name.

(** The answers of the outside world, one field per call site. *)
Record world : Type := {
  (* usb.core.find raises (no backend) when false *)
  usb_backend : bool;
  (* attached devices in enumeration order *)
  usb_devices : list device;
  (* output of pw-dump at attempt k of wait_for_pipewire *)
  pw_dump_wait : nat -> outcome string;
  (* json.loads(os.popen(pw-dump).read()) in _init_VAC *)
  pw_dump : outcome pyval;
  pw_cli_info_default_sink : string;
  (* wpctl status when the default sink's id is looked up *)
  wpctl_status_default : string;
  pw_cli_list_objects : outcome string;
  (* exit statuses of the two initial pw-cli destroy calls *)
  destroy_old_game : Z;
  destroy_old_chat : Z;
  (* step of the creation block that raises: 0, 1 the two create-node
     calls, 2 the sleep *)
  create_fault : option nat;
  (* call of the linking block that raises: 0 .. 3 *)
  link_fault : option nat;
  (* wpctl status when the ids of the new sinks are looked up *)
  wpctl_status_ids : outcome string;
  (* wpctl status when die_gracefully falls back to a lookup by name *)
  wpctl_status_teardown : string
}.

(** The instance attributes.  [None] in [system_default_sink] and
    [system_default_sink_id] is an attribute not yet assigned (what
    [hasattr] tests); inside, [None] is Python's [None].  The two sink
    ids are the attributes [arctis_game_id] and [arctis_chat_id] of one
    file and [chatmix_game_id] and [chatmix_chat_id] of the other. *)
Record self : Type := {
  dev : option device;
  interface_num : Z;
  addr : Z;
  system_default_sink : option pyval;
  system_default_sink_id : option (option string);
  game_id : option string;
  chat_id : option string
}.

Definition self0 : self :=
  {| dev := None; interface_num := 0; addr := 0;
     system_default_sink := None; system_default_sink_id := None;
     game_id := None; chat_id := None |}.

(** ** A state and exception monad for the method bodies *)

Inductive exn : Type :=
| SystemExit (code : Z)
| PyError (name : string).   (* any subclass of Exception *)

Inductive result (A : Type) : Type :=
| Ok (a : A)
| Raise (e : exn).
Arguments Ok {A} a.
Arguments Raise {A} e.

Abbreviation pstate := (self * list event)%type (only parsing).

Definition M (A : Type) : Type := pstate -> result A * pstate.

Definition ret {A} (a : A) : M A := fun st => (Ok a, st).

Definition bind {A B} (m : M A) (k : A -> M B) : M B :=
  fun st =>
    match m st with
    | (Ok a, st') => k a st'
    | (Raise e, st') => (Raise e, st')
    end.

Definition raise {A} (e : exn) : M A := fun st => (Raise e, st).

Declare Scope py_scope.
Delimit Scope py_scope with py.
Notation "x <- c ;; k" := (bind c (fun x => k))
  (at level 61, c at next level, right associativity) : py_scope.
Notation "c ;; k" := (bind c (fun _ => k))
  (at level 61, right associativity) : py_scope.
Local Open Scope py_scope.

(** [try: body except Exception: handler]; [SystemExit] passes. *)
Definition try_except {A} (body : M A) (handler : string -> M A) : M A :=
  fun st =>
    match body st with
    | (Raise (PyError n), st') => handler n st'
    | r => r
    end.

(** [try: body except: handler], which also stops [SystemExit]. *)
Definition try_bare {A} (body : M A) (handler : M A) : M A :=
  fun st =>
    match body st with
    | (Raise _, st') => handler st'
    | r => r
    end.

Definition emit (e : event) : M unit :=
  fun st => (Ok tt, (fst st, (snd st ++ [e])%list)).

Definition get_self : M self := fun st => (Ok (fst st), st).

Definition modify (f : self -> self) : M unit :=
  fun st => (Ok tt, (f (fst st), snd st)).

Definition log (l : level) (msg : string) (args : list pyval) : M unit :=
  emit (Log l msg args).

(** [os.system(cmd)] with the status discarded *)
Definition system (c : command) : M unit := emit (Run c).

(** [os.popen(cmd).read()] *)
Definition popen (c : command) (out : string) : M string :=
  emit (Run c) ;; ret out.

Definition of_outcome {A} (o : outcome A) : M A :=
  match o with
  | Returned a => ret a
  | Raised n => raise (PyError n)
  end.

(** [sys.exit(code)] *)
Definition sys_exit {A} (code : Z) : M A := raise (SystemExit code).

Definition when (b : bool) (m : M unit) : M unit :=
  if b then m else ret tt.

Definition dashes : string := "---------------------------------------------".

(** ** Code shared by the two files *)

Module Common.

(** [for x in v] *)
Definition iter (v : pyval) : M (list pyval) :=
  match v with
  | PList l => ret l
  | PDict f => ret (map (fun kv => PStr (fst kv)) f)
  | PStr s => ret (Py.chars s)
  | _ => raise (PyError "TypeError")
  end.

(** [v.get(key, default)]; only a dict has the method. *)
Definition get (v : pyval) (key : string) (default : pyval) : M pyval :=
  match v with
  | PDict f =>
      ret (match Py.lookup key f with Some x => x | None => default end)
  | _ => raise (PyError "AttributeError")
  end.

(** [re.escape(v)] *)
Definition re_escape (v : pyval) : M string :=
  match v with
  | PStr s => ret s
  | _ => raise (PyError "TypeError")
  end.

Definition truthy_id (id : option string) : bool :=
  match id with Some s => PyStr.truthy s | None => false end.

(** [float(n)], exact on the bytes of a report *)
Definition to_float (n : Z) : float := PrimFloat.of_uint63 (Uint63.of_Z n).

(** [n / 100.0] *)
Definition div100 (n : Z) : float := PrimFloat.div (to_float n) 100%float.

(** [read_input[i]] *)
Definition index (read_input : list Z) (i : nat) : M Z :=
  match nth_error read_input i with
  | Some b => ret b
  | None => raise (PyError "IndexError")
  end.

(** [val != last], where [last] starts as [None] *)
Definition differs (val : Z) (last : option Z) : bool :=
  match last with
  | None => true
  | Some l => negb (val =? l)
  end.

(** *** [wait_for_pipewire] *)

Definition default_max_attempts : nat := 10.
Definition default_delay : float := 0.5%float.

(** [result and not "can't connect" in result.lower()
     and result.strip().startswith('[')] *)
Definition pipewire_answers (result : string) : bool :=
  PyStr.truthy result
  && negb (PyStr.contains "can't connect" (PyStr.lower result))
  && PyStr.startswith (PyStr.strip result) "[".

Fixpoint wait_attempts (w : world) (delay : float) (n attempt : nat)
  : M bool :=
  match n with
  | O => ret false
  | S n' =>
      up <- try_bare
              (emit (Run PwDump) ;;
               result <- of_outcome (pw_dump_wait w attempt) ;;
               ret (pipewire_answers result))
              (ret false) ;;
      if up then ret true
      else emit (Sleep delay) ;; wait_attempts w delay n' (S attempt)
  end.

Definition wait_for_pipewire (w : world) (max_attempts : nat)
           (delay : float) : M bool :=
  wait_attempts w delay max_attempts 0.

(** *** The search for the default sink in the parsed pw-dump *)

(** The inner loop over [metadata]: the first entry whose key is
    [default.audio.sink] assigns the name and breaks. *)
Fixpoint scan_metadata (metas : list pyval) (name : pyval) : M pyval :=
  match metas with
  | [] => ret name
  | meta :: rest =>
      k <- get meta "key" PNone ;;
      if Py.eq_str k "default.audio.sink" then
        v <- get meta "value" (PDict []) ;;
        get v "name" PNone
      else scan_metadata rest name
  end.

(** The outer loop over [pw_data], left as soon as a name is set. *)
Fixpoint scan_items (items : list pyval) (name : pyval) : M pyval :=
  match items with
  | [] => ret name
  | item :: rest =>
      t <- get item "type" PNone ;;
      if Py.eq_str t "PipeWire:Interface:Metadata" then
        metadata <- get item "metadata" (PList []) ;;
        metas <- iter metadata ;;
        name' <- scan_metadata metas name ;;
        if Py.truthy name' then ret name' else scan_items rest name'
      else scan_items rest name
  end.

(** The first five statements of the default-sink block, the same in
    both files: the name from the metadata, else from pw-cli. *)
Definition default_sink_name (w : world) : M pyval :=
  emit (Run PwDump) ;;
  pw_data <- of_outcome (pw_dump w) ;;
  items <- iter pw_data ;;
  name <- scan_items items PNone ;;
  if negb (Py.truthy name) then
    out <- popen PwCliInfoDefaultSink (pw_cli_info_default_sink w) ;;
    ret (PStr (PyStr.strip out))
  else ret name.

(** *** Locating the headset *)

Definition matches (vendor product : Z) (d : device) : bool :=
  (idVendor d =? vendor) && (idProduct d =? product).

(** [usb.core.find(idVendor=v, idProduct=p)]: the first attached
    device with these ids, or [None]. *)
Definition usb_core_find (w : world) (vendor product : Z)
  : M (option device) :=
  emit (UsbFind vendor product) ;;
  if usb_backend w then ret (find (matches vendor product) (usb_devices w))
  else raise (PyError "NoBackendError").

(** [find(0x1038, 0x220e) or find(0x1038, 0x227a)] *)
Definition find_headset (w : world) : M (option device) :=
  d <- usb_core_find w 0x1038 0x220e ;;
  match d with
  | Some _ => ret d
  | None => usb_core_find w 0x1038 0x227a
  end.

(** [self.dev[0].interfaces()[8]] *)
Definition select_interface (d : option device) : M interface :=
  match d with
  | None => raise (PyError "TypeError")
  | Some d =>
      match nth_error (configurations d) 0 with
      | None => raise (PyError "IndexError")
      | Some cfg =>
          match nth_error (interfaces cfg) 8 with
          | None => raise (PyError "IndexError")
          | Some i => ret i
          end
      end
  end.

(** [self.interface.endpoints()[0]] *)
Definition first_endpoint (i : interface) : M endpoint :=
  match nth_error (endpoints i) 0 with
  | None => raise (PyError "IndexError")
  | Some e => ret e
  end.

Definition set_dev (d : option device) (s : self) : self :=
  {| dev := d; interface_num := interface_num s; addr := addr s;
     system_default_sink := system_default_sink s;
     system_default_sink_id := system_default_sink_id s;
     game_id := game_id s; chat_id := chat_id s |}.

Definition set_interface_num (n : Z) (s : self) : self :=
  {| dev := dev s; interface_num := n; addr := addr s;
     system_default_sink := system_default_sink s;
     system_default_sink_id := system_default_sink_id s;
     game_id := game_id s; chat_id := chat_id s |}.

Definition set_addr (a : Z) (s : self) : self :=
  {| dev := dev s; interface_num := interface_num s; addr := a;
     system_default_sink := system_default_sink s;
     system_default_sink_id := system_default_sink_id s;
     game_id := game_id s; chat_id := chat_id s |}.

Definition set_system_default_sink (v : pyval) (s : self) : self :=
  {| dev := dev s; interface_num := interface_num s; addr := addr s;
     system_default_sink := Some v;
     system_default_sink_id := system_default_sink_id s;
     game_id := game_id s; chat_id := chat_id s |}.

Definition set_system_default_sink_id (id : option string) (s : self)
  : self :=
  {| dev := dev s; interface_num := interface_num s; addr := addr s;
     system_default_sink := system_default_sink s;
     system_default_sink_id := Some id;
     game_id := game_id s; chat_id := chat_id s |}.

Definition set_game_id (id : option string) (s : self) : self :=
  {| dev := dev s; interface_num := interface_num s; addr := addr s;
     system_default_sink := system_default_sink s;
     system_default_sink_id := system_default_sink_id s;
     game_id := id; chat_id := chat_id s |}.

Definition set_chat_id (id : option string) (s : self) : self :=
  {| dev := dev s; interface_num := interface_num s; addr := addr s;
     system_default_sink := system_default_sink s;
     system_default_sink_id := system_default_sink_id s;
     game_id := game_id s; chat_id := id |}.

(** Binding of the keyword arguments of
    [die_gracefully(self, sink_creation_fail=False, trigger=None)]:
    a keyword the signature does not have raises [TypeError] before
    the body runs. *)
Definition call_die_gracefully (body : pyval -> pyval -> M unit)
           (kwargs : list (string * pyval)) : M unit :=
  if forallb (fun kv => String.eqb (fst kv) "sink_creation_fail"
                        || String.eqb (fst kv) "trigger") kwargs
  then
    body (match Py.lookup "sink_creation_fail" kwargs with
          | Some v => v
          | None => PBool false
          end)
         (match Py.lookup "trigger" kwargs with
          | Some v => v
          | None => PNone
          end)
  else raise (PyError "TypeError").

(** [sink_creation_fail == False] *)
Definition eq_False (v : pyval) : bool :=
  match v with
  | PBool b => negb b
  | PInt n => n =? 0
  | _ => false
  end.

(** A step of a [try] block that the world can make raise. *)
Definition step (fault : option nat) (k : nat) (m : M unit) : M unit :=
  match fault with
  | Some j => if Nat.eqb j k then raise (PyError "Exception") else m
  | None => m
  end.

(** The outcome of the process and its exit status. *)
Inductive status : Type :=
| Exited (code : Z)          (* sys.exit(code) reached the top level *)
| Crashed (name : string)    (* uncaught exception: traceback, status 1 *)
| Finished                   (* the script ran to its end: status 0 *)
| Polling.                   (* still in the loop, waiting for a report *)

Definition exit_status (s : status) : option Z :=
  match s with
  | Exited c => Some c
  | Crashed _ => Some 1
  | Finished => Some 0
  | Polling => None
  end.

Inductive loop_ctl (L : Type) : Type :=
| Continue (l : L)
| Break.
Arguments Continue {L} l.
Arguments Break {L}.

(** *** [Arctis7PlusChatMix.__init__], over the two methods in which
    the files differ.  In the messages that span several source lines
    the line breaks and indentation are collapsed to one blank.  Of
    the calls to the USB library only [usb.core.find],
    [detach_kernel_driver] and [read] leave an event: the look-ups
    [dev[0]], [interfaces()] and [endpoints()] and the query
    [is_kernel_driver_active] are answered by the world, and the
    query and [detach_kernel_driver], which stand outside any [try],
    are taken to return. *)

Section Init.
Variable w : world.
Variable die_gracefully : list (string * pyval) -> M unit.
Variable _init_VAC : M unit.
(* the end of the first error message, in which the files differ *)
Variable models : string.

Definition __init__ : M unit :=
  log INFO "Initializing ac7pcm..." [] ;;
  try_except
    (d <- find_headset w ;; modify (set_dev d))
    (fun _ =>
       log ERROR ("Failed to identify the Arctis 7+ device. Please ensure it is connected. Please note: This program only supports the '7+'" ++ models) [] ;;
       die_gracefully [("trigger", PStr "Couldn't find arctis7 model")]) ;;
  try_except
    (s <- get_self ;;
     i <- select_interface (dev s) ;;
     modify (set_interface_num (bInterfaceNumber i)) ;;
     e <- first_endpoint i ;;
     modify (set_addr (bEndpointAddress e)) ;;
     log INFO "ChatMix interface: {}, endpoint: {}, max packet: {}"
       [PInt (bInterfaceNumber i);
        PStr (Py.hex (bEndpointAddress e));
        PInt (wMaxPacketSize e)])
    (fun _ =>
       log ERROR "Failure to identify relevant USB device's interface or endpoint. Shutting down..." [] ;;
       die_gracefully [("exc", PBool true);
                       ("trigger", PStr "identification of USB endpoint")]) ;;
  s <- get_self ;;
  match dev s with
  | None => raise (PyError "AttributeError")
  | Some d =>
      when (existsb (Z.eqb (interface_num s)) (kernel_driver d))
           (emit (UsbDetachKernelDriver (interface_num s)))
  end ;;
  _init_VAC.
End Init.

End Common.

(** ** [Arctis_7_Plus_ChatMix.py] *)

Module Arctis_7_Plus_ChatMix.
Import Common.

Section Service.
Variable w : world.

(** The [elif] branch of the restoration: look the id up by name. *)
Definition restore_by_name : M unit :=
  s <- get_self ;;
  match system_default_sink s with
  | None => ret tt
  | Some name =>
      when (negb (Py.eq_str name "auto"))
        (wpctl_status <- popen WpctlStatus (wpctl_status_teardown w) ;;
         pat <- re_escape name ;;
         match Re.search (Re.id_of_name pat) wpctl_status with
         | Some m => system (WpctlSetDefault (Re.group1 m))
         | None => ret tt
         end)
  end.

(** The restoration of the system default sink: by the recorded id,
    else by name. *)
Definition restore_default : M unit :=
  s <- get_self ;;
  match system_default_sink_id s with
  | Some (Some id) =>
      if PyStr.truthy id then system (WpctlSetDefault id)
      else restore_by_name
  | _ => restore_by_name
  end.

(** [die_gracefully(self, sink_creation_fail=False, trigger=None)] *)
Definition die_gracefully_body (sink_creation_fail trigger : pyval)
  : M unit :=
  log INFO "Cleanup on shutdown" [] ;;
  restore_default ;;
  when (eq_False sink_creation_fail)
    (log INFO "Destroying virtual sinks..." [] ;;
     system (PwCliDestroy "Arctis_Game" Stdout) ;;
     system (PwCliDestroy "Arctis_Chat" Stdout)) ;;
  match trigger with
  | PNone =>
      log INFO dashes [] ;;
      log INFO "Artcis 7+ ChatMix shut down gracefully... Bye Bye!" [] ;;
      log INFO dashes [] ;;
      sys_exit 0
  | PStr t =>
      log INFO dashes [] ;;
      log FATAL ("Failure reason: " ++ t) [] ;;
      log INFO dashes [] ;;
      sys_exit 1
  | _ =>
      log INFO dashes [] ;;
      raise (PyError "TypeError")
  end.

Definition die_gracefully : list (string * pyval) -> M unit :=
  call_die_gracefully die_gracefully_body.

(** [__handle_sigterm(self, sig, frame)] *)
Definition __handle_sigterm : M unit := die_gracefully [].

(** The block of [_init_VAC] that records the default sink. *)
Definition capture_default_sink : M unit :=
  try_except
    (name <- default_sink_name w ;;
     modify (set_system_default_sink
               (if Py.truthy name then name else PStr "auto")) ;;
     (if Py.truthy name then
        wpctl_status <- popen WpctlStatus (wpctl_status_default w) ;;
        pat <- re_escape name ;;
        match Re.search (Re.id_of_name pat) wpctl_status with
        | Some m =>
            modify (set_system_default_sink_id (Some (Re.group1 m)))
        | None => modify (set_system_default_sink_id None)
        end
      else modify (set_system_default_sink_id None)) ;;
     s <- get_self ;;
     match system_default_sink s, system_default_sink_id s with
     | Some v, Some (Some id) =>
         if PyStr.truthy id then
           log INFO "default sink identified as {} (ID: {})" [v; PStr id]
         else log INFO "default sink identified as {}" [v]
     | Some v, _ => log INFO "default sink identified as {}" [v]
     | None, _ => raise (PyError "AttributeError")
     end)
    (fun e =>
       log WARNING "Could not determine default sink name, using auto: {}"
         [PStr e] ;;
       modify (set_system_default_sink (PStr "auto")) ;;
       modify (set_system_default_sink_id None)).

(** The loop over the lines of the pw-cli listing. *)
Fixpoint find_arctis_device (lines : list string) : option string :=
  match lines with
  | [] => None
  | line :: rest =>
      if PyStr.contains "node.name" line
         && (match Re.search Re.arctis line with
             | Some _ => true
             | None => false
             end)
      then
        match Re.search Re.node_name line with
        | Some m => Some (Re.group1 m)
        | None => find_arctis_device rest
        end
      else find_arctis_device rest
  end.

Definition the_system_default_sink : M pyval :=
  s <- get_self ;;
  match system_default_sink s with
  | Some v => ret v
  | None => raise (PyError "AttributeError")
  end.

(** The block that chooses [default_sink], the target of the links:
    an Arctis node of the listing when there is one, the system
    default otherwise. *)
Definition choose_default_sink : M pyval :=
  try_except
    (emit (Run PwCliListObjects) ;;
     pw_sinks <- of_outcome (pw_cli_list_objects w) ;;
     match find_arctis_device (PyStr.split_lines pw_sinks) with
     | Some arctis_device =>
         log INFO "Arctis sink identified as {}" [PStr arctis_device] ;;
         if PyStr.truthy arctis_device then ret (PStr arctis_device)
         else
           v <- the_system_default_sink ;;
           log INFO "No Arctis device found, using system default sink" [] ;;
           ret v
     | None =>
         v <- the_system_default_sink ;;
         log INFO "No Arctis device found, using system default sink" [] ;;
         ret v
     end)
    (fun e =>
       log WARNING "Could not identify Arctis sink, using system default: {}"
         [PStr e] ;;
       the_system_default_sink).

Definition destroy_old_sinks : M unit :=
  system (PwCliDestroy "Arctis_Game" Stderr) ;;
  system (PwCliDestroy "Arctis_Chat" Stderr) ;;
  when ((destroy_old_game w =? 0) || (destroy_old_chat w =? 0))
    (log INFO "Attempted to destroy old VAC sinks at init but none existed" []).

Definition create_sinks : M unit :=
  try_except
    (log INFO "Creating VACS..." [] ;;
     step (create_fault w) 0
       (system (PwCliCreateNode "Arctis_Game" "Arctis 7+ Game")) ;;
     step (create_fault w) 1
       (system (PwCliCreateNode "Arctis_Chat" "Arctis 7+ Chat")) ;;
     step (create_fault w) 2 (emit (Sleep 0.5%float)))
    (fun _ =>
       log ERROR "Failure to create node adapter - Arctis_Chat virtual device could not be created" [] ;;
       die_gracefully [("sink_creation_fail", PBool true);
                       ("trigger", PStr "VAC node adapter")]).

Definition link_sinks (default_sink : pyval) : M unit :=
  try_except
    (log INFO "Assigning VAC sink monitors output to default device..." [] ;;
     step (link_fault w) 0
       (system (PwLink "Arctis_Game:monitor_FL" default_sink "playback_FL")) ;;
     step (link_fault w) 1
       (system (PwLink "Arctis_Game:monitor_FR" default_sink "playback_FR")) ;;
     step (link_fault w) 2
       (system (PwLink "Arctis_Chat:monitor_FL" default_sink "playback_FL")) ;;
     step (link_fault w) 3
       (system (PwLink "Arctis_Chat:monitor_FR" default_sink "playback_FR")))
    (fun _ =>
       log ERROR "Couldn't create the links to pipe LR from VAC to default device" [] ;;
       die_gracefully [("sink_fail", PBool true);
                       ("trigger", PStr "LR links")]).

Definition resolve_ids : M unit :=
  try_except
    (emit (Run WpctlStatus) ;;
     wpctl_output <- of_outcome (wpctl_status_ids w) ;;
     match Re.search (Re.id_of_role "Arctis" "Game") wpctl_output with
     | Some m =>
         modify (set_game_id (Some (Re.group1 m))) ;;
         system (WpctlSetDefault (Re.group1 m)) ;;
         log INFO "Set Arctis_Game (ID: {}) as default sink"
           [PStr (Re.group1 m)]
     | None =>
         modify (set_game_id None) ;;
         log WARNING "Could not find Arctis_Game ID to set as default" []
     end ;;
     match Re.search (Re.id_of_role "Arctis" "Chat") wpctl_output with
     | Some m =>
         modify (set_chat_id (Some (Re.group1 m))) ;;
         log INFO "Found Arctis_Chat (ID: {})" [PStr (Re.group1 m)]
     | None =>
         modify (set_chat_id None) ;;
         log WARNING "Could not find Arctis_Chat ID" []
     end)
    (fun e =>
       log WARNING "Could not set Arctis_Game as default sink: {}"
         [PStr e] ;;
       modify (set_game_id None) ;;
       modify (set_chat_id None)).

(** The values of the two environment variables in the error lines
    are left out. *)
Definition _init_VAC : M unit :=
  log INFO "Waiting for PipeWire connection..." [] ;;
  up <- wait_for_pipewire w default_max_attempts default_delay ;;
  when (negb up)
    (log ERROR "PipeWire is not available after waiting. Check if pipewire.service is running." [] ;;
     log ERROR "XDG_RUNTIME_DIR={}" [] ;;
     log ERROR "PIPEWIRE_RUNTIME_DIR={}" [] ;;
     die_gracefully [("trigger", PStr "PipeWire not available")]) ;;
  log INFO "PipeWire connection established!" [] ;;
  capture_default_sink ;;
  default_sink <- choose_default_sink ;;
  destroy_old_sinks ;;
  create_sinks ;;
  link_sinks default_sink ;;
  resolve_ids.

Definition __init__ : M unit :=
  Common.__init__ w die_gracefully _init_VAC
    "  or the Nova 7 WoW Edition models".

(** *** The polling loop *)

Record loop_state : Type := {
  last_game_vol : option Z;
  last_chat_vol : option Z
}.

Definition loop_start : loop_state :=
  {| last_game_vol := None; last_chat_vol := None |}.

(** One turn of [while True], on what the read meets. *)
Definition iteration (l : loop_state) (ev : loop_event)
  : M (loop_ctl loop_state) :=
  s <- get_self ;;
  emit (UsbRead (addr s) 64 (Some 1000)) ;;
  match ev with
  | Sigterm => __handle_sigterm ;; ret (Continue l)
  | Read USBTimeoutError => ret (Continue l)
  | Read USBError =>
      log FATAL "USB input/output error - likely disconnect" [] ;;
      ret Break
  | Read (Data read_input) =>
      game_val <- index read_input 1 ;;
      chat_val <- index read_input 2 ;;
      if differs game_val (last_game_vol l)
         || differs chat_val (last_chat_vol l)
      then
        let default_device_volume := div100 game_val in
        let virtual_device_volume := div100 chat_val in
        match game_id s with
        | Some id =>
            when (PyStr.truthy id)
              (system (WpctlSetVolume id default_device_volume))
        | None => ret tt
        end ;;
        match chat_id s with
        | Some id =>
            when (PyStr.truthy id)
              (system (WpctlSetVolume id virtual_device_volume))
        | None => ret tt
        end ;;
        ret (Continue {| last_game_vol := Some game_val;
                         last_chat_vol := Some chat_val |})
      else ret (Continue l)
  end.

(** The loop over a finite run of events: [None] when it was left
    by [break], the loop state when it is still polling. *)
Fixpoint poll (l : loop_state) (evs : list loop_event)
  : M (option loop_state) :=
  match evs with
  | [] => ret (Some l)
  | ev :: evs' =>
      c <- iteration l ev ;;
      match c with
      | Continue l' => poll l' evs'
      | Break => ret None
      end
  end.

Definition start_modulator_signal (evs : list loop_event)
  : M (option loop_state) :=
  log INFO "Reading modulator USB input started" [] ;;
  log INFO dashes [] ;;
  log INFO "Arctis 7+ ChatMix Enabled!" [] ;;
  log INFO dashes [] ;;
  poll loop_start evs.

(** The script: build the service, start the loop. *)
Definition main (evs : list loop_event) : status * trace :=
  match (__init__ ;; start_modulator_signal evs) (self0, []) with
  | (Ok None, st) => (Finished, snd st)
  | (Ok (Some _), st) => (Polling, snd st)
  | (Raise (SystemExit code), st) => (Exited code, snd st)
  | (Raise (PyError name), st) => (Crashed name, snd st)
  end.
End Service.
End Arctis_7_Plus_ChatMix.

(** ** [AllSound7P_ChatMix.py] *)

Module AllSound7P_ChatMix.
Import Common.

Section Service.
Variable w : world.

(** [die_gracefully(self, sink_creation_fail=False, trigger=None)];
    this file restores no default sink. *)
Definition die_gracefully_body (sink_creation_fail trigger : pyval)
  : M unit :=
  log INFO "Cleanup on shutdown" [] ;;
  when (eq_False sink_creation_fail)
    (log INFO "Destroying virtual sinks..." [] ;;
     system (PwCliDestroy "ChatMix_Game" Stdout) ;;
     system (PwCliDestroy "ChatMix_Chat" Stdout)) ;;
  match trigger with
  | PNone =>
      log INFO dashes [] ;;
      log INFO "AllSound ChatMix shut down gracefully... Bye Bye!" [] ;;
      log INFO dashes [] ;;
      sys_exit 0
  | PStr t =>
      log INFO dashes [] ;;
      log FATAL ("Failure reason: " ++ t) [] ;;
      log INFO dashes [] ;;
      sys_exit 1
  | _ =>
      log INFO dashes [] ;;
      raise (PyError "TypeError")
  end.

Definition die_gracefully : list (string * pyval) -> M unit :=
  call_die_gracefully die_gracefully_body.

(** [__handle_sigterm(self, sig, frame)] *)
Definition __handle_sigterm : M unit := die_gracefully [].

Definition capture_default_sink : M unit :=
  try_except
    (name <- default_sink_name w ;;
     modify (set_system_default_sink
               (if Py.truthy name then name else PStr "auto")) ;;
     log INFO "default sink identified as {}"
       [if Py.truthy name then name else PStr "auto"])
    (fun e =>
       log WARNING "Could not determine default sink name, using auto: {}"
         [PStr e] ;;
       modify (set_system_default_sink (PStr "auto"))).

Definition destroy_old_sinks : M unit :=
  system (PwCliDestroy "ChatMix_Game" Stderr) ;;
  system (PwCliDestroy "ChatMix_Chat" Stderr) ;;
  when ((destroy_old_game w =? 0) || (destroy_old_chat w =? 0))
    (log INFO "Attempted to destroy old VAC sinks at init but none existed" []).

Definition create_sinks : M unit :=
  try_except
    (log INFO "Creating VACS..." [] ;;
     step (create_fault w) 0
       (system (PwCliCreateNode "ChatMix_Game" "ChatMix Game")) ;;
     step (create_fault w) 1
       (system (PwCliCreateNode "ChatMix_Chat" "ChatMix Chat")) ;;
     step (create_fault w) 2 (emit (Sleep 0.5%float)))
    (fun _ =>
       log ERROR "Failure to create node adapter - ChatMix virtual device could not be created" [] ;;
       die_gracefully [("sink_creation_fail", PBool true);
                       ("trigger", PStr "VAC node adapter")]).

Definition link_sinks : M unit :=
  try_except
    (s <- get_self ;;
     default_sink <- match system_default_sink s with
                     | Some v => ret v
                     | None => raise (PyError "AttributeError")
                     end ;;
     log INFO "Assigning VAC sink monitors output to default device..." [] ;;
     step (link_fault w) 0
       (system (PwLink "ChatMix_Game:monitor_FL" default_sink "playback_FL")) ;;
     step (link_fault w) 1
       (system (PwLink "ChatMix_Game:monitor_FR" default_sink "playback_FR")) ;;
     step (link_fault w) 2
       (system (PwLink "ChatMix_Chat:monitor_FL" default_sink "playback_FL")) ;;
     step (link_fault w) 3
       (system (PwLink "ChatMix_Chat:monitor_FR" default_sink "playback_FR")))
    (fun _ =>
       log ERROR "Couldn't create the links to pipe LR from VAC to default device" [] ;;
       die_gracefully [("sink_fail", PBool true);
                       ("trigger", PStr "LR links")]).

Definition resolve_ids : M unit :=
  try_except
    (emit (Run WpctlStatus) ;;
     wpctl_output <- of_outcome (wpctl_status_ids w) ;;
     match Re.search (Re.id_of_role "ChatMix" "Game") wpctl_output with
     | Some m =>
         modify (set_game_id (Some (Re.group1 m))) ;;
         log INFO "Found ChatMix_Game (ID: {})" [PStr (Re.group1 m)]
     | None =>
         modify (set_game_id None) ;;
         log WARNING "Could not find ChatMix_Game ID" []
     end ;;
     match Re.search (Re.id_of_role "ChatMix" "Chat") wpctl_output with
     | Some m =>
         modify (set_chat_id (Some (Re.group1 m))) ;;
         log INFO "Found ChatMix_Chat (ID: {})" [PStr (Re.group1 m)]
     | None =>
         modify (set_chat_id None) ;;
         log WARNING "Could not find ChatMix_Chat ID" []
     end)
    (fun e =>
       log WARNING "Could not find ChatMix sink IDs: {}" [PStr e] ;;
       modify (set_game_id None) ;;
       modify (set_chat_id None)).

Definition _init_VAC : M unit :=
  log INFO "Waiting for PipeWire connection..." [] ;;
  up <- wait_for_pipewire w default_max_attempts default_delay ;;
  when (negb up)
    (log ERROR "PipeWire is not available after waiting. Check if pipewire.service is running." [] ;;
     log ERROR "XDG_RUNTIME_DIR={}" [] ;;
     log ERROR "PIPEWIRE_RUNTIME_DIR={}" [] ;;
     die_gracefully [("trigger", PStr "PipeWire not available")]) ;;
  log INFO "PipeWire connection established!" [] ;;
  capture_default_sink ;;
  destroy_old_sinks ;;
  create_sinks ;;
  link_sinks ;;
  resolve_ids.

Definition __init__ : M unit :=
  Common.__init__ w die_gracefully _init_VAC
    " or the Nova 7 WoW Edition models.".

(** *** The polling loop; it keeps no memory of the last report. *)

Definition iteration (ev : loop_event) : M (loop_ctl unit) :=
  s <- get_self ;;
  emit (UsbRead (addr s) 64 None) ;;
  match ev with
  | Sigterm => __handle_sigterm ;; ret (Continue tt)
  | Read USBTimeoutError => ret (Continue tt)
  | Read USBError =>
      log FATAL "USB input/output error - likely disconnect" [] ;;
      ret Break
  | Read (Data read_input) =>
      game_val <- index read_input 1 ;;
      let default_device_volume := div100 game_val in
      chat_val <- index read_input 2 ;;
      let virtual_device_volume := div100 chat_val in
      match game_id s with
      | Some id =>
          when (PyStr.truthy id)
            (system (WpctlSetVolume id default_device_volume))
      | None => ret tt
      end ;;
      match chat_id s with
      | Some id =>
          when (PyStr.truthy id)
            (system (WpctlSetVolume id virtual_device_volume))
      | None => ret tt
      end ;;
      ret (Continue tt)
  end.

Fixpoint poll (evs : list loop_event) : M (option unit) :=
  match evs with
  | [] => ret (Some tt)
  | ev :: evs' =>
      c <- iteration ev ;;
      match c with
      | Continue _ => poll evs'
      | Break => ret None
      end
  end.

Definition start_modulator_signal (evs : list loop_event)
  : M (option unit) :=
  log INFO "Reading modulator USB input started" [] ;;
  log INFO dashes [] ;;
  log INFO "ChatMix Enabled!" [] ;;
  log INFO dashes [] ;;
  poll evs.

Definition main (evs : list loop_event) : status * trace :=
  match (__init__ ;; start_modulator_signal evs) (self0, []) with
  | (Ok None, st) => (Finished, snd st)
  | (Ok (Some _), st) => (Polling, snd st)
  | (Raise (SystemExit code), st) => (Exited code, snd st)
  | (Raise (PyError name), st) => (Crashed name, snd st)
  end.
End Service.
End AllSound7P_ChatMix.

(** ** Sample worlds *)

Module Sample.

Definition chatmix_endpoint : endpoint :=
  {| bEndpointAddress := 0x85; wMaxPacketSize := 64 |}.

Definition plain (n : Z) : interface :=
  {| bInterfaceNumber := n; endpoints := [] |}.

Definition hid : interface :=
  {| bInterfaceNumber := 5; endpoints := [chatmix_endpoint] |}.

(** A headset whose ninth interface is the ChatMix HID. *)
Definition headset (product : Z) : device :=
  {| idVendor := 0x1038; idProduct := product;
     configurations :=
       [{| interfaces :=
             [plain 0; plain 1; plain 1; plain 2; plain 2; plain 3; plain 3;
              plain 4; hid] |}];
     kernel_driver := [5] |}.

Definition arctis7p : device := headset 0x220e.
Definition nova7 : device := headset 0x227a.

Definition keyboard : device :=
  {| idVendor := 0x046d; idProduct := 0xc31c;
     configurations := [{| interfaces := [plain 0] |}];
     kernel_driver := [0] |}.

Definition pw_data : pyval :=
  PList
    [PDict [("id", PInt 0); ("type", PStr "PipeWire:Interface:Core")];
     PDict [("id", PInt 31); ("type", PStr "PipeWire:Interface:Metadata");
            ("metadata",
             PList [PDict [("subject", PInt 0);
                           ("key", PStr "default.audio.source");
                           ("value", PDict [("name", PStr "mic")])];
                    PDict [("subject", PInt 0);
                           ("key", PStr "default.audio.sink");
                           ("value", PDict [("name", PStr "speakers")])]])]].

Definition nl : string := String PyStr.newline EmptyString.
Definition dq : string := String PyStr.dquote EmptyString.

Definition status_before : string :=
  "Audio" ++ nl ++ " +- Sinks:" ++ nl ++
  " |  *   46. speakers    [vol: 0.40]" ++ nl.

Definition status_after : string :=
  "Audio" ++ nl ++ " +- Sinks:" ++ nl ++
  " |      46. speakers    [vol: 0.40]" ++ nl ++
  " |  *   57. Arctis 7+ Game    [vol: 1.00]" ++ nl ++
  " |      58. Arctis 7+ Chat    [vol: 1.00]" ++ nl ++
  " |      61. ChatMix Game    [vol: 1.00]" ++ nl ++
  " |      62. ChatMix Chat    [vol: 1.00]" ++ nl.

(** A listing without any Arctis node. *)
Definition objects_plain : string :=
  "    id 46, type PipeWire:Interface:Node/3" ++ nl ++
  "        node.name = " ++ dq ++ "speakers" ++ dq ++ nl.

(** A listing in which the headset's own sink appears. *)
Definition objects_headset : string :=
  objects_plain ++
  "    id 52, type PipeWire:Interface:Node/3" ++ nl ++
  "        node.name = " ++ dq ++
  "alsa_output.usb-SteelSeries_Arctis_7_-00.analog-stereo" ++ dq ++ nl.

Definition ready : string := "[ { " ++ dq ++ "id" ++ dq ++ ": 0 } ]".

Definition world0 : world :=
  {| usb_backend := true;
     usb_devices := [keyboard; arctis7p];
     pw_dump_wait := fun _ => Returned ready;
     pw_dump := Returned pw_data;
     pw_cli_info_default_sink := "speakers" ++ nl;
     wpctl_status_default := status_before;
     pw_cli_list_objects := Returned objects_plain;
     destroy_old_game := 256;
     destroy_old_chat := 256;
     create_fault := None;
     link_fault := None;
     wpctl_status_ids := Returned status_after;
     wpctl_status_teardown := status_after |}.

Definition with_devices (devs : list device) (w : world) : world :=
  {| usb_backend := usb_backend w;
     usb_devices := devs;
     pw_dump_wait := pw_dump_wait w;
     pw_dump := pw_dump w;
     pw_cli_info_default_sink := pw_cli_info_default_sink w;
     wpctl_status_default := wpctl_status_default w;
     pw_cli_list_objects := pw_cli_list_objects w;
     destroy_old_game := destroy_old_game w;
     destroy_old_chat := destroy_old_chat w;
     create_fault := create_fault w;
     link_fault := link_fault w;
     wpctl_status_ids := wpctl_status_ids w;
     wpctl_status_teardown := wpctl_status_teardown w |}.

Definition with_objects (o : outcome string) (w : world) : world :=
  {| usb_backend := usb_backend w;
     usb_devices := usb_devices w;
     pw_dump_wait := pw_dump_wait w;
     pw_dump := pw_dump w;
     pw_cli_info_default_sink := pw_cli_info_default_sink w;
     wpctl_status_default := wpctl_status_default w;
     pw_cli_list_objects := o;
     destroy_old_game := destroy_old_game w;
     destroy_old_chat := destroy_old_chat w;
     create_fault := create_fault w;
     link_fault := link_fault w;
     wpctl_status_ids := wpctl_status_ids w;
     wpctl_status_teardown := wpctl_status_teardown w |}.


Definition with_pw_dump_wait (f : nat -> outcome string) (w : world)
  : world :=
  {| usb_backend := usb_backend w;
     usb_devices := usb_devices w;
     pw_dump_wait := f;
     pw_dump := pw_dump w;
     pw_cli_info_default_sink := pw_cli_info_default_sink w;
     wpctl_status_default := wpctl_status_default w;
     pw_cli_list_objects := pw_cli_list_objects w;
     destroy_old_game := destroy_old_game w;
     destroy_old_chat := destroy_old_chat w;
     create_fault := create_fault w;
     link_fault := link_fault w;
     wpctl_status_ids := wpctl_status_ids w;
     wpctl_status_teardown := wpctl_status_teardown w |}.

(** A world in which PipeWire never answers. *)
Definition down : world :=
  with_pw_dump_wait (fun _ => Returned "can't connect to PipeWire") world0.


(** A 64-byte report with the two dial values at offsets 1 and 2. *)
Definition report (game chat : Z) : list Z :=
  0x45 :: game :: chat :: repeat 0 61.

End Sample.

(** ** Reading traces *)

Local Open Scope list_scope.

Definition is_cleanup (e : event) : bool :=
  match e with
  | Log INFO msg _ => String.eqb msg "Cleanup on shutdown"
  | _ => false
  end.

(** How many times the body of [die_gracefully] was entered. *)
Definition teardown_runs (t : trace) : nat :=
  List.length (filter is_cleanup t).

Definition is_destroy (e : event) : bool :=
  match e with Run (PwCliDestroy _ _) => true | _ => false end.

Definition is_set_default (e : event) : bool :=
  match e with Run (WpctlSetDefault _) => true | _ => false end.

Definition is_set_volume (e : event) : bool :=
  match e with Run (WpctlSetVolume _ _) => true | _ => false end.

(** A call to the audio service: any command line. *)
Definition is_audio_call (e : event) : bool :=
  match e with Run _ => true | _ => false end.

(** An event that belongs to no teardown. *)
Definition quiet (e : event) : bool :=
  negb (is_cleanup e) && negb (is_destroy e) && negb (is_set_default e).

(** The two dial values of a report, when it is long enough. *)
Definition decode (read_input : list Z) : option (Z * Z) :=
  match nth_error read_input 1, nth_error read_input 2 with
  | Some g, Some c => Some (g, c)
  | _, _ => None
  end.

(** The volume commands of one update, for the sinks whose id is set. *)
Definition volume_commands (s : self) (g c : Z) : trace :=
  ((if Common.truthy_id (game_id s) then
      match game_id s with
      | Some id => [Run (WpctlSetVolume id (Common.div100 g))]
      | None => []
      end
    else []) ++
   (if Common.truthy_id (chat_id s) then
      match chat_id s with
      | Some id => [Run (WpctlSetVolume id (Common.div100 c))]
      | None => []
      end
    else []))%list.

(** A read the loop survives: a time-out or a report of three bytes
    or more. *)
Definition readable (r : read_result) : Prop :=
  match r with
  | Data bytes => decode bytes <> None
  | USBTimeoutError => True
  | USBError => False
  end.

(** *** Debounce: the claim's words and the code's behaviour *)

Definition pair_eqb (p q : Z * Z) : bool :=
  (fst p =? fst q) && (snd p =? snd q).

(** Following the claim's words: a step issues commands exactly when
    its pair differs from the pair before it, and the first pair
    always counts as a change. *)
Fixpoint changes_after (prev : option (Z * Z)) (pairs : list (Z * Z))
  : list bool :=
  match pairs with
  | [] => []
  | p :: rest =>
      match prev with
      | None => true
      | Some q => negb (pair_eqb p q)
      end :: changes_after (Some p) rest
  end.

Definition change_steps (pairs : list (Z * Z)) : list bool :=
  changes_after None pairs.

(** From the code: run the loop of [Arctis_7_Plus_ChatMix.py] over
    the reports and note, turn by turn, whether a volume command was
    issued. *)
Fixpoint arctis_issuing_steps (w : world) (s : self)
         (l : Arctis_7_Plus_ChatMix.loop_state) (reads : list (list Z))
  : list bool :=
  match reads with
  | [] => []
  | bytes :: rest =>
      match Arctis_7_Plus_ChatMix.iteration w l (Read (Data bytes)) (s, [])
      with
      | (Ok (Common.Continue l'), (_, t)) =>
          existsb is_set_volume t :: arctis_issuing_steps w s l' rest
      | _ => []
      end
  end.

(** The same for the loop of [AllSound7P_ChatMix.py]. *)
Fixpoint allsound_issuing_steps (s : self) (reads : list (list Z))
  : list bool :=
  match reads with
  | [] => []
  | bytes :: rest =>
      match AllSound7P_ChatMix.iteration (Read (Data bytes)) (s, []) with
      | (Ok (Common.Continue _), (_, t)) =>
          existsb is_set_volume t :: allsound_issuing_steps s rest
      | _ => []
      end
  end.

Definition count_true (bs : list bool) : nat :=
  List.length (filter (fun b => b) bs).

(** The five pairs of the specification's example. *)
Definition example_pairs : list (Z * Z) :=
  [(50, 50); (50, 50); (60, 50); (60, 50); (60, 70)].

Definition reports_of (pairs : list (Z * Z)) : list (list Z) :=
  map (fun p => Sample.report (fst p) (snd p)) pairs.

(** A service whose two sink ids were found, one with only the Game
    id, and one with only the Chat id. *)
Definition both_ids : self :=
  Common.set_chat_id (Some "58") (Common.set_game_id (Some "57") self0).

Definition game_only : self := Common.set_game_id (Some "57") self0.

Definition chat_only : self := Common.set_chat_id (Some "58") self0.

(** *** Device selection: the claim's words *)

Definition known_ids : list (Z * Z) := [(0x1038, 0x220e); (0x1038, 0x227a)].

(** Following the claim's words: the first enumerated device that
    matches any of the known pairs. *)
Definition first_known_device (known : list (Z * Z)) (devs : list device)
  : option device :=
  find (fun d => existsb (fun vp => Common.matches (fst vp) (snd vp) d) known)
       devs.

(** *** The exact value of a volume level *)

(** The rational number a finite float stands for. *)
Definition exact (x : float) : Q :=
  match Prim2SF x with
  | S754_finite sgn m e =>
      (((if sgn then Z.neg m else Z.pos m) # 1) * Qpower (2 # 1) e)%Q
  | _ => 0%Q
  end.

Definition is_finite (x : float) : bool :=
  match Prim2SF x with
  | S754_finite _ _ _ | S754_zero _ => true
  | _ => false
  end.

Definition distance (x : float) (q : Q) : Q := Qabs (exact x - q)%Q.

(** [x] is a binary64 number nearest to [v / 100]: neither of its two
    neighbours is closer. *)
Definition nearest_to_hundredth (v : Z) (x : float) : bool :=
  is_finite x
  && Qle_bool (distance x (v # 100)) (distance (PrimFloat.next_up x) (v # 100))
  && Qle_bool (distance x (v # 100))
              (distance (PrimFloat.next_down x) (v # 100)).

(** *** Descriptions of traces used in the statements *)

(** The loop state remembers the pair of the last report seen. *)
Definition tracks (prev : option (Z * Z))
           (l : Arctis_7_Plus_ChatMix.loop_state) : Prop :=
  match prev with
  | None => l = Arctis_7_Plus_ChatMix.loop_start
  | Some (g, c) =>
      l = {| Arctis_7_Plus_ChatMix.last_game_vol := Some g;
             Arctis_7_Plus_ChatMix.last_chat_vol := Some c |}
  end.

(** What the restoration emits when the recorded default sink is the
    string [name]. *)
Definition restore_by_name_trace (w : world) (name : string) : trace :=
  if String.eqb name "auto" then []
  else Run WpctlStatus ::
       match Re.search (Re.id_of_name name) (wpctl_status_teardown w) with
       | Some m => [Run (WpctlSetDefault (Re.group1 m))]
       | None => []
       end.

Definition restore_trace (w : world) (s : self) (name : string) : trace :=
  match system_default_sink_id s with
  | Some (Some id) =>
      if PyStr.truthy id then [Run (WpctlSetDefault id)]
      else restore_by_name_trace w name
  | _ => restore_by_name_trace w name
  end.

(** The commands the creation block had issued before it raised. *)
Definition created_before (prefix description : string) (k : nat) : trace :=
  match k with
  | O => []
  | S O => [Run (PwCliCreateNode (prefix ++ "_Game") (description ++ " Game"))]
  | S (S O) =>
      [Run (PwCliCreateNode (prefix ++ "_Game") (description ++ " Game"));
       Run (PwCliCreateNode (prefix ++ "_Chat") (description ++ " Chat"))]
  | _ => []
  end%string.


(** The device the two [find] calls select. *)
Definition headset_of (devs : list device) : option device :=
  match find (Common.matches 0x1038 0x220e) devs with
  | Some d => Some d
  | None => find (Common.matches 0x1038 0x227a) devs
  end.

Definition is_link (e : event) : bool :=
  match e with Run (PwLink _ _ _) => true | _ => false end.

(** The four links of the two sinks named [prefix_Game] and
    [prefix_Chat] to the node [target]. *)
Definition links_to (prefix : string) (target : pyval) : trace :=
  [Run (PwLink (prefix ++ "_Game:monitor_FL") target "playback_FL");
   Run (PwLink (prefix ++ "_Game:monitor_FR") target "playback_FR");
   Run (PwLink (prefix ++ "_Chat:monitor_FL") target "playback_FL");
   Run (PwLink (prefix ++ "_Chat:monitor_FR") target "playback_FR")]%string.

(** [j] failed attempts, each followed by the pause. *)
Fixpoint failed_attempts (delay : float) (j : nat) : trace :=
  match j with
  | O => []
  | S j' => Run PwDump :: Sleep delay :: failed_attempts delay j'
  end.

(** The answer of an attempt that leaves PipeWire unreachable. *)
Definition unreachable (o : outcome string) : Prop :=
  match o with
  | Returned result => Common.pipewire_answers result = false
  | Raised _ => True
  end.

Definition is_pw_dump (e : event) : bool :=
  match e with Run PwDump => true | _ => false end.

Definition is_sleep (e : event) : bool :=
  match e with Sleep _ => true | _ => false end.

(** The three error lines logged before the teardown. *)
Definition pipewire_errors : trace :=
  [Log ERROR "PipeWire is not available after waiting. Check if pipewire.service is running." [];
   Log ERROR "XDG_RUNTIME_DIR={}" [];
   Log ERROR "PIPEWIRE_RUNTIME_DIR={}" []].

(** *** Properties of whole runs *)

(** A run of [m] from any state extends the trace by events that all
    satisfy [Q], moves the attributes along [R], and raises only
    exceptions that satisfy [E]. *)
Definition keeps (R : self -> self -> Prop) (Q : event -> bool)
           (E : exn -> bool) {A : Type} (m : M A) : Prop :=
  forall s t,
  exists r s' t1,
    m (s, t) = (r, (s', t ++ t1))
    /\ R s s'
    /\ forallb Q t1 = true
    /\ (forall e, r = Raise e -> E e = true).

Definition any_state (s s' : self) : Prop := True.

Definition any_event (e : event) : bool := true.

Definition any_exn (e : exn) : bool := true.

Definition is_py_error (e : exn) : bool :=
  match e with
  | PyError _ => true
  | SystemExit _ => false
  end.

(** The USB attributes set by [__init__] are left as they are. *)
Definition same_usb (s s' : self) : Prop :=
  dev s' = dev s /\ interface_num s' = interface_num s /\ addr s' = addr s.

(** The recorded default sink is left as it is. *)
Definition same_default (s s' : self) : Prop :=
  system_default_sink s' = system_default_sink s
  /\ system_default_sink_id s' = system_default_sink_id s.

Definition no_set_default (e : event) : bool := negb (is_set_default e).

Definition no_cleanup (e : event) : bool := negb (is_cleanup e).

Definition is_create (e : event) : bool :=
  match e with Run (PwCliCreateNode _ _) => true | _ => false end.

Definition no_create (e : event) : bool := negb (is_create e).

(** A run of [m] enters the teardown at most once: not at all when
    it returns, and exactly once when it leaves through [sys.exit]. *)
Definition once {A : Type} (m : M A) : Prop :=
  forall s t,
  exists r s' t1,
    m (s, t) = (r, (s', t ++ t1))
    /\ (teardown_runs t1 <= 1)%nat
    /\ (forall a, r = Ok a -> teardown_runs t1 = 0%nat)
    /\ (forall c, r = Raise (SystemExit c) -> teardown_runs t1 = 1%nat).

(** A run of [m] stays clear of the teardown and of [sys.exit]. *)
Definition calm {A : Type} (m : M A) : Prop :=
  keeps any_state no_cleanup is_py_error m.

(** [sys.exit] with a status other than 1 is ruled out. *)
Definition exits_1 (e : exn) : bool :=
  match e with
  | SystemExit c => c =? 1
  | PyError _ => true
  end.

(** [sys.exit] is called with 0 or 1 only. *)
Definition exits_0_or_1 (e : exn) : bool :=
  match e with
  | SystemExit c => (c =? 0) || (c =? 1)
  | PyError _ => true
  end.

Definition is_sigterm (ev : loop_event) : bool :=
  match ev with Sigterm => true | Read _ => false end.

Definition is_usb_error (ev : loop_event) : bool :=
  match ev with Read USBError => true | _ => false end.

(** The links issued before call [k] of the linking block raised. *)
Definition linked_before (prefix : string) (target : pyval) (k : nat)
  : trace :=
  firstn k (links_to prefix target).

(** The events of a teardown that restores nothing and destroys the
    two sinks named [prefix_Game] and [prefix_Chat], for the failure
    reason [reason]. *)
Definition fatal_teardown (prefix reason : string) : trace :=
  [Log INFO "Cleanup on shutdown" [];
   Log INFO "Destroying virtual sinks..." [];
   Run (PwCliDestroy (prefix ++ "_Game") Stdout);
   Run (PwCliDestroy (prefix ++ "_Chat") Stdout);
   Log INFO dashes [];
   Log FATAL ("Failure reason: " ++ reason) [];
   Log INFO dashes []]%string.

(** The interface and endpoint that [__init__] selects on a device:
    interface index 8 of the first configuration and its first
    endpoint. *)
Definition chatmix_endpoint_of (d : device) : option (interface * endpoint) :=
  match nth_error (configurations d) 0 with
  | None => None
  | Some cfg =>
      match nth_error (interfaces cfg) 8 with
      | None => None
      | Some i =>
          match nth_error (endpoints i) 0 with
          | None => None
          | Some e => Some (i, e)
          end
      end
  end.

(** Sample worlds for the start-up failures. *)
Definition world_without_backend : world :=
  {| usb_backend := false;
     usb_devices := usb_devices Sample.world0;
     pw_dump_wait := pw_dump_wait Sample.world0;
     pw_dump := pw_dump Sample.world0;
     pw_cli_info_default_sink := pw_cli_info_default_sink Sample.world0;
     wpctl_status_default := wpctl_status_default Sample.world0;
     pw_cli_list_objects := pw_cli_list_objects Sample.world0;
     destroy_old_game := destroy_old_game Sample.world0;
     destroy_old_chat := destroy_old_chat Sample.world0;
     create_fault := None;
     link_fault := None;
     wpctl_status_ids := wpctl_status_ids Sample.world0;
     wpctl_status_teardown := wpctl_status_teardown Sample.world0 |}.

(** A device with the right ids but a single interface. *)
Definition bare_headset : device :=
  {| idVendor := 0x1038; idProduct := 0x220e;
     configurations := [{| interfaces := [Sample.plain 0] |}];
     kernel_driver := [] |}.

Definition world_with_link_fault (k : nat) : world :=
  {| usb_backend := true;
     usb_devices := usb_devices Sample.world0;
     pw_dump_wait := pw_dump_wait Sample.world0;
     pw_dump := pw_dump Sample.world0;
     pw_cli_info_default_sink := pw_cli_info_default_sink Sample.world0;
     wpctl_status_default := wpctl_status_default Sample.world0;
     pw_cli_list_objects := pw_cli_list_objects Sample.world0;
     destroy_old_game := destroy_old_game Sample.world0;
     destroy_old_chat := destroy_old_chat Sample.world0;
     create_fault := None;
     link_fault := Some k;
     wpctl_status_ids := wpctl_status_ids Sample.world0;
     wpctl_status_teardown := wpctl_status_teardown Sample.world0 |}.

(** Every character of [s] satisfies [p]. *)
Fixpoint all_chars (p : ascii -> bool) (s : string) : bool :=
  match s with
  | EmptyString => true
  | String c s' => p c && all_chars p s'
  end.

(** A pattern without capturing group. *)
Fixpoint groupless (r : Re.regex) : bool :=
  match r with
  | Re.Group _ => false
  | Re.Seq r1 r2 => groupless r1 && groupless r2
  | _ => true
  end.

(** A sink id as the loop wants it: [None], or a non-empty string of
    decimal digits. *)
Definition well_formed_id (id : option string) : Prop :=
  match id with
  | None => True
  | Some x => PyStr.truthy x = true /\ all_chars PyStr.is_digit x = true
  end.

(** A log line or a command that only reads the state of PipeWire. *)
Definition is_query (e : event) : bool :=
  match e with
  | Log _ _ _ => true
  | Run PwDump | Run PwCliInfoDefaultSink | Run WpctlStatus
  | Run PwCliListObjects => true
  | _ => false
  end.

(** The attributes other than the recorded default sink are left as
    they are. *)
Definition same_but_default (s s' : self) : Prop :=
  same_usb s s' /\ game_id s' = game_id s /\ chat_id s' = chat_id s.

(** The default sink is recorded the way the teardown of
    [Arctis_7_Plus_ChatMix.py] can use it: the name a non-empty string,
    the id [None] or a string of digits. *)
Definition default_recorded (s : self) : Prop :=
  exists name id,
    system_default_sink s = Some (PStr name)
    /\ PyStr.truthy name = true
    /\ system_default_sink_id s = Some id
    /\ well_formed_id id.

(** Whenever the computation returns, the state it leaves satisfies
    [P]. *)
Definition establishes (P : self -> Prop) {A : Type} (m : M A) : Prop :=
  forall s t a s' t', m (s, t) = (Ok a, (s', t')) -> P s'.

(** What the teardown of [Arctis_7_Plus_ChatMix.py] issues to restore
    the default sink: by the recorded id when there is one, else by
    the recorded name. *)
Definition restoration (w : world) (name : string) (id : option string)
  : trace :=
  match id with
  | Some x => [Run (WpctlSetDefault x)]
  | None => restore_by_name_trace w name
  end.

(** The teardown on a termination signal, for the sinks
    [prefix_Game] and [prefix_Chat]. *)
Definition graceful_shutdown (prefix bye : string) (restore : trace)
  : trace :=
  (Log INFO "Cleanup on shutdown" [] :: restore ++
   [Log INFO "Destroying virtual sinks..." [];
    Run (PwCliDestroy (prefix ++ "_Game")%string Stdout);
    Run (PwCliDestroy (prefix ++ "_Chat")%string Stdout);
    Log INFO dashes [];
    Log INFO bye [];
    Log INFO dashes []])%list.

(** The four lines logged when the polling starts. *)
Definition banner (enabled : string) : trace :=
  [Log INFO "Reading modulator USB input started" [];
   Log INFO dashes [];
   Log INFO enabled [];
   Log INFO dashes []].

(** *** The calls to the USB library that leave an event *)

Definition is_usb (e : event) : bool :=
  match e with
  | UsbFind _ _ | UsbDetachKernelDriver _ | UsbRead _ _ _ => true
  | _ => false
  end.

Definition no_usb (e : event) : bool :=
  match e with
  | UsbFind _ _ | UsbDetachKernelDriver _ | UsbRead _ _ _ => false
  | _ => true
  end.

(** The calls of [usb.core.find], [detach_kernel_driver] and [read]
    in a trace, in order. *)
Definition usb_events (t : trace) : trace := filter is_usb t.

(** The one or two calls of [usb.core.find]: the second is evaluated
    only when the first found nothing. *)
Definition finds (devs : list device) : trace :=
  UsbFind 0x1038 0x220e ::
  match find (Common.matches 0x1038 0x220e) devs with
  | Some _ => []
  | None => [UsbFind 0x1038 0x227a]
  end.

(** The kernel driver is detached from the interface when it holds
    it. *)
Definition detach (d : device) (i : interface) : trace :=
  if existsb (Z.eqb (bInterfaceNumber i)) (kernel_driver d)
  then [UsbDetachKernelDriver (bInterfaceNumber i)]
  else [].

(** The state when [_init_VAC] is entered: the device, interface
    number and endpoint address set, nothing else. *)
Definition located (d : device) (i : interface) (e : endpoint) : self :=
  Common.set_addr (bEndpointAddress e)
    (Common.set_interface_num (bInterfaceNumber i)
       (Common.set_dev (Some d) self0)).

(** *** The changes made to the audio graph *)

(** A command that changes the audio graph or its settings. *)
Definition is_mutation (e : event) : bool :=
  match e with
  | Run (PwCliDestroy _ _) | Run (PwCliCreateNode _ _) | Run (PwLink _ _ _)
  | Run (WpctlSetDefault _) | Run (WpctlSetVolume _ _) => true
  | _ => false
  end.

Definition no_mutation (e : event) : bool :=
  match e with
  | Run (PwCliDestroy _ _) | Run (PwCliCreateNode _ _) | Run (PwLink _ _ _)
  | Run (WpctlSetDefault _) | Run (WpctlSetVolume _ _) => false
  | _ => true
  end.

(** The changing commands of a trace, in order. *)
Definition mutations (t : trace) : trace := filter is_mutation t.

(** Every run of [m] extends the trace, and when it returns, the
    value, the state and the changing commands it issued satisfy
    [Post]. *)
Definition does {A : Type} (m : M A)
           (Post : A -> self -> trace -> Prop) : Prop :=
  forall s t, exists r s' t1,
    m (s, t) = (r, (s', t ++ t1))
    /\ (forall a, r = Ok a -> Post a s' (mutations t1)).

(** The removal of sinks a previous run may have left. *)
Definition stale (prefix : string) : trace :=
  [Run (PwCliDestroy (prefix ++ "_Game") Stderr);
   Run (PwCliDestroy (prefix ++ "_Chat") Stderr)]%string.

(** What a start-up that completes changes, in order: the stale sinks
    removed, the two sinks created, their monitors linked to [target],
    and [default], the command that sets the default sink, if any. *)
Definition provisioning (prefix description : string) (target : pyval)
           (default : trace) : trace :=
  (stale prefix ++ created_before prefix description 2
   ++ links_to prefix target ++ default)%list.

(** The command with which [Arctis_7_Plus_ChatMix.py] makes its game
    sink the default, when it found the sink's id. *)
Definition game_default (s : self) : trace :=
  match game_id s with
  | Some id => [Run (WpctlSetDefault id)]
  | None => []
  end.

(** Among the changing commands, only a volume change. *)
Definition only_volume (e : event) : bool :=
  match e with
  | Run (PwCliDestroy _ _) | Run (PwCliCreateNode _ _) | Run (PwLink _ _ _)
  | Run (WpctlSetDefault _) => false
  | _ => true
  end.

(** *** The default sink in the output of pw-dump *)

Definition field (k : string) (f : list (string * pyval)) : pyval :=
  match Py.lookup k f with
  | Some v => v
  | None => PNone
  end.

(** An object of the dump that is not a metadata object. *)
Definition is_other_object (v : pyval) : bool :=
  match v with
  | PDict f => negb (Py.eq_str (field "type" f) "PipeWire:Interface:Metadata")
  | _ => false
  end.

(** A metadata entry for another key than [default.audio.sink]. *)
Definition is_other_entry (v : pyval) : bool :=
  match v with
  | PDict g => negb (Py.eq_str (field "key" g) "default.audio.sink")
  | _ => false
  end.

(** The metadata object [v] holds the entries [metas]. *)
Definition metadata_object (v : pyval) (metas : list pyval) : Prop :=
  exists f,
    v = PDict f
    /\ Py.lookup "type" f = Some (PStr "PipeWire:Interface:Metadata")
    /\ Py.lookup "metadata" f = Some (PList metas).

(** The entry [v] names [name] as the default audio sink. *)
Definition names_default (v : pyval) (name : string) : Prop :=
  exists g h,
    v = PDict g
    /\ Py.lookup "key" g = Some (PStr "default.audio.sink")
    /\ Py.lookup "value" g = Some (PDict h)
    /\ Py.lookup "name" h = Some (PStr name).

Definition is_pw_cli_info (e : event) : bool :=
  match e with Run PwCliInfoDefaultSink => true | _ => false end.

(** A sample world in which pw-dump prints the value [v]. *)
Definition world_with_dump (v : pyval) : world :=
  {| usb_backend := true;
     usb_devices := usb_devices Sample.world0;
     pw_dump_wait := pw_dump_wait Sample.world0;
     pw_dump := Returned v;
     pw_cli_info_default_sink := pw_cli_info_default_sink Sample.world0;
     wpctl_status_default := wpctl_status_default Sample.world0;
     pw_cli_list_objects := pw_cli_list_objects Sample.world0;
     destroy_old_game := destroy_old_game Sample.world0;
     destroy_old_chat := destroy_old_chat Sample.world0;
     create_fault := None;
     link_fault := None;
     wpctl_status_ids := wpctl_status_ids Sample.world0;
     wpctl_status_teardown := wpctl_status_teardown Sample.world0 |}.

(** The id that [wpctl status] lists for the sink [name], if any. *)
Definition listed_id (name out : string) : option string :=
  option_map Re.group1 (Re.search (Re.id_of_name name) out).

(** *** Time-outs *)

Definition is_timeout (ev : loop_event) : bool :=
  match ev with
  | Read USBTimeoutError => true
  | _ => false
  end.

(** The events of the loop with the reads that timed out left out. *)
Definition without_timeouts (evs : list loop_event) : list loop_event :=
  filter (fun ev => negb (is_timeout ev)) evs.

(** Everything in a trace but the calls to the USB library: the log
    lines, the commands and the pauses, in order. *)
Definition apart_from_usb (t : trace) : trace := filter no_usb t.

(** What [m] returns and appends to the trace does not depend on the
    trace so far. *)
Definition framed {A : Type} (m : M A) : Prop :=
  forall s, exists r s' t1, forall t, m (s, t) = (r, (s', t ++ t1)).

(** *** The node the sinks are linked to *)

(** The name a line of the pw-cli listing gives for an Arctis node:
    the line holds [node.name], matches [.*[aA]rctis.*7] and carries a
    quoted name. *)
Definition arctis_node_name (line : string) : option string :=
  if PyStr.contains "node.name" line
     && (match Re.search Re.arctis line with
         | Some _ => true
         | None => false
         end)
  then option_map Re.group1 (Re.search Re.node_name line)
  else None.

Definition names_no_arctis_node (line : string) : bool :=
  match arctis_node_name line with
  | Some _ => false
  | None => true
  end.

(** The value that the block before the links hands on as
    [default_sink], when the recorded default sink is [v]. *)
Definition link_target (w : world) (v : pyval) : pyval :=
  match pw_cli_list_objects w with
  | Returned out =>
      match Arctis_7_Plus_ChatMix.find_arctis_device
              (PyStr.split_lines out) with
      | Some arctis_device =>
          if PyStr.truthy arctis_device then PStr arctis_device else v
      | None => v
      end
  | Raised _ => v
  end.

(** Every run of [m] extends the trace, and when it returns, the
    state before, the value, the state after and the events appended
    are related by [Post]. *)
Definition leads {A : Type} (m : M A)
           (Post : self -> A -> self -> trace -> Prop) : Prop :=
  forall s t, exists r s' t1,
    m (s, t) = (r, (s', t ++ t1))
    /\ (forall a, r = Ok a -> Post s a s' t1).

(** ** Sanity checks of the helpers *)

Example re_search_id :
  Re.search (Re.id_of_role "Arctis" "Game")
    "    57. Arctis 7+ Game    [vol: 1.00]" = Some ["57"].
Proof. reflexivity. Qed.

Example re_search_id_none :
  Re.search (Re.id_of_role "Arctis" "Chat")
    "    57. Arctis 7+ Game    [vol: 1.00]" = None.
Proof. reflexivity. Qed.

Example dashes_45 : String.length dashes = 45%nat.
Proof. reflexivity. Qed.

(** ** Lemmas on the polling loops *)

Lemma teardown_runs_app (t1 t2 : trace) :
  teardown_runs (t1 ++ t2) = (teardown_runs t1 + teardown_runs t2)%nat.
Proof.
  unfold teardown_runs. rewrite filter_app, length_app. reflexivity.
Qed.

Lemma quiet_no_teardown (t : trace) :
  forallb quiet t = true ->
  teardown_runs t = 0%nat /\ existsb is_destroy t = false
  /\ existsb is_set_default t = false.
Proof.
  induction t as [|e t IH]; simpl; [auto|].
  intros H. apply andb_true_iff in H. destruct H as [He Ht].
  destruct (IH Ht) as (I1 & I2 & I3).
  unfold quiet in He.
  apply andb_true_iff in He. destruct He as [He He3].
  apply andb_true_iff in He. destruct He as [He1 He2].
  apply negb_true_iff in He1, He2, He3.
  unfold teardown_runs in *. simpl. rewrite He1, He2, He3. auto.
Qed.

Lemma volume_commands_quiet (s : self) (g c : Z) :
  forallb quiet (volume_commands s g c) = true.
Proof.
  unfold volume_commands.
  destruct (Common.truthy_id (game_id s)), (Common.truthy_id (chat_id s));
    destruct (game_id s), (chat_id s); reflexivity.
Qed.

Lemma decode_inv (bytes : list Z) (g c : Z) :
  decode bytes = Some (g, c) ->
  nth_error bytes 1 = Some g /\ nth_error bytes 2 = Some c.
Proof.
  unfold decode.
  destruct (nth_error bytes 1), (nth_error bytes 2); intros H;
    inversion H; auto.
Qed.

(** One turn of the debouncing loop on a full report. *)
Lemma arctis_iteration_data (w : world) (l : Arctis_7_Plus_ChatMix.loop_state)
      (bytes : list Z) (g c : Z) (s : self) (t : trace) :
  decode bytes = Some (g, c) ->
  Arctis_7_Plus_ChatMix.iteration w l (Read (Data bytes)) (s, t) =
  if Common.differs g (Arctis_7_Plus_ChatMix.last_game_vol l)
     || Common.differs c (Arctis_7_Plus_ChatMix.last_chat_vol l)
  then
    (Ok (Common.Continue
           {| Arctis_7_Plus_ChatMix.last_game_vol := Some g;
              Arctis_7_Plus_ChatMix.last_chat_vol := Some c |}),
     (s, t ++ UsbRead (addr s) 64 (Some 1000) :: volume_commands s g c))
  else (Ok (Common.Continue l), (s, t ++ [UsbRead (addr s) 64 (Some 1000)])).
Proof.
  intros H. destruct (decode_inv _ _ _ H) as [Hg Hc].
  unfold Arctis_7_Plus_ChatMix.iteration, bind, get_self, emit, Common.index.
  rewrite Hg, Hc. cbn [fst snd ret].
  destruct (Common.differs g _ || Common.differs c _); [|reflexivity].
  unfold volume_commands, Common.truthy_id, system, emit, when, ret.
  destruct (game_id s) as [gid|], (chat_id s) as [cid|]; simpl;
    try destruct (PyStr.truthy gid); try destruct (PyStr.truthy cid);
    simpl; rewrite <- ?app_assoc; reflexivity.
Qed.

Lemma arctis_iteration_timeout (w : world)
      (l : Arctis_7_Plus_ChatMix.loop_state) (s : self) (t : trace) :
  Arctis_7_Plus_ChatMix.iteration w l (Read USBTimeoutError) (s, t) =
  (Ok (Common.Continue l), (s, t ++ [UsbRead (addr s) 64 (Some 1000)])).
Proof. reflexivity. Qed.

Lemma arctis_iteration_error (w : world)
      (l : Arctis_7_Plus_ChatMix.loop_state) (s : self) (t : trace) :
  Arctis_7_Plus_ChatMix.iteration w l (Read USBError) (s, t) =
  (Ok Common.Break,
   (s, t ++ [UsbRead (addr s) 64 (Some 1000);
             Log FATAL "USB input/output error - likely disconnect" []])).
Proof.
  unfold Arctis_7_Plus_ChatMix.iteration, bind, get_self, emit, log, emit, ret.
  simpl. rewrite <- app_assoc. reflexivity.
Qed.

(** A readable turn continues and emits only the read and volume
    commands. *)
Lemma arctis_iteration_readable (w : world)
      (l : Arctis_7_Plus_ChatMix.loop_state) (r : read_result)
      (s : self) (t : trace) :
  readable r ->
  exists l' t1,
    Arctis_7_Plus_ChatMix.iteration w l (Read r) (s, t)
    = (Ok (Common.Continue l'), (s, t ++ t1))
    /\ forallb quiet t1 = true.
Proof.
  destruct r as [bytes| |]; simpl; intros H.
  - destruct (decode bytes) as [[g c]|] eqn:D; [|congruence].
    rewrite (arctis_iteration_data w l bytes g c s t D).
    destruct (Common.differs g _ || Common.differs c _).
    + eexists _, _. split; [reflexivity|].
      simpl. apply volume_commands_quiet.
    + eexists _, _. split; reflexivity.
  - eexists _, _. rewrite arctis_iteration_timeout. split; reflexivity.
  - contradiction.
Qed.

(** Readable turns followed by a USB error: the loop is left by
    [break] and nothing of a teardown was emitted. *)
Lemma arctis_poll_until_error (w : world) (rs : list read_result)
      (rest : list loop_event) :
  Forall readable rs ->
  forall (l : Arctis_7_Plus_ChatMix.loop_state) (s : self) (t : trace),
  exists t',
    Arctis_7_Plus_ChatMix.poll w l (map Read rs ++ Read USBError :: rest) (s, t)
    = (Ok None, (s, t ++ t'))
    /\ forallb quiet t' = true.
Proof.
  induction 1 as [|r rs Hr Hrs IH]; intros l s t.
  - simpl. unfold bind. rewrite arctis_iteration_error.
    eexists. split; reflexivity.
  - simpl. unfold bind.
    destruct (arctis_iteration_readable w l r s t Hr) as (l' & t1 & E & Q).
    rewrite E.
    destruct (IH l' s (t ++ t1)) as (t2 & E2 & Q2).
    fold (@bind (Common.loop_ctl Arctis_7_Plus_ChatMix.loop_state)
                (option Arctis_7_Plus_ChatMix.loop_state)) in E2.
    exists (t1 ++ t2). split.
    + rewrite app_assoc. exact E2.
    + rewrite forallb_app, Q, Q2. reflexivity.
Qed.

(** One turn of the loop without memory on a full report. *)
Lemma allsound_iteration_data (bytes : list Z) (g c : Z)
      (s : self) (t : trace) :
  decode bytes = Some (g, c) ->
  AllSound7P_ChatMix.iteration (Read (Data bytes)) (s, t) =
  (Ok (Common.Continue tt),
   (s, t ++ UsbRead (addr s) 64 None :: volume_commands s g c)).
Proof.
  intros H. destruct (decode_inv _ _ _ H) as [Hg Hc].
  unfold AllSound7P_ChatMix.iteration, bind, get_self, emit, Common.index.
  rewrite Hg, Hc. cbn [fst snd ret].
  unfold volume_commands, Common.truthy_id, system, emit, when, ret.
  destruct (game_id s) as [gid|], (chat_id s) as [cid|]; simpl;
    try destruct (PyStr.truthy gid); try destruct (PyStr.truthy cid);
    simpl; rewrite <- ?app_assoc; reflexivity.
Qed.

Lemma allsound_iteration_error (s : self) (t : trace) :
  AllSound7P_ChatMix.iteration (Read USBError) (s, t) =
  (Ok Common.Break,
   (s, t ++ [UsbRead (addr s) 64 None;
             Log FATAL "USB input/output error - likely disconnect" []])).
Proof.
  unfold AllSound7P_ChatMix.iteration, bind, get_self, emit, log, emit, ret.
  simpl. rewrite <- app_assoc. reflexivity.
Qed.

Lemma allsound_iteration_readable (r : read_result)
      (s : self) (t : trace) :
  readable r ->
  exists t1,
    AllSound7P_ChatMix.iteration (Read r) (s, t)
    = (Ok (Common.Continue tt), (s, t ++ t1))
    /\ forallb quiet t1 = true.
Proof.
  destruct r as [bytes| |]; simpl; intros H.
  - destruct (decode bytes) as [[g c]|] eqn:D; [|congruence].
    rewrite (allsound_iteration_data bytes g c s t D).
    eexists. split; [reflexivity|].
    simpl. apply volume_commands_quiet.
  - eexists. split; reflexivity.
  - contradiction.
Qed.

Lemma allsound_poll_until_error (rs : list read_result)
      (rest : list loop_event) :
  Forall readable rs ->
  forall (s : self) (t : trace),
  exists t',
    AllSound7P_ChatMix.poll (map Read rs ++ Read USBError :: rest) (s, t)
    = (Ok None, (s, t ++ t'))
    /\ forallb quiet t' = true.
Proof.
  induction 1 as [|r rs Hr Hrs IH]; intros s t.
  - simpl. unfold bind. rewrite allsound_iteration_error.
    eexists. split; reflexivity.
  - simpl. unfold bind.
    destruct (allsound_iteration_readable r s t Hr) as (t1 & E & Q).
    rewrite E.
    destruct (IH s (t ++ t1)) as (t2 & E2 & Q2).
    fold (@bind (Common.loop_ctl unit) (option unit)) in E2.
    exists (t1 ++ t2). split.
    + rewrite app_assoc. exact E2.
    + rewrite forallb_app, Q, Q2. reflexivity.
Qed.

(** The four lines logged when the loop starts are quiet. *)
Lemma arctis_start_modulator_signal (w : world) (evs : list loop_event)
      (s : self) (t : trace) :
  Arctis_7_Plus_ChatMix.start_modulator_signal w evs (s, t) =
  Arctis_7_Plus_ChatMix.poll w Arctis_7_Plus_ChatMix.loop_start evs
    (s, t ++ [Log INFO "Reading modulator USB input started" [];
              Log INFO dashes [];
              Log INFO "Arctis 7+ ChatMix Enabled!" [];
              Log INFO dashes []]).
Proof.
  unfold Arctis_7_Plus_ChatMix.start_modulator_signal, bind, log, emit.
  simpl. rewrite <- !app_assoc. reflexivity.
Qed.

Lemma allsound_start_modulator_signal (evs : list loop_event)
      (s : self) (t : trace) :
  AllSound7P_ChatMix.start_modulator_signal evs (s, t) =
  AllSound7P_ChatMix.poll evs
    (s, t ++ [Log INFO "Reading modulator USB input started" [];
              Log INFO dashes [];
              Log INFO "ChatMix Enabled!" [];
              Log INFO dashes []]).
Proof.
  unfold AllSound7P_ChatMix.start_modulator_signal, bind, log, emit.
  simpl. rewrite <- !app_assoc. reflexivity.
Qed.

Lemma arctis_main_after_init (w : world) (evs : list loop_event)
      (s : self) (t : trace) :
  Arctis_7_Plus_ChatMix.__init__ w (self0, []) = (Ok tt, (s, t)) ->
  Arctis_7_Plus_ChatMix.main w evs =
  match Arctis_7_Plus_ChatMix.start_modulator_signal w evs (s, t) with
  | (Ok None, st) => (Common.Finished, snd st)
  | (Ok (Some _), st) => (Common.Polling, snd st)
  | (Raise (SystemExit code), st) => (Common.Exited code, snd st)
  | (Raise (PyError name), st) => (Common.Crashed name, snd st)
  end.
Proof.
  intros H. unfold Arctis_7_Plus_ChatMix.main, bind. rewrite H. reflexivity.
Qed.

Lemma allsound_main_after_init (w : world) (evs : list loop_event)
      (s : self) (t : trace) :
  AllSound7P_ChatMix.__init__ w (self0, []) = (Ok tt, (s, t)) ->
  AllSound7P_ChatMix.main w evs =
  match AllSound7P_ChatMix.start_modulator_signal evs (s, t) with
  | (Ok None, st) => (Common.Finished, snd st)
  | (Ok (Some _), st) => (Common.Polling, snd st)
  | (Raise (SystemExit code), st) => (Common.Exited code, snd st)
  | (Raise (PyError name), st) => (Common.Crashed name, snd st)
  end.
Proof.
  intros H. unfold AllSound7P_ChatMix.main, bind. rewrite H. reflexivity.
Qed.

(** ** C1: a fatal USB error in the loop *)

(** C1 (the code departs from the claim).  Take any run in which
    [__init__], and with it the whole provisioning, returned normally,
    and let the loop meet any number of reports and time-outs and then
    a USB error that is not a time-out.  In both files the loop is
    left by [break], the script runs to its end with exit status 0,
    and among the events after provisioning there is no entry into
    [die_gracefully], no [pw-cli destroy] and no [wpctl set-default]:
    the teardown has not run when the process exits. *)
Theorem usb_error_exits_without_teardown :
  forall (w : world) (rs : list read_result) (rest : list loop_event)
         (s : self) (t : trace),
    Forall readable rs ->
    (Arctis_7_Plus_ChatMix.__init__ w (self0, []) = (Ok tt, (s, t)) ->
     exists t',
       Arctis_7_Plus_ChatMix.main w (map Read rs ++ Read USBError :: rest)
       = (Common.Finished, t ++ t')
       /\ Common.exit_status Common.Finished = Some 0
       /\ teardown_runs t' = 0%nat
       /\ existsb is_destroy t' = false
       /\ existsb is_set_default t' = false)
    /\
    (AllSound7P_ChatMix.__init__ w (self0, []) = (Ok tt, (s, t)) ->
     exists t',
       AllSound7P_ChatMix.main w (map Read rs ++ Read USBError :: rest)
       = (Common.Finished, t ++ t')
       /\ Common.exit_status Common.Finished = Some 0
       /\ teardown_runs t' = 0%nat
       /\ existsb is_destroy t' = false
       /\ existsb is_set_default t' = false).
Proof.
  intros w rs rest s t Hrs. split; intros Hinit.
  - rewrite (arctis_main_after_init w _ s t Hinit).
    rewrite arctis_start_modulator_signal.
    destruct (arctis_poll_until_error w rs rest Hrs
                Arctis_7_Plus_ChatMix.loop_start s
                (t ++ [Log INFO "Reading modulator USB input started" [];
                       Log INFO dashes [];
                       Log INFO "Arctis 7+ ChatMix Enabled!" [];
                       Log INFO dashes []]))
      as (t' & E & Q).
    rewrite E. simpl. rewrite <- app_assoc.
    eexists. split; [reflexivity|]. split; [reflexivity|].
    apply quiet_no_teardown. simpl. exact Q.
  - rewrite (allsound_main_after_init w _ s t Hinit).
    rewrite allsound_start_modulator_signal.
    destruct (allsound_poll_until_error rs rest Hrs s
                (t ++ [Log INFO "Reading modulator USB input started" [];
                       Log INFO dashes [];
                       Log INFO "ChatMix Enabled!" [];
                       Log INFO dashes []]))
      as (t' & E & Q).
    rewrite E. simpl. rewrite <- app_assoc.
    eexists. split; [reflexivity|]. split; [reflexivity|].
    apply quiet_no_teardown. simpl. exact Q.
Qed.

Lemma usb_error_exits_without_teardown_witness :
  exists t',
    Arctis_7_Plus_ChatMix.main Sample.world0
      [Read (Data (Sample.report 50 50)); Read USBTimeoutError;
       Read USBError; Sigterm]
    = (Common.Finished,
       snd (snd (Arctis_7_Plus_ChatMix.__init__ Sample.world0 (self0, [])))
       ++ t')
    /\ teardown_runs t' = 0%nat.
Proof.
  destruct (usb_error_exits_without_teardown Sample.world0
              [Data (Sample.report 50 50); USBTimeoutError] [Sigterm]
              (fst (snd (Arctis_7_Plus_ChatMix.__init__ Sample.world0
                           (self0, []))))
              (snd (snd (Arctis_7_Plus_ChatMix.__init__ Sample.world0
                           (self0, []))))) as [HA _].
  - repeat constructor. simpl. discriminate.
  - destruct HA as (t' & E & _ & T & _).
    + vm_compute. reflexivity.
    + exists t'. split; assumption.
Defined.

(** ** C2: how often the teardown runs *)

Ltac close_run :=
  simpl;
  first [ eexists _, []; split; [rewrite app_nil_r; reflexivity | reflexivity]
        | eexists _, _; split;
          [rewrite <- ?app_assoc; simpl; reflexivity | reflexivity] ].

Lemma arctis_restore_by_name (w : world) (s : self) (t : trace) :
  exists r t1,
    Arctis_7_Plus_ChatMix.restore_by_name w (s, t) = (r, (s, t ++ t1))
    /\ teardown_runs t1 = 0%nat.
Proof.
  unfold Arctis_7_Plus_ChatMix.restore_by_name, bind, get_self.
  cbn [fst snd].
  destruct (system_default_sink s) as [name|]; [|close_run].
  unfold when. destruct (negb (Py.eq_str name "auto")); [|close_run].
  unfold popen, bind, emit, ret, Common.re_escape. cbn [fst snd].
  destruct name; try close_run.
  unfold raise, ret.
  destruct (Re.search _ _); unfold system, emit, ret; close_run.
Qed.

Lemma arctis_restore_default (w : world) (s : self) (t : trace) :
  exists r t1,
    Arctis_7_Plus_ChatMix.restore_default w (s, t) = (r, (s, t ++ t1))
    /\ teardown_runs t1 = 0%nat.
Proof.
  unfold Arctis_7_Plus_ChatMix.restore_default, bind, get_self.
  cbn [fst snd].
  destruct (system_default_sink_id s) as [[id|]|];
    try apply arctis_restore_by_name.
  destruct (PyStr.truthy id); [|apply arctis_restore_by_name].
  unfold system, emit. close_run.
Qed.

(** Whatever its arguments and the state, the body of
    [die_gracefully] logs its entry once and ends by raising. *)
Lemma arctis_die_gracefully_body (w : world) (sc tr : pyval)
      (s : self) (t : trace) :
  exists e t1,
    Arctis_7_Plus_ChatMix.die_gracefully_body w sc tr (s, t)
    = (Raise e, (s, t ++ Log INFO "Cleanup on shutdown" [] :: t1))
    /\ teardown_runs t1 = 0%nat.
Proof.
  unfold Arctis_7_Plus_ChatMix.die_gracefully_body.
  unfold bind at 1. unfold log at 1. unfold emit at 1. cbn [fst snd].
  unfold bind at 1.
  destruct (arctis_restore_default w s (t ++ [Log INFO "Cleanup on shutdown" []]))
    as (r & t1 & E & T).
  rewrite E, <- app_assoc. simpl.
  destruct r as [[]|e].
  2:{ exists e, t1. split; [reflexivity | exact T]. }
  unfold bind, when, log, system, emit, sys_exit, raise, ret.
  destruct (Common.eq_False sc), tr; simpl;
    rewrite <- ?app_assoc; simpl;
    (eexists _, _; split; [reflexivity|]);
    rewrite teardown_runs_app, T; reflexivity.
Qed.

Lemma allsound_die_gracefully_body (sc tr : pyval) (s : self) (t : trace) :
  exists e t1,
    AllSound7P_ChatMix.die_gracefully_body sc tr (s, t)
    = (Raise e, (s, t ++ Log INFO "Cleanup on shutdown" [] :: t1))
    /\ teardown_runs t1 = 0%nat.
Proof.
  unfold AllSound7P_ChatMix.die_gracefully_body.
  unfold bind, when, log, system, emit, sys_exit, raise, ret.
  destruct (Common.eq_False sc), tr; simpl;
    rewrite <- ?app_assoc; simpl;
    (eexists _, _; split; [reflexivity|]); reflexivity.
Qed.

(** A call of [die_gracefully] never returns: it raises, after at
    most one entry into the body. *)
Lemma arctis_die_gracefully (w : world) (kwargs : list (string * pyval))
      (s : self) (t : trace) :
  exists e t1,
    Arctis_7_Plus_ChatMix.die_gracefully w kwargs (s, t)
    = (Raise e, (s, t ++ t1))
    /\ (teardown_runs t1 <= 1)%nat.
Proof.
  unfold Arctis_7_Plus_ChatMix.die_gracefully, Common.call_die_gracefully.
  destruct (forallb _ kwargs).
  - destruct (arctis_die_gracefully_body w
                (match Py.lookup "sink_creation_fail" kwargs with
                 | Some v => v | None => PBool false end)
                (match Py.lookup "trigger" kwargs with
                 | Some v => v | None => PNone end) s t)
      as (e & t1 & E & T).
    rewrite E. eexists _, _. split; [reflexivity|].
    unfold teardown_runs in *. simpl. rewrite T. lia.
  - unfold raise. exists (PyError "TypeError"), [].
    rewrite app_nil_r. split; [reflexivity | unfold teardown_runs; simpl; lia].
Qed.

Lemma allsound_die_gracefully (kwargs : list (string * pyval))
      (s : self) (t : trace) :
  exists e t1,
    AllSound7P_ChatMix.die_gracefully kwargs (s, t)
    = (Raise e, (s, t ++ t1))
    /\ (teardown_runs t1 <= 1)%nat.
Proof.
  unfold AllSound7P_ChatMix.die_gracefully, Common.call_die_gracefully.
  destruct (forallb _ kwargs).
  - destruct (allsound_die_gracefully_body
                (match Py.lookup "sink_creation_fail" kwargs with
                 | Some v => v | None => PBool false end)
                (match Py.lookup "trigger" kwargs with
                 | Some v => v | None => PNone end) s t)
      as (e & t1 & E & T).
    rewrite E. eexists _, _. split; [reflexivity|].
    unfold teardown_runs in *. simpl. rewrite T. lia.
  - unfold raise. exists (PyError "TypeError"), [].
    rewrite app_nil_r. split; [reflexivity | unfold teardown_runs; simpl; lia].
Qed.

Lemma arctis_iteration_short (w : world)
      (l : Arctis_7_Plus_ChatMix.loop_state) (bytes : list Z)
      (s : self) (t : trace) :
  decode bytes = None ->
  Arctis_7_Plus_ChatMix.iteration w l (Read (Data bytes)) (s, t) =
  (Raise (PyError "IndexError"), (s, t ++ [UsbRead (addr s) 64 (Some 1000)])).
Proof.
  unfold decode, Arctis_7_Plus_ChatMix.iteration, bind, get_self, emit,
    Common.index.
  destruct (nth_error bytes 1); [destruct (nth_error bytes 2)|];
    intros H; try discriminate; reflexivity.
Qed.

Lemma allsound_iteration_short (bytes : list Z) (s : self) (t : trace) :
  decode bytes = None ->
  AllSound7P_ChatMix.iteration (Read (Data bytes)) (s, t) =
  (Raise (PyError "IndexError"), (s, t ++ [UsbRead (addr s) 64 None])).
Proof.
  unfold decode, AllSound7P_ChatMix.iteration, bind, get_self, emit,
    Common.index.
  destruct (nth_error bytes 1); [destruct (nth_error bytes 2)|];
    intros H; try discriminate; reflexivity.
Qed.

(** Any turn of the loop: the teardown is entered at most once, and
    not at all when the turn returns. *)
Lemma arctis_iteration_any (w : world)
      (l : Arctis_7_Plus_ChatMix.loop_state) (ev : loop_event)
      (s : self) (t : trace) :
  exists r t1,
    Arctis_7_Plus_ChatMix.iteration w l ev (s, t) = (r, (s, t ++ t1))
    /\ (teardown_runs t1 <= 1)%nat
    /\ (forall c, r = Ok c -> teardown_runs t1 = 0%nat).
Proof.
  destruct ev as [[bytes| |]|].
  - destruct (decode bytes) as [[g c]|] eqn:D.
    + rewrite (arctis_iteration_data w l bytes g c s t D).
      destruct (Common.differs g _ || Common.differs c _);
        eexists _, _; (split; [reflexivity|]).
      * destruct (quiet_no_teardown
                    (UsbRead (addr s) 64 (Some 1000) :: volume_commands s g c))
          as (T & _); [simpl; apply volume_commands_quiet|].
        rewrite T. split; [lia | reflexivity].
      * split; [unfold teardown_runs; simpl; lia | reflexivity].
    + rewrite (arctis_iteration_short w l bytes s t D).
      eexists _, _. split; [reflexivity|].
      split; [unfold teardown_runs; simpl; lia | discriminate].
  - rewrite arctis_iteration_timeout. eexists _, _.
    split; [reflexivity|].
    split; [unfold teardown_runs; simpl; lia | reflexivity].
  - rewrite arctis_iteration_error. eexists _, _.
    split; [reflexivity|].
    split; [unfold teardown_runs; simpl; lia | reflexivity].
  - unfold Arctis_7_Plus_ChatMix.iteration,
      Arctis_7_Plus_ChatMix.__handle_sigterm, bind, get_self, emit.
    cbn [fst snd].
    destruct (arctis_die_gracefully w [] s
                (t ++ [UsbRead (addr s) 64 (Some 1000)]))
      as (e & t1 & E & T).
    rewrite E, <- app_assoc. eexists _, _. split; [reflexivity|].
    split; [|discriminate].
    rewrite teardown_runs_app. unfold teardown_runs at 1. simpl. exact T.
Qed.

Lemma allsound_iteration_any (ev : loop_event) (s : self) (t : trace) :
  exists r t1,
    AllSound7P_ChatMix.iteration ev (s, t) = (r, (s, t ++ t1))
    /\ (teardown_runs t1 <= 1)%nat
    /\ (forall c, r = Ok c -> teardown_runs t1 = 0%nat).
Proof.
  destruct ev as [[bytes| |]|].
  - destruct (decode bytes) as [[g c]|] eqn:D.
    + rewrite (allsound_iteration_data bytes g c s t D).
      eexists _, _. split; [reflexivity|].
      destruct (quiet_no_teardown
                  (UsbRead (addr s) 64 None :: volume_commands s g c))
        as (T & _); [simpl; apply volume_commands_quiet|].
      rewrite T. split; [lia | reflexivity].
    + rewrite (allsound_iteration_short bytes s t D).
      eexists _, _. split; [reflexivity|].
      split; [unfold teardown_runs; simpl; lia | discriminate].
  - eexists _, _. split; [reflexivity|].
    split; [unfold teardown_runs; simpl; lia | reflexivity].
  - rewrite allsound_iteration_error. eexists _, _.
    split; [reflexivity|].
    split; [unfold teardown_runs; simpl; lia | reflexivity].
  - unfold AllSound7P_ChatMix.iteration,
      AllSound7P_ChatMix.__handle_sigterm, bind, get_self, emit.
    cbn [fst snd].
    destruct (allsound_die_gracefully [] s (t ++ [UsbRead (addr s) 64 None]))
      as (e & t1 & E & T).
    rewrite E, <- app_assoc. eexists _, _. split; [reflexivity|].
    split; [|discriminate].
    rewrite teardown_runs_app. unfold teardown_runs at 1. simpl. exact T.
Qed.

(** Over any run of loop events the teardown is entered at most once:
    [die_gracefully] ends in [sys.exit], which nothing in the loop
    catches. *)
Lemma arctis_poll_teardown_at_most_once (w : world) (evs : list loop_event) :
  forall (l : Arctis_7_Plus_ChatMix.loop_state) (s : self) (t : trace),
  exists r t',
    Arctis_7_Plus_ChatMix.poll w l evs (s, t) = (r, (s, t ++ t'))
    /\ (teardown_runs t' <= 1)%nat.
Proof.
  induction evs as [|ev evs IH]; intros l s t.
  - exists (Ok (Some l)), []. rewrite app_nil_r.
    split; [reflexivity | unfold teardown_runs; simpl; lia].
  - simpl. unfold bind.
    destruct (arctis_iteration_any w l ev s t) as (r & t1 & E & T & T0).
    rewrite E. destruct r as [[l'|]|e].
    + destruct (IH l' s (t ++ t1)) as (r2 & t2 & E2 & T2).
      rewrite E2, <- app_assoc. eexists _, _. split; [reflexivity|].
      rewrite teardown_runs_app, (T0 _ eq_refl). exact T2.
    + eexists _, _. split; [reflexivity | exact T].
    + eexists _, _. split; [reflexivity | exact T].
Qed.

Lemma allsound_poll_teardown_at_most_once (evs : list loop_event) :
  forall (s : self) (t : trace),
  exists r t',
    AllSound7P_ChatMix.poll evs (s, t) = (r, (s, t ++ t'))
    /\ (teardown_runs t' <= 1)%nat.
Proof.
  induction evs as [|ev evs IH]; intros s t.
  - exists (Ok (Some tt)), []. rewrite app_nil_r.
    split; [reflexivity | unfold teardown_runs; simpl; lia].
  - simpl. unfold bind.
    destruct (allsound_iteration_any ev s t) as (r & t1 & E & T & T0).
    rewrite E. destruct r as [[l'|]|e].
    + destruct (IH s (t ++ t1)) as (r2 & t2 & E2 & T2).
      rewrite E2, <- app_assoc. eexists _, _. split; [reflexivity|].
      rewrite teardown_runs_app, (T0 _ eq_refl). exact T2.
    + eexists _, _. split; [reflexivity | exact T].
    + eexists _, _. split; [reflexivity | exact T].
Qed.

(** C2 (the code departs from the claim).  There is no one-shot flag:
    every entry into [die_gracefully] runs the whole sequence, and
    what keeps the loop from a second run is only that the routine
    ends in [sys.exit].  So over any events of the polling loop the
    teardown runs at most once, in both files.  It does not run
    exactly once when a fatal error and a termination signal come
    together: if the USB error is met first the loop is left by
    [break], the script ends with status 0 and the teardown has run
    zero times; only when the signal comes first does it run, once. *)
Theorem teardown_runs_once_only_when_signal_first :
  (forall (w : world) (evs : list loop_event)
          (l : Arctis_7_Plus_ChatMix.loop_state) (s : self) (t : trace),
      exists r t',
        Arctis_7_Plus_ChatMix.poll w l evs (s, t) = (r, (s, t ++ t'))
        /\ (teardown_runs t' <= 1)%nat)
  /\ (forall (evs : list loop_event) (s : self) (t : trace),
      exists r t',
        AllSound7P_ChatMix.poll evs (s, t) = (r, (s, t ++ t'))
        /\ (teardown_runs t' <= 1)%nat)
  /\ (fst (Arctis_7_Plus_ChatMix.main Sample.world0 [Read USBError; Sigterm])
      = Common.Finished
      /\ teardown_runs
           (snd (Arctis_7_Plus_ChatMix.main Sample.world0
                   [Read USBError; Sigterm])) = 0%nat)
  /\ (fst (AllSound7P_ChatMix.main Sample.world0 [Read USBError; Sigterm])
      = Common.Finished
      /\ teardown_runs
           (snd (AllSound7P_ChatMix.main Sample.world0
                   [Read USBError; Sigterm])) = 0%nat)
  /\ (fst (Arctis_7_Plus_ChatMix.main Sample.world0 [Sigterm; Read USBError])
      = Common.Exited 0
      /\ teardown_runs
           (snd (Arctis_7_Plus_ChatMix.main Sample.world0
                   [Sigterm; Read USBError])) = 1%nat).
Proof.
  split; [intros; apply arctis_poll_teardown_at_most_once|].
  split; [intros; apply allsound_poll_teardown_at_most_once|].
  repeat split; vm_compute; reflexivity.
Qed.

(** ** C3: debouncing *)

Lemma volume_commands_issue (s : self) (g c : Z) :
  Common.truthy_id (game_id s) || Common.truthy_id (chat_id s) = true ->
  existsb is_set_volume (volume_commands s g c) = true.
Proof.
  unfold volume_commands, Common.truthy_id.
  destruct (game_id s) as [gid|], (chat_id s) as [cid|]; simpl;
    try destruct (PyStr.truthy gid); try destruct (PyStr.truthy cid);
    simpl; intros H; try reflexivity; discriminate.
Qed.

Lemma volume_commands_none (s : self) (g c : Z) :
  Common.truthy_id (game_id s) || Common.truthy_id (chat_id s) = false ->
  volume_commands s g c = [].
Proof.
  unfold volume_commands. intros H.
  apply orb_false_iff in H. destruct H as [Hg Hc].
  rewrite Hg, Hc. reflexivity.
Qed.

Lemma arctis_issuing_steps_changes (w : world) (s : self) :
  Common.truthy_id (game_id s) || Common.truthy_id (chat_id s) = true ->
  forall (reads : list (list Z)) (pairs : list (Z * Z))
         (prev : option (Z * Z)) (l : Arctis_7_Plus_ChatMix.loop_state),
    tracks prev l ->
    map decode reads = map Some pairs ->
    arctis_issuing_steps w s l reads = changes_after prev pairs.
Proof.
  intros Hid.
  induction reads as [|bytes reads IH]; intros [|[g c] pairs] prev l Hl Hd;
    simpl in Hd; try discriminate; [reflexivity|].
  injection Hd as Hb Hd.
  simpl. rewrite (arctis_iteration_data w l bytes g c s [] Hb).
  destruct prev as [[g0 c0]|]; simpl in Hl; subst l; simpl.
  - unfold pair_eqb. simpl. rewrite negb_andb.
    destruct (negb (g =? g0) || negb (c =? c0)) eqn:Hch; simpl.
    + rewrite (volume_commands_issue s g c Hid).
      f_equal. apply IH; [reflexivity | assumption].
    + f_equal. apply IH; [|assumption].
      apply orb_false_iff in Hch. destruct Hch as [H1 H2].
      apply negb_false_iff in H1, H2.
      apply Z.eqb_eq in H1, H2. subst. reflexivity.
  - rewrite (volume_commands_issue s g c Hid).
    f_equal. apply IH; [reflexivity | assumption].
Qed.

Lemma allsound_issuing_steps_all (s : self) :
  Common.truthy_id (game_id s) || Common.truthy_id (chat_id s) = true ->
  forall (reads : list (list Z)) (pairs : list (Z * Z)),
    map decode reads = map Some pairs ->
    allsound_issuing_steps s reads = map (fun _ => true) pairs.
Proof.
  intros Hid.
  induction reads as [|bytes reads IH]; intros [|[g c] pairs] Hd;
    simpl in Hd; try discriminate; [reflexivity|].
  injection Hd as Hb Hd.
  simpl. rewrite (allsound_iteration_data bytes g c s [] Hb). simpl.
  rewrite (volume_commands_issue s g c Hid). f_equal. apply IH. assumption.
Qed.

(** C3 as the claim states it fails: the loop of
    [AllSound7P_ChatMix.py] has no debounce and issues commands at
    every report, five times on the example and not three; and the
    debouncing loop issues nothing at all, not even at the first
    report, when neither sink id was found. *)
Lemma debounce_counterexample :
  allsound_issuing_steps both_ids (reports_of example_pairs)
  <> change_steps example_pairs
  /\ count_true (allsound_issuing_steps both_ids (reports_of example_pairs))
     = 5%nat
  /\ arctis_issuing_steps Sample.world0 self0
       Arctis_7_Plus_ChatMix.loop_start (reports_of example_pairs)
     <> change_steps example_pairs.
Proof.
  split; [|split]; vm_compute; try reflexivity; discriminate.
Qed.

(** C3, amended.  In [Arctis_7_Plus_ChatMix.py], when at least one
    sink id was found, the steps of the loop that issue volume
    commands over a run of reports decoding to (g0,c0), (g1,c1), ...
    are exactly the indices whose pair differs from the pair before,
    the first index included; so an unchanged pair issues nothing,
    and the example (50,50),(50,50),(60,50),(60,50),(60,70) has
    exactly 3 issuing steps.  In [AllSound7P_ChatMix.py], under the
    same condition, every report issues commands. *)
Theorem debounce_in_arctis_variant :
  forall (w : world) (s : self) (reads : list (list Z))
         (pairs : list (Z * Z)),
    Common.truthy_id (game_id s) || Common.truthy_id (chat_id s) = true ->
    map decode reads = map Some pairs ->
    arctis_issuing_steps w s Arctis_7_Plus_ChatMix.loop_start reads
    = change_steps pairs
    /\ allsound_issuing_steps s reads = map (fun _ => true) pairs
    /\ count_true
         (arctis_issuing_steps w both_ids Arctis_7_Plus_ChatMix.loop_start
            (reports_of example_pairs)) = 3%nat.
Proof.
  intros w s reads pairs Hid Hd. split; [|split].
  - apply arctis_issuing_steps_changes; [assumption | reflexivity | assumption].
  - apply allsound_issuing_steps_all; assumption.
  - erewrite (arctis_issuing_steps_changes w both_ids eq_refl
                (reports_of example_pairs) example_pairs None);
      reflexivity.
Qed.

Lemma debounce_in_arctis_variant_witness :
  arctis_issuing_steps Sample.world0 game_only
    Arctis_7_Plus_ChatMix.loop_start (reports_of example_pairs)
  = [true; false; true; false; true].
Proof.
  destruct (debounce_in_arctis_variant Sample.world0 game_only
              (reports_of example_pairs) example_pairs)
    as (H & _ & _).
  - reflexivity.
  - reflexivity.
  - rewrite H. reflexivity.
Defined.

(** ** C4: the teardown after a failed sink creation *)

Lemma arctis_restore_by_name_trace (w : world) (s : self) (t : trace)
      (name : string) :
  system_default_sink s = Some (PStr name) ->
  Arctis_7_Plus_ChatMix.restore_by_name w (s, t)
  = (Ok tt, (s, t ++ restore_by_name_trace w name)).
Proof.
  intros H.
  unfold Arctis_7_Plus_ChatMix.restore_by_name, restore_by_name_trace,
    bind, get_self.
  cbn [fst snd]. rewrite H. unfold when, Py.eq_str.
  destruct (String.eqb name "auto"); cbn [negb].
  - unfold ret. rewrite app_nil_r. reflexivity.
  - unfold popen, bind, emit, ret, Common.re_escape. cbn [fst snd].
    unfold system, emit. cbn -[Re.search Re.id_of_name].
    destruct (Re.search _ _); cbn -[Re.search Re.id_of_name];
      rewrite <- ?app_assoc; reflexivity.
Qed.

Lemma arctis_restore_default_trace (w : world) (s : self) (t : trace)
      (name : string) :
  system_default_sink s = Some (PStr name) ->
  Arctis_7_Plus_ChatMix.restore_default w (s, t)
  = (Ok tt, (s, t ++ restore_trace w s name)).
Proof.
  intros H.
  unfold Arctis_7_Plus_ChatMix.restore_default, restore_trace, bind, get_self.
  cbn [fst snd].
  destruct (system_default_sink_id s) as [[id|]|];
    try (apply arctis_restore_by_name_trace; assumption).
  destruct (PyStr.truthy id);
    [reflexivity | apply arctis_restore_by_name_trace; assumption].
Qed.











(** ** C5: locating the headset *)

Lemma find_headset_run (w : world) (s : self) (t : trace) :
  usb_backend w = true ->
  exists t1,
    Common.find_headset w (s, t)
    = (Ok (headset_of (usb_devices w)), (s, t ++ t1))
    /\ existsb is_audio_call t1 = false.
Proof.
  intros Hb.
  unfold Common.find_headset, Common.usb_core_find, headset_of, bind, emit, ret.
  cbn [fst snd]. rewrite Hb.
  destruct (find (Common.matches 0x1038 0x220e) (usb_devices w)).
  - eexists. split; reflexivity.
  - cbn [fst snd]. rewrite <- app_assoc. eexists. split; reflexivity.
Qed.

Lemma first_known_device_none (devs : list device) :
  first_known_device known_ids devs = None ->
  headset_of devs = None.
Proof.
  unfold first_known_device, headset_of, known_ids.
  induction devs as [|d devs IH]; simpl; [reflexivity|].
  destruct (Common.matches 4152 8718 d); simpl; [discriminate|].
  destruct (Common.matches 4152 8826 d); simpl; [discriminate|].
  exact IH.
Qed.

(** The code and the claim agree as long as no device of the second
    product is enumerated before one of the first. *)
Lemma headset_of_first_known (devs : list device) :
  find (Common.matches 0x1038 0x220e) devs = None
  \/ (exists d, first_known_device known_ids devs = Some d
                /\ idProduct d = 0x220e) ->
  headset_of devs = first_known_device known_ids devs.
Proof.
  unfold first_known_device, headset_of, known_ids.
  induction devs as [|d devs IH]; simpl; [reflexivity|].
  destruct (Common.matches 4152 8718 d) eqn:M1; simpl; [reflexivity|].
  destruct (Common.matches 4152 8826 d) eqn:M2; simpl.
  - intros [H|(d' & H & P)].
    + rewrite H. reflexivity.
    + injection H as <-. unfold Common.matches in M1, M2.
      apply andb_true_iff in M2. destruct M2 as [V _].
      rewrite V, P in M1. discriminate.
  - exact IH.
Qed.

Lemma headset_of_known (devs : list device) (d : device) :
  headset_of devs = Some d ->
  idVendor d = 0x1038
  /\ (idProduct d = 0x220e
      \/ idProduct d = 0x227a
         /\ find (Common.matches 0x1038 0x220e) devs = None).
Proof.
  unfold headset_of.
  destruct (find (Common.matches 0x1038 0x220e) devs) as [d1|] eqn:F1.
  - intros H. injection H as <-. apply find_some in F1.
    destruct F1 as [_ M]. unfold Common.matches in M.
    apply andb_true_iff in M. destruct M as [V P].
    apply Z.eqb_eq in V, P. auto.
  - intros F2. apply find_some in F2.
    destruct F2 as [_ M]. unfold Common.matches in M.
    apply andb_true_iff in M. destruct M as [V P].
    apply Z.eqb_eq in V, P. auto.
Qed.

Lemma init_without_headset (w : world)
      (die : list (string * pyval) -> M unit) (vac : M unit)
      (models : string) :
  usb_backend w = true ->
  headset_of (usb_devices w) = None ->
  (forall st, die [("exc", PBool true);
                   ("trigger", PStr "identification of USB endpoint")] st
              = (Raise (PyError "TypeError"), st)) ->
  exists t,
    Common.__init__ w die vac models (self0, [])
    = (Raise (PyError "TypeError"), (self0, t))
    /\ existsb is_audio_call t = false.
Proof.
  intros Hb Hn Hdie.
  unfold Common.__init__.
  unfold bind at 1. unfold log at 1. unfold emit at 1. cbn [fst snd].
  unfold bind at 1. unfold try_except at 1. unfold bind at 1.
  destruct (find_headset_run w self0
              ([] ++ [Log INFO "Initializing ac7pcm..." []]) Hb)
    as (t1 & E & A).
  rewrite E, Hn. unfold modify. cbn [fst snd].
  unfold bind at 1. unfold try_except at 1.
  unfold bind at 1. unfold get_self at 1. cbn [fst snd].
  unfold Common.set_dev at 1. cbn [dev].
  unfold Common.select_interface, raise, bind, log, emit. cbn [fst snd].
  rewrite Hdie. eexists. split; [reflexivity|].
  simpl. rewrite existsb_app, A. reflexivity.
Qed.

(** C5 as the claim states it fails: with a Nova 7 enumerated before
    an Arctis 7+, the first enumerated device that matches a known
    pair is the Nova 7, but the service takes the Arctis 7+. *)
Lemma device_precedence_counterexample :
  let w := Sample.with_devices [Sample.nova7; Sample.arctis7p] Sample.world0 in
  first_known_device known_ids (usb_devices w) = Some Sample.nova7
  /\ fst (Common.find_headset w (self0, [])) = Ok (Some Sample.arctis7p)
  /\ dev (fst (snd (Arctis_7_Plus_ChatMix.__init__ w (self0, []))))
     = Some Sample.arctis7p
  /\ Sample.arctis7p <> Sample.nova7.
Proof.
  repeat split; try (vm_compute; reflexivity).
  intros H. apply (f_equal idProduct) in H. discriminate H.
Qed.

(** C5, amended.  With the USB backend present, the service takes the
    first enumerated device with ids (0x1038, 0x220e) when there is
    one, and otherwise the first enumerated device with ids
    (0x1038, 0x227a): the first product has precedence over the order
    of enumeration, and the choice is the first enumerated device
    matching any known pair whenever no 0x227a device is enumerated
    before a 0x220e one.  When no attached device matches a known
    pair, start-up is fatal in both files: the process ends with exit
    status 1 and no command has been sent to the audio service. *)
Theorem device_location :
  forall (w : world) (evs : list loop_event),
    usb_backend w = true ->
    (forall s t,
        fst (Common.find_headset w (s, t))
        = Ok (match find (Common.matches 0x1038 0x220e) (usb_devices w) with
              | Some d => Some d
              | None => find (Common.matches 0x1038 0x227a) (usb_devices w)
              end))
    /\ (find (Common.matches 0x1038 0x220e) (usb_devices w) = None
        \/ (exists d, first_known_device known_ids (usb_devices w) = Some d
                      /\ idProduct d = 0x220e) ->
        forall s t,
          fst (Common.find_headset w (s, t))
          = Ok (first_known_device known_ids (usb_devices w)))
    /\ (first_known_device known_ids (usb_devices w) = None ->
        (exists st t,
            Arctis_7_Plus_ChatMix.main w evs = (st, t)
            /\ Common.exit_status st = Some 1
            /\ existsb is_audio_call t = false)
        /\ (exists st t,
               AllSound7P_ChatMix.main w evs = (st, t)
               /\ Common.exit_status st = Some 1
               /\ existsb is_audio_call t = false)).
Proof.
  intros w evs Hb. split; [|split].
  - intros s t. destruct (find_headset_run w s t Hb) as (t1 & E & _).
    rewrite E. reflexivity.
  - intros H s t. destruct (find_headset_run w s t Hb) as (t1 & E & _).
    rewrite E. simpl. f_equal. apply headset_of_first_known. exact H.
  - intros Hn. apply first_known_device_none in Hn. split.
    + destruct (init_without_headset w (Arctis_7_Plus_ChatMix.die_gracefully w)
                  (Arctis_7_Plus_ChatMix._init_VAC w)
                  "  or the Nova 7 WoW Edition models" Hb Hn)
        as (t & E & A); [reflexivity|].
      exists (Common.Crashed "TypeError"), t.
      unfold Arctis_7_Plus_ChatMix.main, Arctis_7_Plus_ChatMix.__init__, bind.
      rewrite E. auto.
    + destruct (init_without_headset w AllSound7P_ChatMix.die_gracefully
                  (AllSound7P_ChatMix._init_VAC w)
                  " or the Nova 7 WoW Edition models." Hb Hn)
        as (t & E & A); [reflexivity|].
      exists (Common.Crashed "TypeError"), t.
      unfold AllSound7P_ChatMix.main, AllSound7P_ChatMix.__init__, bind.
      rewrite E. auto.
Qed.

Lemma device_location_witness :
  exists st t,
    Arctis_7_Plus_ChatMix.main
      (Sample.with_devices [Sample.keyboard] Sample.world0) [Sigterm]
    = (st, t)
    /\ Common.exit_status st = Some 1
    /\ existsb is_audio_call t = false.
Proof.
  destruct (device_location
              (Sample.with_devices [Sample.keyboard] Sample.world0)
              [Sigterm] eq_refl) as (_ & _ & H).
  destruct (H eq_refl) as [(st & t & E & X & A) _].
  exists st, t. repeat split; assumption.
Defined.

(** ** C6: the target of the links *)

(** C6 as the claim states it fails: in [Arctis_7_Plus_ChatMix.py],
    when the pw-cli listing shows a node of the headset, the sinks
    are linked to that node and not to the recorded pre-session
    default [speakers]. *)
Lemma link_target_counterexample :
  let w := Sample.with_objects (Returned Sample.objects_headset)
             Sample.world0 in
  fst (Arctis_7_Plus_ChatMix.__init__ w (self0, [])) = Ok tt
  /\ system_default_sink
       (fst (snd (Arctis_7_Plus_ChatMix.__init__ w (self0, []))))
     = Some (PStr "speakers")
  /\ filter is_link (snd (snd (Arctis_7_Plus_ChatMix.__init__ w (self0, []))))
     = links_to "Arctis"
         (PStr "alsa_output.usb-SteelSeries_Arctis_7_-00.analog-stereo")
  /\ PStr "alsa_output.usb-SteelSeries_Arctis_7_-00.analog-stereo"
     <> PStr "speakers".
Proof.
  repeat split; try (vm_compute; reflexivity). discriminate.
Qed.

(** ** C7: only one sink id was found *)

Lemma volume_commands_game_only (s : self) (g c : Z) (id : string) :
  game_id s = Some id -> chat_id s = None -> PyStr.truthy id = true ->
  volume_commands s g c = [Run (WpctlSetVolume id (Common.div100 g))].
Proof.
  intros Hg Hc Hid. unfold volume_commands, Common.truthy_id.
  rewrite Hg, Hc, Hid. reflexivity.
Qed.

Lemma volume_commands_chat_only (s : self) (g c : Z) (id : string) :
  game_id s = None -> chat_id s = Some id -> PyStr.truthy id = true ->
  volume_commands s g c = [Run (WpctlSetVolume id (Common.div100 c))].
Proof.
  intros Hg Hc Hid. unfold volume_commands, Common.truthy_id.
  rewrite Hg, Hc, Hid. reflexivity.
Qed.

(** C7.  Let exactly one of the two sink ids be set after
    provisioning.  In [Arctis_7_Plus_ChatMix.py] every turn of the
    loop that sees a change, and in [AllSound7P_ChatMix.py] every
    turn that reads a report, issues exactly one volume command, for
    the sink whose id is set and with that sink's level; nothing is
    issued for the other sink, nothing is raised, and the loop goes
    on. *)
Theorem partial_resolution_degrades_gracefully :
  forall (w : world) (l : Arctis_7_Plus_ChatMix.loop_state)
         (bytes : list Z) (g c : Z) (s : self) (t : trace) (id : string),
    decode bytes = Some (g, c) ->
    PyStr.truthy id = true ->
    (game_id s = Some id -> chat_id s = None ->
     (Common.differs g (Arctis_7_Plus_ChatMix.last_game_vol l)
      || Common.differs c (Arctis_7_Plus_ChatMix.last_chat_vol l) = true ->
      Arctis_7_Plus_ChatMix.iteration w l (Read (Data bytes)) (s, t)
      = (Ok (Common.Continue
               {| Arctis_7_Plus_ChatMix.last_game_vol := Some g;
                  Arctis_7_Plus_ChatMix.last_chat_vol := Some c |}),
         (s, t ++ [UsbRead (addr s) 64 (Some 1000);
                   Run (WpctlSetVolume id (Common.div100 g))])))
     /\ AllSound7P_ChatMix.iteration (Read (Data bytes)) (s, t)
        = (Ok (Common.Continue tt),
           (s, t ++ [UsbRead (addr s) 64 None;
                     Run (WpctlSetVolume id (Common.div100 g))])))
    /\
    (game_id s = None -> chat_id s = Some id ->
     (Common.differs g (Arctis_7_Plus_ChatMix.last_game_vol l)
      || Common.differs c (Arctis_7_Plus_ChatMix.last_chat_vol l) = true ->
      Arctis_7_Plus_ChatMix.iteration w l (Read (Data bytes)) (s, t)
      = (Ok (Common.Continue
               {| Arctis_7_Plus_ChatMix.last_game_vol := Some g;
                  Arctis_7_Plus_ChatMix.last_chat_vol := Some c |}),
         (s, t ++ [UsbRead (addr s) 64 (Some 1000);
                   Run (WpctlSetVolume id (Common.div100 c))])))
     /\ AllSound7P_ChatMix.iteration (Read (Data bytes)) (s, t)
        = (Ok (Common.Continue tt),
           (s, t ++ [UsbRead (addr s) 64 None;
                     Run (WpctlSetVolume id (Common.div100 c))]))).
Proof.
  intros w l bytes g c s t id Hd Hid. split; intros Hg Hc; split.
  - intros Hch. rewrite (arctis_iteration_data w l bytes g c s t Hd), Hch.
    rewrite (volume_commands_game_only s g c id Hg Hc Hid). reflexivity.
  - rewrite (allsound_iteration_data bytes g c s t Hd).
    rewrite (volume_commands_game_only s g c id Hg Hc Hid). reflexivity.
  - intros Hch. rewrite (arctis_iteration_data w l bytes g c s t Hd), Hch.
    rewrite (volume_commands_chat_only s g c id Hg Hc Hid). reflexivity.
  - rewrite (allsound_iteration_data bytes g c s t Hd).
    rewrite (volume_commands_chat_only s g c id Hg Hc Hid). reflexivity.
Qed.

Lemma partial_resolution_degrades_gracefully_witness :
  Arctis_7_Plus_ChatMix.iteration Sample.world0
    Arctis_7_Plus_ChatMix.loop_start
    (Read (Data (Sample.report 60 70))) (game_only, [])
  = (Ok (Common.Continue
           {| Arctis_7_Plus_ChatMix.last_game_vol := Some 60;
              Arctis_7_Plus_ChatMix.last_chat_vol := Some 70 |}),
     (game_only, [UsbRead 0 64 (Some 1000);
                  Run (WpctlSetVolume "57" (Common.div100 60))])).
Proof.
  destruct (partial_resolution_degrades_gracefully Sample.world0
              Arctis_7_Plus_ChatMix.loop_start (Sample.report 60 70) 60 70
              game_only [] "57" eq_refl eq_refl) as [H _].
  destruct (H eq_refl eq_refl) as [HA _].
  exact (HA eq_refl).
Defined.

(** ** C8: the bounded wait for PipeWire *)

Lemma failed_attempts_count (delay : float) (j : nat) :
  List.length (filter is_pw_dump (failed_attempts delay j)) = j
  /\ filter is_sleep (failed_attempts delay j) = repeat (Sleep delay) j.
Proof.
  induction j as [|j [IH1 IH2]]; [split; reflexivity|].
  simpl. rewrite IH1, IH2. split; reflexivity.
Qed.

(** One attempt, by what the world answers. *)
Lemma wait_attempts_step (w : world) (delay : float) (n k : nat)
      (s : self) (t : trace) :
  Common.wait_attempts w delay (S n) k (s, t) =
  match pw_dump_wait w k with
  | Returned result =>
      if Common.pipewire_answers result
      then (Ok true, (s, t ++ [Run PwDump]))
      else Common.wait_attempts w delay n (S k)
             (s, t ++ [Run PwDump; Sleep delay])
  | Raised _ =>
      Common.wait_attempts w delay n (S k) (s, t ++ [Run PwDump; Sleep delay])
  end.
Proof.
  cbn [Common.wait_attempts].
  unfold bind at 1. unfold try_bare, bind, emit, of_outcome, ret, raise.
  cbn [fst snd].
  destruct (pw_dump_wait w k) as [result|name]; cbn [fst snd].
  - destruct (Common.pipewire_answers result); [reflexivity|].
    cbn [fst snd]. rewrite <- app_assoc. reflexivity.
  - cbn [fst snd]. rewrite <- app_assoc. reflexivity.
Qed.

(** The wait makes at most [n] attempts: it returns [True] at the
    first attempt that answers, after [j < n] failed ones, or [False]
    after [n] failed ones. *)
Lemma wait_attempts_bounded (w : world) (delay : float) (n : nat) :
  forall (k : nat) (s : self) (t : trace),
    (exists j, (j < n)%nat
               /\ Common.wait_attempts w delay n k (s, t)
                  = (Ok true,
                     (s, t ++ failed_attempts delay j ++ [Run PwDump])))
    \/ Common.wait_attempts w delay n k (s, t)
       = (Ok false, (s, t ++ failed_attempts delay n)).
Proof.
  induction n as [|n IH]; intros k s t.
  - right. simpl. rewrite app_nil_r. reflexivity.
  - rewrite wait_attempts_step.
    destruct (pw_dump_wait w k) as [result|name];
      [destruct (Common.pipewire_answers result)|].
    + left. exists 0%nat. split; [lia | reflexivity].
    + destruct (IH (S k) s (t ++ [Run PwDump; Sleep delay]))
        as [(j & Hj & E)|E]; rewrite E.
      * left. exists (S j). split; [lia|].
        rewrite <- app_assoc. reflexivity.
      * right. rewrite <- app_assoc. reflexivity.
    + destruct (IH (S k) s (t ++ [Run PwDump; Sleep delay]))
        as [(j & Hj & E)|E]; rewrite E.
      * left. exists (S j). split; [lia|].
        rewrite <- app_assoc. reflexivity.
      * right. rewrite <- app_assoc. reflexivity.
Qed.

Lemma wait_attempts_unreachable (w : world) (delay : float) (n : nat) :
  forall (k : nat) (s : self) (t : trace),
    (forall i, (k <= i < k + n)%nat -> unreachable (pw_dump_wait w i)) ->
    Common.wait_attempts w delay n k (s, t)
    = (Ok false, (s, t ++ failed_attempts delay n)).
Proof.
  induction n as [|n IH]; intros k s t H.
  - simpl. rewrite app_nil_r. reflexivity.
  - rewrite wait_attempts_step.
    assert (Hk : unreachable (pw_dump_wait w k)) by (apply H; lia).
    assert (Hn : Common.wait_attempts w delay n (S k)
                   (s, t ++ [Run PwDump; Sleep delay])
                 = (Ok false,
                    (s, t ++ failed_attempts delay (S n)))).
    { rewrite IH; [|intros i Hi; apply H; lia].
      rewrite <- app_assoc. reflexivity. }
    destruct (pw_dump_wait w k) as [result|name]; [|exact Hn].
    simpl in Hk. rewrite Hk. exact Hn.
Qed.

Lemma failed_attempts_sleeps (delay : float) (j : nat) (e : event) :
  In e (failed_attempts delay j) -> is_sleep e = true -> e = Sleep delay.
Proof.
  induction j as [|j IH]; simpl; [contradiction|].
  intros [<-|[<-|H]] S; [discriminate | reflexivity | auto].
Qed.

(** The teardown that [_init_VAC] calls when PipeWire stays
    unreachable, on a service that has recorded no default sink yet. *)
Lemma arctis_die_pipewire (w : world) (s : self) (t : trace) :
  system_default_sink s = None -> system_default_sink_id s = None ->
  Arctis_7_Plus_ChatMix.die_gracefully w
    [("trigger", PStr "PipeWire not available")] (s, t)
  = (Raise (SystemExit 1),
     (s, t ++ [Log INFO "Cleanup on shutdown" [];
               Log INFO "Destroying virtual sinks..." [];
               Run (PwCliDestroy "Arctis_Game" Stdout);
               Run (PwCliDestroy "Arctis_Chat" Stdout);
               Log INFO dashes [];
               Log FATAL "Failure reason: PipeWire not available" [];
               Log INFO dashes []])).
Proof.
  intros H1 H2.
  unfold Arctis_7_Plus_ChatMix.die_gracefully, Common.call_die_gracefully.
  cbn [forallb fst String.eqb Ascii.eqb Bool.eqb orb andb Py.lookup].
  unfold Arctis_7_Plus_ChatMix.die_gracefully_body,
    Arctis_7_Plus_ChatMix.restore_default,
    Arctis_7_Plus_ChatMix.restore_by_name,
    bind, when, get_self, log, system, emit, sys_exit, raise, ret.
  cbn [fst snd]. rewrite H2. cbn [fst snd]. rewrite H1. simpl.
  rewrite <- !app_assoc. reflexivity.
Qed.

Lemma allsound_die_pipewire (s : self) (t : trace) :
  AllSound7P_ChatMix.die_gracefully
    [("trigger", PStr "PipeWire not available")] (s, t)
  = (Raise (SystemExit 1),
     (s, t ++ [Log INFO "Cleanup on shutdown" [];
               Log INFO "Destroying virtual sinks..." [];
               Run (PwCliDestroy "ChatMix_Game" Stdout);
               Run (PwCliDestroy "ChatMix_Chat" Stdout);
               Log INFO dashes [];
               Log FATAL "Failure reason: PipeWire not available" [];
               Log INFO dashes []])).
Proof.
  unfold AllSound7P_ChatMix.die_gracefully, Common.call_die_gracefully.
  cbn [forallb fst String.eqb Ascii.eqb Bool.eqb orb andb Py.lookup].
  unfold AllSound7P_ChatMix.die_gracefully_body,
    bind, when, log, system, emit, sys_exit, raise, ret.
  simpl. rewrite <- !app_assoc. reflexivity.
Qed.

(** C8.  The wait for PipeWire always returns, after at most 10 runs
    of pw-dump, and every pause it makes is the same half second.
    When none of the 10 attempts finds the service, it returns
    [False] after exactly 10 attempts, and [_init_VAC], in both
    files, logs the failure, calls the teardown with the reason
    [PipeWire not available] and leaves with [sys.exit(1)]: the
    process exits with status 1 instead of waiting on. *)
Theorem startup_wait_is_bounded :
  forall (w : world) (s : self) (t : trace),
    (exists up t',
        Common.wait_for_pipewire w Common.default_max_attempts
          Common.default_delay (s, t) = (Ok up, (s, t ++ t'))
        /\ (List.length (filter is_pw_dump t') <= 10)%nat
        /\ (forall e, In e t' -> is_sleep e = true -> e = Sleep 0.5%float))
    /\
    ((forall i, (i < 10)%nat -> unreachable (pw_dump_wait w i)) ->
     Common.wait_for_pipewire w Common.default_max_attempts
       Common.default_delay (s, t)
     = (Ok false, (s, t ++ failed_attempts 0.5%float 10))
     /\ List.length (filter is_pw_dump (failed_attempts 0.5%float 10)) = 10%nat
     /\ (system_default_sink s = None -> system_default_sink_id s = None ->
         Arctis_7_Plus_ChatMix._init_VAC w (s, t)
         = (Raise (SystemExit 1),
            (s, t ++ Log INFO "Waiting for PipeWire connection..." []
                  :: failed_attempts 0.5%float 10 ++ pipewire_errors ++
                  [Log INFO "Cleanup on shutdown" [];
                   Log INFO "Destroying virtual sinks..." [];
                   Run (PwCliDestroy "Arctis_Game" Stdout);
                   Run (PwCliDestroy "Arctis_Chat" Stdout);
                   Log INFO dashes [];
                   Log FATAL "Failure reason: PipeWire not available" [];
                   Log INFO dashes []])))
     /\ AllSound7P_ChatMix._init_VAC w (s, t)
        = (Raise (SystemExit 1),
           (s, t ++ Log INFO "Waiting for PipeWire connection..." []
                 :: failed_attempts 0.5%float 10 ++ pipewire_errors ++
                 [Log INFO "Cleanup on shutdown" [];
                  Log INFO "Destroying virtual sinks..." [];
                  Run (PwCliDestroy "ChatMix_Game" Stdout);
                  Run (PwCliDestroy "ChatMix_Chat" Stdout);
                  Log INFO dashes [];
                  Log FATAL "Failure reason: PipeWire not available" [];
                  Log INFO dashes []]))).
Proof.
  intros w s t. split.
  - unfold Common.wait_for_pipewire, Common.default_max_attempts,
      Common.default_delay.
    destruct (wait_attempts_bounded w 0.5%float 10 0 s t)
      as [(j & Hj & E)|E]; rewrite E; eexists _, _;
      (split; [reflexivity|]); split.
    + rewrite filter_app, length_app.
      destruct (failed_attempts_count 0.5%float j) as [C _].
      rewrite C. simpl. lia.
    + intros e He Hs. apply in_app_or in He. destruct He as [He|[<-|[]]].
      * exact (failed_attempts_sleeps _ _ _ He Hs).
      * discriminate.
    + destruct (failed_attempts_count 0.5%float 10) as [C _].
      rewrite C. lia.
    + intros e He Hs. exact (failed_attempts_sleeps _ _ _ He Hs).
  - intros Hun.
    assert (W : forall t0,
               Common.wait_for_pipewire w Common.default_max_attempts
                 Common.default_delay (s, t0)
               = (Ok false, (s, t0 ++ failed_attempts 0.5%float 10))).
    { intros t0. apply wait_attempts_unreachable.
      intros i Hi. apply Hun. lia. }
    split; [apply W|]. split; [reflexivity|]. split.
    + intros H1 H2. unfold Arctis_7_Plus_ChatMix._init_VAC.
      unfold bind at 1. unfold log at 1. unfold emit at 1. cbn [fst snd].
      unfold bind at 1. rewrite W. unfold bind at 1.
      unfold when at 1. cbn [negb].
      unfold bind at 1 2 3. unfold log at 1 2 3. unfold emit at 1 2 3.
      cbn [fst snd].
      rewrite (arctis_die_pipewire w s _ H1 H2).
      unfold pipewire_errors. rewrite <- !app_assoc. reflexivity.
    + unfold AllSound7P_ChatMix._init_VAC.
      unfold bind at 1. unfold log at 1. unfold emit at 1. cbn [fst snd].
      unfold bind at 1. rewrite W. unfold bind at 1.
      unfold when at 1. cbn [negb].
      unfold bind at 1 2 3. unfold log at 1 2 3. unfold emit at 1 2 3.
      cbn [fst snd].
      rewrite allsound_die_pipewire.
      unfold pipewire_errors. rewrite <- !app_assoc. reflexivity.
Qed.

Lemma startup_wait_is_bounded_witness :
  fst (AllSound7P_ChatMix._init_VAC Sample.down (self0, []))
  = Raise (SystemExit 1).
Proof.
  destruct (startup_wait_is_bounded Sample.down self0 []) as [_ H].
  destruct H as (_ & _ & _ & HA).
  - intros i _. reflexivity.
  - rewrite HA. reflexivity.
Defined.

(** ** C9: the normalised level *)

Lemma div100_nearest (v : Z) :
  0 <= v <= 100 -> nearest_to_hundredth v (Common.div100 v) = true.
Proof.
  intros Hv.
  assert (H : forallb (fun n => nearest_to_hundredth (Z.of_nat n)
                                  (Common.div100 (Z.of_nat n)))
                (seq 0 101) = true) by (vm_compute; reflexivity).
  rewrite forallb_forall in H.
  specialize (H (Z.to_nat v)). rewrite Z2Nat.id in H by lia.
  apply H. apply in_seq. lia.
Qed.

Lemma volume_commands_both (s : self) (g c : Z) (gid cid : string) :
  game_id s = Some gid -> chat_id s = Some cid ->
  PyStr.truthy gid = true -> PyStr.truthy cid = true ->
  volume_commands s g c
  = [Run (WpctlSetVolume gid (Common.div100 g));
     Run (WpctlSetVolume cid (Common.div100 c))].
Proof.
  intros Hg Hc Tg Tc. unfold volume_commands, Common.truthy_id.
  rewrite Hg, Hc, Tg, Tc. reflexivity.
Qed.

(** C9.  Let a report carry the raw values [g] at offset 1 and [c] at
    offset 2, both in 0..100, and let both sink ids be set.  The
    level that either loop hands to [wpctl set-volume] for the Game
    sink is the binary64 quotient of [g] by 100.0, and for the Chat
    sink that of [c]; each is a binary64 number nearest to the
    fraction v/100.  In particular 0 gives 0.0, 100 gives 1.0 and 37
    gives 0.37. *)
Theorem level_is_value_over_100 :
  forall (w : world) (l : Arctis_7_Plus_ChatMix.loop_state)
         (bytes : list Z) (g c : Z) (s : self) (t : trace)
         (gid cid : string),
    decode bytes = Some (g, c) ->
    0 <= g <= 100 -> 0 <= c <= 100 ->
    game_id s = Some gid -> chat_id s = Some cid ->
    PyStr.truthy gid = true -> PyStr.truthy cid = true ->
    exists xg xc : float,
      xg = PrimFloat.div (PrimFloat.of_uint63 (Uint63.of_Z g)) 100%float
      /\ xc = PrimFloat.div (PrimFloat.of_uint63 (Uint63.of_Z c)) 100%float
      /\ nearest_to_hundredth g xg = true
      /\ nearest_to_hundredth c xc = true
      /\ (Common.differs g (Arctis_7_Plus_ChatMix.last_game_vol l)
          || Common.differs c (Arctis_7_Plus_ChatMix.last_chat_vol l) = true ->
          snd (snd (Arctis_7_Plus_ChatMix.iteration w l (Read (Data bytes))
                      (s, t)))
          = t ++ [UsbRead (addr s) 64 (Some 1000);
                  Run (WpctlSetVolume gid xg); Run (WpctlSetVolume cid xc)])
      /\ snd (snd (AllSound7P_ChatMix.iteration (Read (Data bytes)) (s, t)))
         = t ++ [UsbRead (addr s) 64 None;
                 Run (WpctlSetVolume gid xg); Run (WpctlSetVolume cid xc)]
      /\ Common.div100 0 = 0%float
      /\ Common.div100 100 = 1%float
      /\ Common.div100 37 = 0.37%float.
Proof.
  intros w l bytes g c s t gid cid Hd Hg Hc Ig Ic Tg Tc.
  exists (Common.div100 g), (Common.div100 c).
  split; [reflexivity|]. split; [reflexivity|].
  split; [apply div100_nearest; assumption|].
  split; [apply div100_nearest; assumption|].
  split; [|split; [|repeat split; vm_compute; reflexivity]].
  - intros Hch. rewrite (arctis_iteration_data w l bytes g c s t Hd), Hch.
    rewrite (volume_commands_both s g c gid cid Ig Ic Tg Tc). reflexivity.
  - rewrite (allsound_iteration_data bytes g c s t Hd).
    rewrite (volume_commands_both s g c gid cid Ig Ic Tg Tc). reflexivity.
Qed.

Lemma level_is_value_over_100_witness :
  snd (snd (AllSound7P_ChatMix.iteration
              (Read (Data (Sample.report 37 100))) (both_ids, [])))
  = [UsbRead 0 64 None;
     Run (WpctlSetVolume "57" 0.37%float);
     Run (WpctlSetVolume "58" 1%float)].
Proof.
  destruct (level_is_value_over_100 Sample.world0
              Arctis_7_Plus_ChatMix.loop_start (Sample.report 37 100)
              37 100 both_ids [] "57" "58" eq_refl
              ltac:(lia) ltac:(lia) eq_refl eq_refl eq_refl eq_refl)
    as (xg & xc & Hxg & Hxc & _ & _ & _ & H & _).
  rewrite H, Hxg, Hxc. reflexivity.
Defined.

(** ** C10: the first report, and the memory of the loop *)

(** C10.  In [Arctis_7_Plus_ChatMix.py] the remembered values start
    as [None], which differs from every raw value.  So the first
    report read after the loop starts counts as a change whatever it
    holds: a volume command is issued for every sink whose id is set,
    and the report's two values are remembered.  And on any turn that
    sees a change the two values are remembered even when neither id
    is set and no command is issued. *)
Theorem first_report_always_applies :
  forall (w : world) (bytes : list Z) (g c : Z) (s : self) (t : trace),
    decode bytes = Some (g, c) ->
    (forall v, Common.differs v
                 (Arctis_7_Plus_ChatMix.last_game_vol
                    Arctis_7_Plus_ChatMix.loop_start) = true
               /\ Common.differs v
                    (Arctis_7_Plus_ChatMix.last_chat_vol
                       Arctis_7_Plus_ChatMix.loop_start) = true)
    /\ Arctis_7_Plus_ChatMix.iteration w Arctis_7_Plus_ChatMix.loop_start
         (Read (Data bytes)) (s, t)
       = (Ok (Common.Continue
                {| Arctis_7_Plus_ChatMix.last_game_vol := Some g;
                   Arctis_7_Plus_ChatMix.last_chat_vol := Some c |}),
          (s, t ++ UsbRead (addr s) 64 (Some 1000) :: volume_commands s g c))
    /\ (forall id, game_id s = Some id -> PyStr.truthy id = true ->
                   In (Run (WpctlSetVolume id (Common.div100 g)))
                      (volume_commands s g c))
    /\ (forall id, chat_id s = Some id -> PyStr.truthy id = true ->
                   In (Run (WpctlSetVolume id (Common.div100 c)))
                      (volume_commands s g c))
    /\ (forall l,
           Common.differs g (Arctis_7_Plus_ChatMix.last_game_vol l)
           || Common.differs c (Arctis_7_Plus_ChatMix.last_chat_vol l) = true ->
           Common.truthy_id (game_id s) || Common.truthy_id (chat_id s) = false ->
           Arctis_7_Plus_ChatMix.iteration w l (Read (Data bytes)) (s, t)
           = (Ok (Common.Continue
                    {| Arctis_7_Plus_ChatMix.last_game_vol := Some g;
                       Arctis_7_Plus_ChatMix.last_chat_vol := Some c |}),
              (s, t ++ [UsbRead (addr s) 64 (Some 1000)]))).
Proof.
  intros w bytes g c s t Hd. split; [intros v; split; reflexivity|].
  split; [rewrite (arctis_iteration_data w _ bytes g c s t Hd); reflexivity|].
  split; [|split].
  - intros id Hg Tg. unfold volume_commands, Common.truthy_id.
    rewrite Hg, Tg. simpl. auto.
  - intros id Hc Tc. unfold volume_commands, Common.truthy_id.
    rewrite Hc, Tc. apply in_or_app. right. simpl. auto.
  - intros l Hch Hid.
    rewrite (arctis_iteration_data w l bytes g c s t Hd), Hch.
    rewrite (volume_commands_none s g c Hid). reflexivity.
Qed.

Lemma first_report_always_applies_witness :
  Arctis_7_Plus_ChatMix.iteration Sample.world0
    Arctis_7_Plus_ChatMix.loop_start (Read (Data (Sample.report 0 0)))
    (self0, [])
  = (Ok (Common.Continue
           {| Arctis_7_Plus_ChatMix.last_game_vol := Some 0;
              Arctis_7_Plus_ChatMix.last_chat_vol := Some 0 |}),
     (self0, [UsbRead 0 64 (Some 1000)])).
Proof.
  destruct (first_report_always_applies Sample.world0 (Sample.report 0 0)
              0 0 self0 [] eq_refl) as (_ & _ & _ & _ & H).
  apply H; reflexivity.
Defined.

(** ** Runs that keep a property of their events and attributes *)

Section Keeps.
Variable R : self -> self -> Prop.
Variable Q : event -> bool.
Variable E : exn -> bool.
Hypothesis R_refl : forall s, R s s.
Hypothesis R_trans : forall s1 s2 s3, R s1 s2 -> R s2 s3 -> R s1 s3.

Lemma keeps_ret {A : Type} (a : A) : keeps R Q E (ret a).
Proof.
  intros s t. exists (Ok a), s, []. rewrite app_nil_r.
  repeat split; auto. discriminate.
Qed.

Lemma keeps_raise {A : Type} (e : exn) :
  E e = true -> keeps R Q E (@raise A e).
Proof.
  intros He s t. exists (Raise e), s, []. rewrite app_nil_r.
  repeat split; auto. intros e' H. injection H as <-. exact He.
Qed.

Lemma keeps_get_self : keeps R Q E get_self.
Proof.
  intros s t. exists (Ok s), s, []. rewrite app_nil_r.
  repeat split; auto. discriminate.
Qed.

Lemma keeps_emit (e : event) : Q e = true -> keeps R Q E (emit e).
Proof.
  intros He s t. exists (Ok tt), s, [e].
  repeat split; auto; [simpl; rewrite He; reflexivity | discriminate].
Qed.

Lemma keeps_modify (f : self -> self) :
  (forall s, R s (f s)) -> keeps R Q E (modify f).
Proof.
  intros Hf s t. exists (Ok tt), (f s), []. rewrite app_nil_r.
  repeat split; auto. discriminate.
Qed.

Lemma keeps_bind {A B : Type} (m : M A) (k : A -> M B) :
  keeps R Q E m -> (forall a, keeps R Q E (k a)) -> keeps R Q E (bind m k).
Proof.
  intros Hm Hk s t. unfold bind.
  destruct (Hm s t) as (r & s1 & t1 & E1 & R1 & Q1 & X1). rewrite E1.
  destruct r as [a|e].
  - destruct (Hk a s1 (t ++ t1)) as (r2 & s2 & t2 & E2 & R2 & Q2 & X2).
    rewrite E2, <- app_assoc. exists r2, s2, (t1 ++ t2).
    split; [reflexivity|]. split; [exact (R_trans _ _ _ R1 R2)|].
    split; [rewrite forallb_app, Q1, Q2; reflexivity | exact X2].
  - exists (Raise e), s1, t1. repeat split; auto.
    intros e' H. injection H as <-. apply X1. reflexivity.
Qed.

Lemma keeps_try_except {A : Type} (body : M A) (handler : string -> M A) :
  keeps R Q E body -> (forall n, keeps R Q E (handler n)) ->
  keeps R Q E (try_except body handler).
Proof.
  intros Hb Hh s t. unfold try_except.
  destruct (Hb s t) as (r & s1 & t1 & E1 & R1 & Q1 & X1). rewrite E1.
  destruct r as [a|[c|n]].
  - exists (Ok a), s1, t1. repeat split; auto.
  - exists (Raise (SystemExit c)), s1, t1. repeat split; auto.
  - destruct (Hh n s1 (t ++ t1)) as (r2 & s2 & t2 & E2 & R2 & Q2 & X2).
    rewrite E2, <- app_assoc. exists r2, s2, (t1 ++ t2).
    split; [reflexivity|]. split; [exact (R_trans _ _ _ R1 R2)|].
    split; [rewrite forallb_app, Q1, Q2; reflexivity | exact X2].
Qed.

Lemma keeps_try_bare {A : Type} (body handler : M A) :
  keeps R Q any_exn body -> keeps R Q E handler ->
  keeps R Q E (try_bare body handler).
Proof.
  intros Hb Hh s t. unfold try_bare.
  destruct (Hb s t) as (r & s1 & t1 & E1 & R1 & Q1 & X1). rewrite E1.
  destruct r as [a|e].
  - exists (Ok a), s1, t1. repeat split; auto. discriminate.
  - destruct (Hh s1 (t ++ t1)) as (r2 & s2 & t2 & E2 & R2 & Q2 & X2).
    rewrite E2, <- app_assoc. exists r2, s2, (t1 ++ t2).
    split; [reflexivity|]. split; [exact (R_trans _ _ _ R1 R2)|].
    split; [rewrite forallb_app, Q1, Q2; reflexivity | exact X2].
Qed.

Lemma keeps_when (b : bool) (m : M unit) :
  keeps R Q E m -> keeps R Q E (when b m).
Proof. intros H. destruct b; [exact H | apply keeps_ret]. Qed.

Lemma keeps_log (l : level) (msg : string) (args : list pyval) :
  Q (Log l msg args) = true -> keeps R Q E (log l msg args).
Proof. apply keeps_emit. Qed.

Lemma keeps_system (c : command) :
  Q (Run c) = true -> keeps R Q E (system c).
Proof. apply keeps_emit. Qed.

Lemma keeps_popen (c : command) (out : string) :
  Q (Run c) = true -> keeps R Q E (popen c out).
Proof.
  intros H. unfold popen. apply keeps_bind; [apply keeps_emit; exact H|].
  intros _. apply keeps_ret.
Qed.

Lemma keeps_of_outcome {A : Type} (o : outcome A) :
  (forall n, E (PyError n) = true) -> keeps R Q E (of_outcome o).
Proof.
  intros H. destruct o; [apply keeps_ret | apply keeps_raise; apply H].
Qed.

Lemma keeps_step (fault : option nat) (k : nat) (m : M unit) :
  (forall n, E (PyError n) = true) ->
  keeps R Q E m -> keeps R Q E (Common.step fault k m).
Proof.
  intros HE Hm. unfold Common.step.
  destruct fault as [j|]; [destruct (Nat.eqb j k)|];
    try exact Hm. apply keeps_raise. apply HE.
Qed.

End Keeps.

Lemma keeps_weaken (R : self -> self -> Prop) (Q Q' : event -> bool)
      (E E' : exn -> bool) {A : Type} (m : M A) :
  (forall e, Q e = true -> Q' e = true) ->
  (forall e, E e = true -> E' e = true) ->
  keeps R Q E m -> keeps R Q' E' m.
Proof.
  intros HQ HE H s t.
  destruct (H s t) as (r & s' & t1 & E1 & R1 & Q1 & X1).
  exists r, s', t1. repeat split; auto.
  rewrite forallb_forall in *. auto.
Qed.

Ltac keeps_side :=
  intros;
  unfold any_state, same_usb, same_default, any_event, any_exn,
    no_set_default, no_cleanup, no_create in *;
  simpl;
  first [ assumption | exact I | reflexivity | discriminate
        | solve [eauto] | solve [intuition congruence] ].

Ltac keeps_unfold :=
  first [ progress unfold Common.get | progress unfold Common.iter
        | progress unfold Common.re_escape | progress unfold Common.index
        | progress unfold Common.usb_core_find
        | progress unfold Common.find_headset
        | progress unfold Common.select_interface
        | progress unfold Common.first_endpoint
        | progress unfold Common.call_die_gracefully
        | progress unfold sys_exit ].

Ltac keeps_go :=
  repeat match goal with
  | |- keeps _ _ _ _ => progress cbv beta iota
  | |- keeps _ _ _ _ =>
      progress cbn [forallb fst snd String.eqb Ascii.eqb Bool.eqb orb andb
                    negb Py.lookup Common.eq_False]
  | |- keeps _ _ _ (ret _) => apply keeps_ret
  | |- keeps _ _ _ get_self => apply keeps_get_self
  | |- keeps _ _ _ (bind _ _) => apply keeps_bind
  | |- keeps _ _ _ (try_except _ _) => apply keeps_try_except
  | |- keeps _ _ _ (when _ _) => apply keeps_when
  | |- keeps _ _ _ (log _ _ _) => apply keeps_log
  | |- keeps _ _ _ (system _) => apply keeps_system
  | |- keeps _ _ _ (popen _ _) => apply keeps_popen
  | |- keeps _ _ _ (emit _) => apply keeps_emit
  | |- keeps _ _ _ (of_outcome _) => apply keeps_of_outcome
  | |- keeps _ _ _ (Common.step _ _ _) => apply keeps_step
  | |- keeps _ _ _ (raise _) => apply keeps_raise
  | |- keeps _ _ _ (modify _) => apply keeps_modify
  | |- keeps _ _ _ (match ?x with _ => _ end) => destruct x
  | |- keeps _ _ _ _ => keeps_unfold
  | |- keeps _ _ _ _ => fail 1
  | |- forall _, _ => intro
  | |- _ => solve [keeps_side]
  end.

Section KeepsCommon.
Variable R : self -> self -> Prop.
Variable Q : event -> bool.
Variable E : exn -> bool.
Hypothesis R_refl : forall s, R s s.
Hypothesis R_trans : forall s1 s2 s3, R s1 s2 -> R s2 s3 -> R s1 s3.
Hypothesis E_py : forall n, E (PyError n) = true.

Lemma scan_metadata_keeps (metas : list pyval) (name : pyval) :
  keeps R Q E (Common.scan_metadata metas name).
Proof.
  induction metas as [|meta rest IH]; simpl; keeps_go. exact IH.
Qed.

Lemma scan_items_keeps (items : list pyval) :
  forall name, keeps R Q E (Common.scan_items items name).
Proof.
  induction items as [|item rest IH]; intros name; simpl; keeps_go;
    try apply scan_metadata_keeps; try apply IH.
Qed.

Lemma default_sink_name_keeps (w : world) :
  Q (Run PwDump) = true -> Q (Run PwCliInfoDefaultSink) = true ->
  keeps R Q E (Common.default_sink_name w).
Proof.
  intros Q1 Q2. unfold Common.default_sink_name. keeps_go.
  apply scan_items_keeps.
Qed.

Lemma wait_attempts_keeps (w : world) (delay : float) (n : nat) :
  Q (Run PwDump) = true -> Q (Sleep delay) = true ->
  forall k, keeps R Q E (Common.wait_attempts w delay n k).
Proof.
  intros Q1 Q2. induction n as [|n IH]; intros k; simpl; keeps_go.
  - apply keeps_try_bare; auto.
    + apply keeps_bind; auto; [apply keeps_emit; auto|]. intros _.
      apply keeps_bind; auto;
        [apply keeps_of_outcome; auto | intros; apply keeps_ret; auto].
    + apply keeps_ret; auto.
  - apply IH.
Qed.

End KeepsCommon.

(** ** The AllSound file never touches the system default *)

Section AllSoundDefault.
Variable w : world.

#[local] Abbreviation K := (keeps any_state no_set_default any_exn).

Lemma allsound_die_no_set_default (kwargs : list (string * pyval)) :
  K (AllSound7P_ChatMix.die_gracefully kwargs).
Proof.
  unfold AllSound7P_ChatMix.die_gracefully,
    AllSound7P_ChatMix.die_gracefully_body.
  keeps_go.
Qed.

Lemma allsound_init_VAC_no_set_default :
  K (AllSound7P_ChatMix._init_VAC w).
Proof.
  unfold AllSound7P_ChatMix._init_VAC,
    AllSound7P_ChatMix.capture_default_sink,
    AllSound7P_ChatMix.destroy_old_sinks,
    AllSound7P_ChatMix.create_sinks,
    AllSound7P_ChatMix.link_sinks,
    AllSound7P_ChatMix.resolve_ids,
    Common.wait_for_pipewire.
  keeps_go;
    try apply allsound_die_no_set_default;
    try (apply wait_attempts_keeps; keeps_side);
    try (apply default_sink_name_keeps; keeps_side).
Qed.

Lemma allsound_init_no_set_default :
  K (AllSound7P_ChatMix.__init__ w).
Proof.
  unfold AllSound7P_ChatMix.__init__, Common.__init__.
  keeps_go;
    try apply allsound_die_no_set_default;
    try apply allsound_init_VAC_no_set_default.
Qed.

Lemma allsound_poll_no_set_default (evs : list loop_event) :
  K (AllSound7P_ChatMix.poll evs).
Proof.
  induction evs as [|ev evs IH]; simpl.
  - apply keeps_ret. keeps_side.
  - unfold AllSound7P_ChatMix.iteration,
      AllSound7P_ChatMix.__handle_sigterm.
    keeps_go;
      try apply allsound_die_no_set_default; try exact IH.
Qed.

Lemma allsound_run_no_set_default (evs : list loop_event) :
  K (bind (AllSound7P_ChatMix.__init__ w)
          (fun _ => AllSound7P_ChatMix.start_modulator_signal evs)).
Proof.
  unfold AllSound7P_ChatMix.start_modulator_signal.
  keeps_go;
    try apply allsound_init_no_set_default;
    try apply allsound_poll_no_set_default.
Qed.

End AllSoundDefault.

Lemma forallb_negb_existsb {A : Type} (p : A -> bool) (l : list A) :
  forallb (fun x => negb (p x)) l = true -> existsb p l = false.
Proof.
  induction l as [|x l IH]; simpl; [reflexivity|].
  intros H. apply andb_true_iff in H. destruct H as [Hx Hl].
  apply negb_true_iff in Hx. rewrite Hx, (IH Hl). reflexivity.
Qed.

(** X1.  [AllSound7P_ChatMix.py] never changes the system default
    sink: whatever the world answers and whatever the loop meets, no
    [wpctl set-default] appears among the events of the process. *)
Theorem allsound_never_sets_default :
  forall (w : world) (evs : list loop_event),
    existsb is_set_default (snd (AllSound7P_ChatMix.main w evs)) = false.
Proof.
  intros w evs. unfold AllSound7P_ChatMix.main.
  destruct (allsound_run_no_set_default w evs self0 [])
    as (r & s' & t1 & E1 & _ & Q1 & _).
  rewrite E1. simpl.
  apply forallb_negb_existsb in Q1.
  destruct r as [[u|]|[c|n]]; simpl; exact Q1.
Qed.

(** ** The teardown over a whole process *)

Lemma no_cleanup_runs (t : trace) :
  forallb no_cleanup t = true -> teardown_runs t = 0%nat.
Proof.
  unfold teardown_runs, no_cleanup.
  induction t as [|e t IH]; simpl; [reflexivity|].
  intros H. apply andb_true_iff in H. destruct H as [He Ht].
  apply negb_true_iff in He. rewrite He. auto.
Qed.

Lemma once_calm {A : Type} (m : M A) : calm m -> once m.
Proof.
  intros H s t. destruct (H s t) as (r & s' & t1 & E1 & _ & Q1 & X1).
  exists r, s', t1. rewrite (no_cleanup_runs t1 Q1).
  repeat split; auto. intros c Hc. specialize (X1 _ Hc). discriminate X1.
Qed.

Lemma once_bind {A B : Type} (m : M A) (k : A -> M B) :
  once m -> (forall a, once (k a)) -> once (bind m k).
Proof.
  intros Hm Hk s t. unfold bind.
  destruct (Hm s t) as (r & s1 & t1 & E1 & L1 & O1 & X1). rewrite E1.
  destruct r as [a|e].
  - destruct (Hk a s1 (t ++ t1)) as (r2 & s2 & t2 & E2 & L2 & O2 & X2).
    rewrite E2, <- app_assoc. exists r2, s2, (t1 ++ t2).
    rewrite teardown_runs_app, (O1 a eq_refl).
    repeat split; auto.
  - exists (Raise e), s1, t1. repeat split; auto.
    + discriminate.
    + intros c H. injection H as ->. apply (X1 c). reflexivity.
Qed.

Lemma once_try_except {A : Type} (body : M A) (handler : string -> M A) :
  calm body -> (forall n, once (handler n)) -> once (try_except body handler).
Proof.
  intros Hb Hh s t. unfold try_except.
  destruct (Hb s t) as (r & s1 & t1 & E1 & _ & Q1 & X1). rewrite E1.
  pose proof (no_cleanup_runs t1 Q1) as T1.
  destruct r as [a|[c|n]].
  - exists (Ok a), s1, t1. rewrite T1. repeat split; auto. discriminate.
  - specialize (X1 _ eq_refl). discriminate X1.
  - destruct (Hh n s1 (t ++ t1)) as (r2 & s2 & t2 & E2 & L2 & O2 & X2).
    rewrite E2, <- app_assoc. exists r2, s2, (t1 ++ t2).
    rewrite teardown_runs_app, T1. repeat split; auto.
Qed.

Lemma once_when (b : bool) (m : M unit) : once m -> once (when b m).
Proof.
  intros H. destruct b; [exact H|].
  apply once_calm. apply keeps_ret. exact (fun _ => I).
Qed.

Lemma arctis_die_once (w : world) (kwargs : list (string * pyval)) :
  once (Arctis_7_Plus_ChatMix.die_gracefully w kwargs).
Proof.
  intros s t.
  unfold Arctis_7_Plus_ChatMix.die_gracefully, Common.call_die_gracefully.
  destruct (forallb _ kwargs).
  - destruct (arctis_die_gracefully_body w
                (match Py.lookup "sink_creation_fail" kwargs with
                 | Some v => v | None => PBool false end)
                (match Py.lookup "trigger" kwargs with
                 | Some v => v | None => PNone end) s t)
      as (e & t1 & E & T).
    rewrite E. eexists _, _, _. split; [reflexivity|].
    assert (C : teardown_runs (Log INFO "Cleanup on shutdown" [] :: t1)
                = 1%nat).
    { unfold teardown_runs in *. simpl. rewrite T. reflexivity. }
    rewrite C. repeat split; auto. discriminate.
  - exists (Raise (PyError "TypeError")), s, []. rewrite app_nil_r.
    repeat split; auto; discriminate.
Qed.

Lemma allsound_die_once (kwargs : list (string * pyval)) :
  once (AllSound7P_ChatMix.die_gracefully kwargs).
Proof.
  intros s t.
  unfold AllSound7P_ChatMix.die_gracefully, Common.call_die_gracefully.
  destruct (forallb _ kwargs).
  - destruct (allsound_die_gracefully_body
                (match Py.lookup "sink_creation_fail" kwargs with
                 | Some v => v | None => PBool false end)
                (match Py.lookup "trigger" kwargs with
                 | Some v => v | None => PNone end) s t)
      as (e & t1 & E & T).
    rewrite E. eexists _, _, _. split; [reflexivity|].
    assert (C : teardown_runs (Log INFO "Cleanup on shutdown" [] :: t1)
                = 1%nat).
    { unfold teardown_runs in *. simpl. rewrite T. reflexivity. }
    rewrite C. repeat split; auto. discriminate.
  - exists (Raise (PyError "TypeError")), s, []. rewrite app_nil_r.
    repeat split; auto; discriminate.
Qed.

(** The parts of a method body that call no [die_gracefully]. *)
Ltac calm_go :=
  unfold calm;
  unfold Common.wait_for_pipewire,
    Arctis_7_Plus_ChatMix.capture_default_sink,
    Arctis_7_Plus_ChatMix.choose_default_sink,
    Arctis_7_Plus_ChatMix.the_system_default_sink,
    Arctis_7_Plus_ChatMix.destroy_old_sinks,
    Arctis_7_Plus_ChatMix.resolve_ids,
    AllSound7P_ChatMix.capture_default_sink,
    AllSound7P_ChatMix.destroy_old_sinks,
    AllSound7P_ChatMix.resolve_ids;
  keeps_go;
  try (apply wait_attempts_keeps; keeps_side);
  try (apply default_sink_name_keeps; keeps_side).

Ltac once_go :=
  match goal with
  | |- once _ => solve [eauto]
  | |- once (Arctis_7_Plus_ChatMix.die_gracefully _ _) => apply arctis_die_once
  | |- once (AllSound7P_ChatMix.die_gracefully _) => apply allsound_die_once
  | |- once _ => solve [apply once_calm; calm_go]
  | |- once (bind _ _) => apply once_bind; [once_go | intro; once_go]
  | |- once (try_except _ _) =>
      apply once_try_except; [solve [calm_go] | intro; once_go]
  | |- once (when _ _) => apply once_when; once_go
  | |- once (match ?x with _ => _ end) => destruct x; once_go
  end.

Lemma arctis_init_once (w : world) : once (Arctis_7_Plus_ChatMix.__init__ w).
Proof.
  unfold Arctis_7_Plus_ChatMix.__init__, Common.__init__,
    Arctis_7_Plus_ChatMix._init_VAC, Arctis_7_Plus_ChatMix.create_sinks,
    Arctis_7_Plus_ChatMix.link_sinks.
  once_go.
Qed.

Lemma allsound_init_once (w : world) : once (AllSound7P_ChatMix.__init__ w).
Proof.
  unfold AllSound7P_ChatMix.__init__, Common.__init__,
    AllSound7P_ChatMix._init_VAC, AllSound7P_ChatMix.create_sinks,
    AllSound7P_ChatMix.link_sinks.
  once_go.
Qed.

Lemma arctis_poll_once (w : world) (evs : list loop_event) :
  forall l, once (Arctis_7_Plus_ChatMix.poll w l evs).
Proof.
  induction evs as [|ev evs IH]; intros l; simpl.
  - apply once_calm. apply keeps_ret. exact (fun _ => I).
  - unfold Arctis_7_Plus_ChatMix.iteration,
      Arctis_7_Plus_ChatMix.__handle_sigterm.
    once_go.
Qed.

Lemma allsound_poll_once (evs : list loop_event) :
  once (AllSound7P_ChatMix.poll evs).
Proof.
  induction evs as [|ev evs IH]; simpl.
  - apply once_calm. apply keeps_ret. exact (fun _ => I).
  - unfold AllSound7P_ChatMix.iteration,
      AllSound7P_ChatMix.__handle_sigterm.
    once_go.
Qed.

Lemma arctis_run_once (w : world) (evs : list loop_event) :
  once (bind (Arctis_7_Plus_ChatMix.__init__ w)
             (fun _ => Arctis_7_Plus_ChatMix.start_modulator_signal w evs)).
Proof.
  apply once_bind; [apply arctis_init_once|]. intros _.
  unfold Arctis_7_Plus_ChatMix.start_modulator_signal.
  pose proof (arctis_poll_once w evs). once_go.
Qed.

Lemma allsound_run_once (w : world) (evs : list loop_event) :
  once (bind (AllSound7P_ChatMix.__init__ w)
             (fun _ => AllSound7P_ChatMix.start_modulator_signal evs)).
Proof.
  apply once_bind; [apply allsound_init_once|]. intros _.
  unfold AllSound7P_ChatMix.start_modulator_signal.
  pose proof (allsound_poll_once evs). once_go.
Qed.

(** X2.  In a run in which a termination signal, if one comes, is
    met by a read of the polling loop (none arrives during the
    start-up or while a teardown is running: [die_gracefully] has no
    guard of its own against being entered again), the body of
    [die_gracefully] is entered at most once, start-up included and
    whatever the world answers.  It has been entered exactly once
    whenever the process leaves through [sys.exit], and not at all
    when the script runs to its end or is still polling. *)
Theorem teardown_once_per_process :
  forall (w : world) (evs : list loop_event),
    ((teardown_runs (snd (Arctis_7_Plus_ChatMix.main w evs)) <= 1)%nat
     /\ (forall c, fst (Arctis_7_Plus_ChatMix.main w evs) = Common.Exited c ->
                   teardown_runs (snd (Arctis_7_Plus_ChatMix.main w evs))
                   = 1%nat)
     /\ (fst (Arctis_7_Plus_ChatMix.main w evs) = Common.Finished
         \/ fst (Arctis_7_Plus_ChatMix.main w evs) = Common.Polling ->
         teardown_runs (snd (Arctis_7_Plus_ChatMix.main w evs)) = 0%nat))
    /\
    ((teardown_runs (snd (AllSound7P_ChatMix.main w evs)) <= 1)%nat
     /\ (forall c, fst (AllSound7P_ChatMix.main w evs) = Common.Exited c ->
                   teardown_runs (snd (AllSound7P_ChatMix.main w evs))
                   = 1%nat)
     /\ (fst (AllSound7P_ChatMix.main w evs) = Common.Finished
         \/ fst (AllSound7P_ChatMix.main w evs) = Common.Polling ->
         teardown_runs (snd (AllSound7P_ChatMix.main w evs)) = 0%nat)).
Proof.
  intros w evs. split.
  - unfold Arctis_7_Plus_ChatMix.main.
    destruct (arctis_run_once w evs self0 []) as (r & s' & t1 & E1 & L & O & X).
    rewrite E1. simpl.
    destruct r as [[l|]|[c|n]]; simpl; repeat split; auto;
      try (intros c' H; discriminate H);
      try (intros [H|H]; discriminate H);
      try (intros _; eapply O; reflexivity).
    intros c' H. injection H as <-. apply (X c). reflexivity.
  - unfold AllSound7P_ChatMix.main.
    destruct (allsound_run_once w evs self0 []) as (r & s' & t1 & E1 & L & O & X).
    rewrite E1. simpl.
    destruct r as [[l|]|[c|n]]; simpl; repeat split; auto;
      try (intros c' H; discriminate H);
      try (intros [H|H]; discriminate H);
      try (intros _; eapply O; reflexivity).
    intros c' H. injection H as <-. apply (X c). reflexivity.
Qed.

(** ** Exit statuses *)

Ltac unfold_service :=
  unfold Arctis_7_Plus_ChatMix.__init__, AllSound7P_ChatMix.__init__,
    Common.__init__,
    Arctis_7_Plus_ChatMix._init_VAC, AllSound7P_ChatMix._init_VAC,
    Arctis_7_Plus_ChatMix.create_sinks, AllSound7P_ChatMix.create_sinks,
    Arctis_7_Plus_ChatMix.link_sinks, AllSound7P_ChatMix.link_sinks,
    Common.wait_for_pipewire,
    Arctis_7_Plus_ChatMix.capture_default_sink,
    Arctis_7_Plus_ChatMix.choose_default_sink,
    Arctis_7_Plus_ChatMix.the_system_default_sink,
    Arctis_7_Plus_ChatMix.destroy_old_sinks,
    Arctis_7_Plus_ChatMix.resolve_ids,
    AllSound7P_ChatMix.capture_default_sink,
    AllSound7P_ChatMix.destroy_old_sinks,
    AllSound7P_ChatMix.resolve_ids,
    Arctis_7_Plus_ChatMix.iteration, AllSound7P_ChatMix.iteration,
    Arctis_7_Plus_ChatMix.__handle_sigterm,
    AllSound7P_ChatMix.__handle_sigterm,
    Arctis_7_Plus_ChatMix.die_gracefully, AllSound7P_ChatMix.die_gracefully,
    Arctis_7_Plus_ChatMix.die_gracefully_body,
    AllSound7P_ChatMix.die_gracefully_body,
    Arctis_7_Plus_ChatMix.restore_default,
    Arctis_7_Plus_ChatMix.restore_by_name.

Ltac keeps_service :=
  unfold_service; keeps_go;
  try (apply wait_attempts_keeps; keeps_side);
  try (apply default_sink_name_keeps; keeps_side).

(** Every [sys.exit] of the start-up has status 1. *)
Lemma arctis_init_exits_1 (w : world) :
  keeps any_state any_event exits_1 (Arctis_7_Plus_ChatMix.__init__ w).
Proof. keeps_service. Qed.

Lemma allsound_init_exits_1 (w : world) :
  keeps any_state any_event exits_1 (AllSound7P_ChatMix.__init__ w).
Proof. keeps_service. Qed.

Lemma arctis_poll_exits_1 (w : world) (evs : list loop_event) :
  existsb is_sigterm evs = false ->
  forall l,
    keeps any_state any_event exits_1 (Arctis_7_Plus_ChatMix.poll w l evs).
Proof.
  induction evs as [|ev evs IH]; intros H l; simpl.
  - apply keeps_ret. keeps_side.
  - simpl in H. apply orb_false_iff in H. destruct H as [Hev Hevs].
    destruct ev as [r|]; [|discriminate Hev].
    keeps_service. apply IH. exact Hevs.
Qed.

Lemma allsound_poll_exits_1 (evs : list loop_event) :
  existsb is_sigterm evs = false ->
  keeps any_state any_event exits_1 (AllSound7P_ChatMix.poll evs).
Proof.
  induction evs as [|ev evs IH]; intros H; simpl.
  - apply keeps_ret. keeps_side.
  - simpl in H. apply orb_false_iff in H. destruct H as [Hev Hevs].
    destruct ev as [r|]; [|discriminate Hev].
    keeps_service. apply IH. exact Hevs.
Qed.

Lemma arctis_poll_exits_0_or_1 (w : world) (evs : list loop_event) :
  forall l,
    keeps any_state any_event exits_0_or_1
      (Arctis_7_Plus_ChatMix.poll w l evs).
Proof.
  induction evs as [|ev evs IH]; intros l; simpl.
  - apply keeps_ret. keeps_side.
  - keeps_service. apply IH.
Qed.

Lemma allsound_poll_exits_0_or_1 (evs : list loop_event) :
  keeps any_state any_event exits_0_or_1 (AllSound7P_ChatMix.poll evs).
Proof.
  induction evs as [|ev evs IH]; simpl.
  - apply keeps_ret. keeps_side.
  - keeps_service. apply IH.
Qed.

Lemma exits_1_weaken (e : exn) : exits_1 e = true -> exits_0_or_1 e = true.
Proof.
  destruct e as [c|n]; simpl; [|reflexivity].
  intros H. rewrite H. apply orb_true_r.
Qed.

Lemma arctis_iteration_break (w : world)
      (l : Arctis_7_Plus_ChatMix.loop_state) (ev : loop_event)
      (s : self) (t : trace) (st' : self * list event) :
  Arctis_7_Plus_ChatMix.iteration w l ev (s, t) = (Ok Common.Break, st') ->
  ev = Read USBError.
Proof.
  destruct ev as [[bytes| |]|]; intros H.
  - destruct (decode bytes) as [[g c]|] eqn:D.
    + rewrite (arctis_iteration_data w l bytes g c s t D) in H.
      destruct (Common.differs g _ || Common.differs c _); discriminate H.
    + rewrite (arctis_iteration_short w l bytes s t D) in H. discriminate H.
  - rewrite arctis_iteration_timeout in H. discriminate H.
  - reflexivity.
  - unfold Arctis_7_Plus_ChatMix.iteration,
      Arctis_7_Plus_ChatMix.__handle_sigterm, bind, get_self, emit in H.
    cbn [fst snd] in H.
    destruct (arctis_die_gracefully w [] s
                (t ++ [UsbRead (addr s) 64 (Some 1000)]))
      as (e & t1 & E & _).
    rewrite E in H. discriminate H.
Qed.

Lemma allsound_iteration_break (ev : loop_event)
      (s : self) (t : trace) (st' : self * list event) :
  AllSound7P_ChatMix.iteration ev (s, t) = (Ok Common.Break, st') ->
  ev = Read USBError.
Proof.
  destruct ev as [[bytes| |]|]; intros H.
  - destruct (decode bytes) as [[g c]|] eqn:D.
    + rewrite (allsound_iteration_data bytes g c s t D) in H. discriminate H.
    + rewrite (allsound_iteration_short bytes s t D) in H. discriminate H.
  - discriminate H.
  - reflexivity.
  - unfold AllSound7P_ChatMix.iteration,
      AllSound7P_ChatMix.__handle_sigterm, bind, get_self, emit in H.
    cbn [fst snd] in H.
    destruct (allsound_die_gracefully [] s (t ++ [UsbRead (addr s) 64 None]))
      as (e & t1 & E & _).
    rewrite E in H. discriminate H.
Qed.

(** The loop returns only after a USB error. *)
Lemma arctis_poll_returns (w : world) (evs : list loop_event) :
  forall l st st',
    Arctis_7_Plus_ChatMix.poll w l evs st = (Ok None, st') ->
    existsb is_usb_error evs = true.
Proof.
  induction evs as [|ev evs IH]; intros l [s t] st' H; simpl in H.
  - discriminate H.
  - unfold bind in H.
    destruct (Arctis_7_Plus_ChatMix.iteration w l ev (s, t))
      as [[[l'|]|e] st1] eqn:I.
    + simpl. rewrite (IH l' st1 st' H). apply orb_true_r.
    + destruct st1 as [s1 t1].
      rewrite (arctis_iteration_break w l ev s t _ I). reflexivity.
    + discriminate H.
Qed.

Lemma allsound_poll_returns (evs : list loop_event) :
  forall st st',
    AllSound7P_ChatMix.poll evs st = (Ok None, st') ->
    existsb is_usb_error evs = true.
Proof.
  induction evs as [|ev evs IH]; intros [s t] st' H; simpl in H.
  - discriminate H.
  - unfold bind in H.
    destruct (AllSound7P_ChatMix.iteration ev (s, t))
      as [[[l'|]|e] st1] eqn:I.
    + simpl. rewrite (IH st1 st' H). apply orb_true_r.
    + rewrite (allsound_iteration_break ev s t _ I). reflexivity.
    + discriminate H.
Qed.

(** X3.  In a run in which a termination signal, if one comes, is
    met by a read of the polling loop (none arrives during the
    start-up or while a teardown is running), [sys.exit] is only ever
    called with status 0 or 1, and the process ends with status 0 in
    two ways only: the signal reached the handler, or a USB error
    ended the loop.  A run whose loop meets neither does not end with
    status 0: every failure of the start-up and every uncaught
    exception ends it with status 1. *)
Theorem exit_status_zero_needs_signal_or_usb_error :
  forall (w : world) (evs : list loop_event),
    ((forall c, fst (Arctis_7_Plus_ChatMix.main w evs) = Common.Exited c ->
                c = 0 \/ c = 1)
     /\ (existsb is_sigterm evs = false ->
         existsb is_usb_error evs = false ->
         Common.exit_status (fst (Arctis_7_Plus_ChatMix.main w evs))
         <> Some 0))
    /\
    ((forall c, fst (AllSound7P_ChatMix.main w evs) = Common.Exited c ->
                c = 0 \/ c = 1)
     /\ (existsb is_sigterm evs = false ->
         existsb is_usb_error evs = false ->
         Common.exit_status (fst (AllSound7P_ChatMix.main w evs))
         <> Some 0)).
Proof.
  intros w evs. split; split.
  - intros c. unfold Arctis_7_Plus_ChatMix.main.
    assert (K : keeps any_state any_event exits_0_or_1
                  (bind (Arctis_7_Plus_ChatMix.__init__ w)
                        (fun _ => Arctis_7_Plus_ChatMix.start_modulator_signal
                                    w evs))).
    { apply keeps_bind; [keeps_side| |intros _].
      - apply (keeps_weaken any_state any_event any_event exits_1 exits_0_or_1);
          [auto | apply exits_1_weaken | apply arctis_init_exits_1].
      - unfold Arctis_7_Plus_ChatMix.start_modulator_signal. keeps_go.
        apply arctis_poll_exits_0_or_1. }
    destruct (K self0 []) as (r & s' & t1 & E1 & _ & _ & X). rewrite E1.
    destruct r as [[l|]|[c'|n]]; simpl; intros H; try discriminate H.
    injection H as <-. specialize (X _ eq_refl). simpl in X.
    apply orb_true_iff in X. destruct X as [X|X]; apply Z.eqb_eq in X; auto.
  - intros Hs Hu. unfold Arctis_7_Plus_ChatMix.main, bind.
    destruct (arctis_init_exits_1 w self0 [])
      as (r & s1 & t1 & E1 & _ & _ & X1). rewrite E1.
    destruct r as [[]|[c|n]].
    + rewrite arctis_start_modulator_signal.
      destruct (arctis_poll_exits_1 w evs Hs
                  Arctis_7_Plus_ChatMix.loop_start s1
                  (([] ++ t1) ++
                   [Log INFO "Reading modulator USB input started" [];
                    Log INFO dashes [];
                    Log INFO "Arctis 7+ ChatMix Enabled!" [];
                    Log INFO dashes []]))
        as (r2 & s2 & t2 & E2 & _ & _ & X2).
      pose proof (arctis_poll_returns w evs
                    Arctis_7_Plus_ChatMix.loop_start) as P.
      destruct r2 as [[l|]|[c|n]]; rewrite E2 in *; simpl; try discriminate.
      * specialize (P _ _ E2). congruence.
      * specialize (X2 _ eq_refl). simpl in X2. apply Z.eqb_eq in X2.
        subst c. discriminate.
    + specialize (X1 _ eq_refl). simpl in X1. apply Z.eqb_eq in X1.
      subst c. simpl. discriminate.
    + simpl. discriminate.
  - intros c. unfold AllSound7P_ChatMix.main.
    assert (K : keeps any_state any_event exits_0_or_1
                  (bind (AllSound7P_ChatMix.__init__ w)
                        (fun _ => AllSound7P_ChatMix.start_modulator_signal
                                    evs))).
    { apply keeps_bind; [keeps_side| |intros _].
      - apply (keeps_weaken any_state any_event any_event exits_1 exits_0_or_1);
          [auto | apply exits_1_weaken | apply allsound_init_exits_1].
      - unfold AllSound7P_ChatMix.start_modulator_signal. keeps_go.
        apply allsound_poll_exits_0_or_1. }
    destruct (K self0 []) as (r & s' & t1 & E1 & _ & _ & X). rewrite E1.
    destruct r as [[l|]|[c'|n]]; simpl; intros H; try discriminate H.
    injection H as <-. specialize (X _ eq_refl). simpl in X.
    apply orb_true_iff in X. destruct X as [X|X]; apply Z.eqb_eq in X; auto.
  - intros Hs Hu. unfold AllSound7P_ChatMix.main, bind.
    destruct (allsound_init_exits_1 w self0 [])
      as (r & s1 & t1 & E1 & _ & _ & X1). rewrite E1.
    destruct r as [[]|[c|n]].
    + rewrite allsound_start_modulator_signal.
      destruct (allsound_poll_exits_1 evs Hs s1
                  (([] ++ t1) ++
                   [Log INFO "Reading modulator USB input started" [];
                    Log INFO dashes [];
                    Log INFO "ChatMix Enabled!" [];
                    Log INFO dashes []]))
        as (r2 & s2 & t2 & E2 & _ & _ & X2).
      pose proof (allsound_poll_returns evs) as P.
      destruct r2 as [[l|]|[c|n]]; rewrite E2 in *; simpl; try discriminate.
      * specialize (P _ _ E2). congruence.
      * specialize (X2 _ eq_refl). simpl in X2. apply Z.eqb_eq in X2.
        subst c. discriminate.
    + specialize (X1 _ eq_refl). simpl in X1. apply Z.eqb_eq in X1.
      subst c. simpl. discriminate.
    + simpl. discriminate.
Qed.

(** ** The report: which bytes count, and reports that are too short *)

Lemma decode_none_short (bytes : list Z) :
  decode bytes = None <-> (List.length bytes < 3)%nat.
Proof.
  unfold decode.
  destruct bytes as [|b0 [|b1 [|b2 rest]]]; simpl; split; intros H;
    try reflexivity; try lia; try discriminate H.
Qed.

(** X4.  Only the bytes at offsets 1 and 2 of a report count: two
    reports that agree there (or are both too short to have them)
    make a turn of either loop do exactly the same. *)
Theorem only_offsets_1_and_2_count :
  forall (w : world) (l : Arctis_7_Plus_ChatMix.loop_state)
         (bytes bytes' : list Z) (st : self * list event),
    decode bytes = decode bytes' ->
    Arctis_7_Plus_ChatMix.iteration w l (Read (Data bytes)) st
    = Arctis_7_Plus_ChatMix.iteration w l (Read (Data bytes')) st
    /\ AllSound7P_ChatMix.iteration (Read (Data bytes)) st
       = AllSound7P_ChatMix.iteration (Read (Data bytes')) st.
Proof.
  intros w l bytes bytes' [s t] H.
  destruct (decode bytes) as [[g c]|] eqn:D; symmetry in H.
  - rewrite (arctis_iteration_data w l bytes g c s t D),
      (arctis_iteration_data w l bytes' g c s t H),
      (allsound_iteration_data bytes g c s t D),
      (allsound_iteration_data bytes' g c s t H).
    split; reflexivity.
  - rewrite (arctis_iteration_short w l bytes s t D),
      (arctis_iteration_short w l bytes' s t H),
      (allsound_iteration_short bytes s t D),
      (allsound_iteration_short bytes' s t H).
    split; reflexivity.
Qed.

Lemma only_offsets_1_and_2_count_witness :
  Arctis_7_Plus_ChatMix.iteration Sample.world0
    Arctis_7_Plus_ChatMix.loop_start
    (Read (Data (Sample.report 50 60))) (both_ids, [])
  = Arctis_7_Plus_ChatMix.iteration Sample.world0
      Arctis_7_Plus_ChatMix.loop_start
      (Read (Data [255; 50; 60])) (both_ids, []).
Proof.
  exact (proj1 (only_offsets_1_and_2_count Sample.world0
                  Arctis_7_Plus_ChatMix.loop_start
                  (Sample.report 50 60) [255; 50; 60] (both_ids, [])
                  eq_refl)).
Defined.

Lemma arctis_poll_until_short (w : world) (rs : list read_result)
      (bytes : list Z) (rest : list loop_event) :
  Forall readable rs -> decode bytes = None ->
  forall (l : Arctis_7_Plus_ChatMix.loop_state) (s : self) (t : trace),
  exists t',
    Arctis_7_Plus_ChatMix.poll w l
      (map Read rs ++ Read (Data bytes) :: rest) (s, t)
    = (Raise (PyError "IndexError"), (s, t ++ t'))
    /\ forallb quiet t' = true.
Proof.
  intros Hrs Hd. induction Hrs as [|r rs Hr Hrs IH]; intros l s t.
  - simpl. unfold bind. rewrite (arctis_iteration_short w l bytes s t Hd).
    eexists. split; reflexivity.
  - simpl. unfold bind.
    destruct (arctis_iteration_readable w l r s t Hr) as (l' & t1 & E & Q).
    rewrite E.
    destruct (IH l' s (t ++ t1)) as (t2 & E2 & Q2).
    fold (@bind (Common.loop_ctl Arctis_7_Plus_ChatMix.loop_state)
                (option Arctis_7_Plus_ChatMix.loop_state)) in E2.
    exists (t1 ++ t2). split.
    + rewrite app_assoc. exact E2.
    + rewrite forallb_app, Q, Q2. reflexivity.
Qed.

Lemma allsound_poll_until_short (rs : list read_result)
      (bytes : list Z) (rest : list loop_event) :
  Forall readable rs -> decode bytes = None ->
  forall (s : self) (t : trace),
  exists t',
    AllSound7P_ChatMix.poll (map Read rs ++ Read (Data bytes) :: rest) (s, t)
    = (Raise (PyError "IndexError"), (s, t ++ t'))
    /\ forallb quiet t' = true.
Proof.
  intros Hrs Hd. induction Hrs as [|r rs Hr Hrs IH]; intros s t.
  - simpl. unfold bind. rewrite (allsound_iteration_short bytes s t Hd).
    eexists. split; reflexivity.
  - simpl. unfold bind.
    destruct (allsound_iteration_readable r s t Hr) as (t1 & E & Q).
    rewrite E.
    destruct (IH s (t ++ t1)) as (t2 & E2 & Q2).
    fold (@bind (Common.loop_ctl unit) (option unit)) in E2.
    exists (t1 ++ t2). split.
    + rewrite app_assoc. exact E2.
    + rewrite forallb_app, Q, Q2. reflexivity.
Qed.

(** X5.  A report of fewer than three bytes is not survived: after a
    successful start-up and any number of full reports and time-outs,
    indexing the short report raises [IndexError], which neither
    [except] clause of the loop catches.  The process ends on the
    uncaught exception, with exit status 1, and nothing of a teardown
    has been issued. *)
Theorem short_report_crashes_the_loop :
  forall (w : world) (rs : list read_result) (bytes : list Z)
         (rest : list loop_event) (s : self) (t : trace),
    Forall readable rs ->
    (List.length bytes < 3)%nat ->
    (Arctis_7_Plus_ChatMix.__init__ w (self0, []) = (Ok tt, (s, t)) ->
     exists t',
       Arctis_7_Plus_ChatMix.main w
         (map Read rs ++ Read (Data bytes) :: rest)
       = (Common.Crashed "IndexError", t ++ t')
       /\ Common.exit_status (Common.Crashed "IndexError") = Some 1
       /\ teardown_runs t' = 0%nat
       /\ existsb is_destroy t' = false
       /\ existsb is_set_default t' = false)
    /\
    (AllSound7P_ChatMix.__init__ w (self0, []) = (Ok tt, (s, t)) ->
     exists t',
       AllSound7P_ChatMix.main w
         (map Read rs ++ Read (Data bytes) :: rest)
       = (Common.Crashed "IndexError", t ++ t')
       /\ Common.exit_status (Common.Crashed "IndexError") = Some 1
       /\ teardown_runs t' = 0%nat
       /\ existsb is_destroy t' = false
       /\ existsb is_set_default t' = false).
Proof.
  intros w rs bytes rest s t Hrs Hlen.
  apply decode_none_short in Hlen. split; intros Hinit.
  - rewrite (arctis_main_after_init w _ s t Hinit).
    rewrite arctis_start_modulator_signal.
    destruct (arctis_poll_until_short w rs bytes rest Hrs Hlen
                Arctis_7_Plus_ChatMix.loop_start s
                (t ++ [Log INFO "Reading modulator USB input started" [];
                       Log INFO dashes [];
                       Log INFO "Arctis 7+ ChatMix Enabled!" [];
                       Log INFO dashes []]))
      as (t' & E & Q).
    rewrite E. simpl. rewrite <- app_assoc.
    eexists. split; [reflexivity|]. split; [reflexivity|].
    apply quiet_no_teardown. simpl. exact Q.
  - rewrite (allsound_main_after_init w _ s t Hinit).
    rewrite allsound_start_modulator_signal.
    destruct (allsound_poll_until_short rs bytes rest Hrs Hlen s
                (t ++ [Log INFO "Reading modulator USB input started" [];
                       Log INFO dashes [];
                       Log INFO "ChatMix Enabled!" [];
                       Log INFO dashes []]))
      as (t' & E & Q).
    rewrite E. simpl. rewrite <- app_assoc.
    eexists. split; [reflexivity|]. split; [reflexivity|].
    apply quiet_no_teardown. simpl. exact Q.
Qed.

Lemma short_report_crashes_the_loop_witness :
  exists t',
    AllSound7P_ChatMix.main Sample.world0
      [Read (Data (Sample.report 50 50)); Read (Data [69; 50]); Sigterm]
    = (Common.Crashed "IndexError",
       snd (snd (AllSound7P_ChatMix.__init__ Sample.world0 (self0, [])))
       ++ t')
    /\ teardown_runs t' = 0%nat.
Proof.
  destruct (short_report_crashes_the_loop Sample.world0
              [Data (Sample.report 50 50)] [69; 50] [Sigterm]
              (fst (snd (AllSound7P_ChatMix.__init__ Sample.world0
                           (self0, []))))
              (snd (snd (AllSound7P_ChatMix.__init__ Sample.world0
                           (self0, []))))) as [_ HA].
  - repeat constructor. simpl. discriminate.
  - simpl. lia.
  - destruct HA as (t' & E & _ & T & _).
    + vm_compute. reflexivity.
    + exists t'. split; assumption.
Defined.

(** ** Start-up failures of the device locator *)

(** X6.  When [usb.core.find] itself raises (no USB backend), both
    files log the error, run [die_gracefully] with the reason
    [Couldn't find arctis7 model] and exit with status 1.  That
    teardown restores no default (none was recorded) but does issue
    the destroy commands for both sink names, although no sink has
    been created and PipeWire has not been asked anything yet. *)
Theorem no_usb_backend_is_fatal :
  forall (w : world) (evs : list loop_event),
    usb_backend w = false ->
    Arctis_7_Plus_ChatMix.main w evs
    = (Common.Exited 1,
       [Log INFO "Initializing ac7pcm..." [];
        UsbFind 0x1038 0x220e;
        Log ERROR "Failed to identify the Arctis 7+ device. Please ensure it is connected. Please note: This program only supports the '7+'  or the Nova 7 WoW Edition models" []]
       ++ fatal_teardown "Arctis" "Couldn't find arctis7 model")
    /\ AllSound7P_ChatMix.main w evs
       = (Common.Exited 1,
          [Log INFO "Initializing ac7pcm..." [];
           UsbFind 0x1038 0x220e;
           Log ERROR "Failed to identify the Arctis 7+ device. Please ensure it is connected. Please note: This program only supports the '7+' or the Nova 7 WoW Edition models." []]
          ++ fatal_teardown "ChatMix" "Couldn't find arctis7 model").
Proof.
  intros w evs Hb. split.
  - unfold Arctis_7_Plus_ChatMix.main, Arctis_7_Plus_ChatMix.__init__,
      Common.__init__, Common.find_headset, Common.usb_core_find,
      bind, try_except, log, emit.
    cbn [fst snd]. rewrite Hb. reflexivity.
  - unfold AllSound7P_ChatMix.main, AllSound7P_ChatMix.__init__,
      Common.__init__, Common.find_headset, Common.usb_core_find,
      bind, try_except, log, emit.
    cbn [fst snd]. rewrite Hb. reflexivity.
Qed.

Lemma no_usb_backend_is_fatal_witness :
  fst (Arctis_7_Plus_ChatMix.main world_without_backend [Sigterm])
  = Common.Exited 1.
Proof.
  rewrite (proj1 (no_usb_backend_is_fatal world_without_backend [Sigterm]
                    eq_refl)).
  reflexivity.
Defined.

Lemma find_headset_trace (w : world) (s : self) (t : trace) :
  usb_backend w = true ->
  exists t1,
    Common.find_headset w (s, t)
    = (Ok (headset_of (usb_devices w)), (s, t ++ t1))
    /\ existsb is_audio_call t1 = false
    /\ teardown_runs t1 = 0%nat.
Proof.
  intros Hb.
  unfold Common.find_headset, Common.usb_core_find, headset_of, bind, emit, ret.
  cbn [fst snd]. rewrite Hb.
  destruct (find (Common.matches 0x1038 0x220e) (usb_devices w)).
  - eexists. repeat split; reflexivity.
  - cbn [fst snd]. rewrite <- app_assoc. eexists. repeat split; reflexivity.
Qed.

Lemma init_without_endpoint (w : world) (d : device)
      (die : list (string * pyval) -> M unit) (vac : M unit)
      (models : string) :
  usb_backend w = true ->
  headset_of (usb_devices w) = Some d ->
  chatmix_endpoint_of d = None ->
  (forall st, die [("exc", PBool true);
                   ("trigger", PStr "identification of USB endpoint")] st
              = (Raise (PyError "TypeError"), st)) ->
  exists s t,
    Common.__init__ w die vac models (self0, [])
    = (Raise (PyError "TypeError"), (s, t))
    /\ existsb is_audio_call t = false
    /\ teardown_runs t = 0%nat.
Proof.
  intros Hb Hd He Hdie.
  unfold Common.__init__.
  unfold bind at 1. unfold log at 1. unfold emit at 1. cbn [fst snd].
  unfold bind at 1. unfold try_except at 1. unfold bind at 1.
  destruct (find_headset_trace w self0
              ([] ++ [Log INFO "Initializing ac7pcm..." []]) Hb)
    as (t1 & E & A & T1).
  rewrite E, Hd. unfold modify. cbn [fst snd].
  unfold bind at 1. unfold try_except at 1.
  unfold bind at 1. unfold get_self at 1. cbn [fst snd].
  unfold Common.set_dev at 1. cbn [dev].
  unfold chatmix_endpoint_of in He.
  unfold Common.select_interface, Common.first_endpoint.
  unfold raise, ret, bind, modify, log, emit. cbn [fst snd].
  destruct (nth_error (configurations d) 0) as [cfg|]; cbn [fst snd];
    [destruct (nth_error (interfaces cfg) 8) as [i|]; cbn [fst snd];
     [destruct (nth_error (endpoints i) 0) as [e|]; cbn [fst snd];
      [discriminate He|]|]|];
    rewrite Hdie; eexists _, _; (split; [reflexivity|]);
    (split;
     [ rewrite ?existsb_app; simpl; rewrite A; reflexivity
     | rewrite ?teardown_runs_app, T1; reflexivity ]).
Qed.

(** X7.  A matching device on which interface index 8 of the first
    configuration, or the first endpoint of that interface, is missing
    stops both files during start-up: the handler calls
    [die_gracefully] with the keyword [exc], which the method does
    not have, so a [TypeError] ends the process with exit status 1.
    No teardown has run and nothing was sent to the audio service. *)
Theorem missing_interface_is_a_type_error :
  forall (w : world) (evs : list loop_event) (d : device),
    usb_backend w = true ->
    headset_of (usb_devices w) = Some d ->
    chatmix_endpoint_of d = None ->
    (exists t,
        Arctis_7_Plus_ChatMix.main w evs = (Common.Crashed "TypeError", t)
        /\ Common.exit_status (Common.Crashed "TypeError") = Some 1
        /\ existsb is_audio_call t = false
        /\ teardown_runs t = 0%nat)
    /\ (exists t,
           AllSound7P_ChatMix.main w evs = (Common.Crashed "TypeError", t)
           /\ Common.exit_status (Common.Crashed "TypeError") = Some 1
           /\ existsb is_audio_call t = false
           /\ teardown_runs t = 0%nat).
Proof.
  intros w evs d Hb Hd He. split.
  - destruct (init_without_endpoint w d
                (Arctis_7_Plus_ChatMix.die_gracefully w)
                (Arctis_7_Plus_ChatMix._init_VAC w)
                "  or the Nova 7 WoW Edition models" Hb Hd He)
      as (s & t & E & A & T); [reflexivity|].
    exists t. unfold Arctis_7_Plus_ChatMix.main,
                Arctis_7_Plus_ChatMix.__init__, bind.
    rewrite E. auto.
  - destruct (init_without_endpoint w d AllSound7P_ChatMix.die_gracefully
                (AllSound7P_ChatMix._init_VAC w)
                " or the Nova 7 WoW Edition models." Hb Hd He)
      as (s & t & E & A & T); [reflexivity|].
    exists t. unfold AllSound7P_ChatMix.main,
                AllSound7P_ChatMix.__init__, bind.
    rewrite E. auto.
Qed.

Lemma missing_interface_is_a_type_error_witness :
  exists t,
    Arctis_7_Plus_ChatMix.main
      (Sample.with_devices [bare_headset] Sample.world0) []
    = (Common.Crashed "TypeError", t)
    /\ existsb is_audio_call t = false.
Proof.
  destruct (missing_interface_is_a_type_error
              (Sample.with_devices [bare_headset] Sample.world0) []
              bare_headset eq_refl eq_refl eq_refl)
    as [(t & E & _ & A & _) _].
  exists t. split; assumption.
Defined.

(** X8.  When a call of the linking block raises, the handler calls
    [die_gracefully] with the keyword [sink_fail], which the method
    does not have: the block ends in a [TypeError] after logging the
    error, the teardown does not run, and the sinks created just
    before, like the links already made, stay in place. *)
Theorem link_failure_is_a_type_error :
  forall (w : world) (s : self) (t : trace) (v : pyval) (k : nat),
    link_fault w = Some k -> (k < 4)%nat ->
    system_default_sink s = Some v ->
    (forall target,
        Arctis_7_Plus_ChatMix.link_sinks w target (s, t)
        = (Raise (PyError "TypeError"),
           (s, t ++ Log INFO "Assigning VAC sink monitors output to default device..." []
                 :: linked_before "Arctis" target k ++
                 [Log ERROR "Couldn't create the links to pipe LR from VAC to default device" []])))
    /\ AllSound7P_ChatMix.link_sinks w (s, t)
       = (Raise (PyError "TypeError"),
          (s, t ++ Log INFO "Assigning VAC sink monitors output to default device..." []
                :: linked_before "ChatMix" v k ++
                [Log ERROR "Couldn't create the links to pipe LR from VAC to default device" []])).
Proof.
  intros w s t v k Hf Hk Hv.
  assert (Hk4 : (k = 0 \/ k = 1 \/ k = 2 \/ k = 3)%nat) by lia.
  split.
  - intros target.
    unfold Arctis_7_Plus_ChatMix.link_sinks, try_except, bind,
      log, Common.step, system, emit, raise.
    rewrite Hf.
    destruct Hk4 as [?|[?|[?|?]]]; subst k; cbn [fst snd Nat.eqb];
      rewrite <- ?app_assoc; reflexivity.
  - unfold AllSound7P_ChatMix.link_sinks, try_except, bind, get_self,
      log, Common.step, system, emit, raise, ret.
    cbn [fst snd]. rewrite Hv, Hf.
    destruct Hk4 as [?|[?|[?|?]]]; subst k; cbn [fst snd Nat.eqb];
      rewrite <- ?app_assoc; reflexivity.
Qed.

Lemma link_failure_is_a_type_error_witness :
  fst (Arctis_7_Plus_ChatMix.link_sinks (world_with_link_fault 2)
         (PStr "speakers")
         (Common.set_system_default_sink (PStr "speakers") self0, []))
  = Raise (PyError "TypeError").
Proof.
  rewrite (proj1 (link_failure_is_a_type_error (world_with_link_fault 2)
                    (Common.set_system_default_sink (PStr "speakers") self0)
                    [] (PStr "speakers") 2%nat eq_refl ltac:(lia) eq_refl)
             (PStr "speakers")).
  reflexivity.
Defined.

(** ** The wait for PipeWire, attempt by attempt *)

(** X9.  [wait_for_pipewire] stops at the first attempt whose output
    passes the test: if the attempts before number [k] all fail (an
    exception of [os.popen] counts as a failure) and attempt [k]
    answers, with [k] below [max_attempts], the function returns
    [True] after exactly [k + 1] runs of pw-dump and [k] pauses, and
    later answers are never asked for.  With [max_attempts = 0] it
    returns [False] at once, without running anything. *)
Theorem wait_stops_at_first_answer :
  forall (w : world) (max_attempts k : nat) (delay : float) (result : string)
         (s : self) (t : trace),
    (k < max_attempts)%nat ->
    (forall i, (i < k)%nat -> unreachable (pw_dump_wait w i)) ->
    pw_dump_wait w k = Returned result ->
    Common.pipewire_answers result = true ->
    Common.wait_for_pipewire w max_attempts delay (s, t)
    = (Ok true, (s, t ++ failed_attempts delay k ++ [Run PwDump]))
    /\ Common.wait_for_pipewire w 0 delay (s, t) = (Ok false, (s, t)).
Proof.
  intros w n k delay result s t Hk Hfail Hres Hans.
  split; [|reflexivity].
  unfold Common.wait_for_pipewire.
  replace n with (k + S (n - S k))%nat by lia.
  generalize (n - S k)%nat as m. intros m.
  assert (G : forall j i t0,
             (i + j = k)%nat ->
             Common.wait_attempts w delay (j + S m) i (s, t0)
             = (Ok true,
                (s, t0 ++ failed_attempts delay j ++ [Run PwDump]))).
  { induction j as [|j IH]; intros i t0 Hi.
    - simpl plus. rewrite wait_attempts_step.
      replace i with k by lia. rewrite Hres, Hans. reflexivity.
    - change (S j + S m)%nat with (S (j + S m)).
      rewrite wait_attempts_step.
      assert (Hu : unreachable (pw_dump_wait w i)) by (apply Hfail; lia).
      assert (Hn : Common.wait_attempts w delay (j + S m) (S i)
                     (s, t0 ++ [Run PwDump; Sleep delay])
                   = (Ok true,
                      (s, t0 ++ failed_attempts delay (S j)
                            ++ [Run PwDump]))).
      { rewrite IH by lia. simpl. rewrite <- app_assoc. reflexivity. }
      destruct (pw_dump_wait w i) as [r|x]; [|exact Hn].
      simpl in Hu. rewrite Hu. exact Hn. }
  apply G. lia.
Qed.

Lemma wait_stops_at_first_answer_witness :
  Common.wait_for_pipewire
    (Sample.with_pw_dump_wait
       (fun i => if Nat.ltb i 3 then Raised "OSError"
                 else Returned Sample.ready) Sample.world0)
    Common.default_max_attempts Common.default_delay (self0, [])
  = (Ok true,
     (self0, failed_attempts Common.default_delay 3 ++ [Run PwDump])).
Proof.
  exact (proj1 (wait_stops_at_first_answer
                  (Sample.with_pw_dump_wait
                     (fun i => if Nat.ltb i 3 then Raised "OSError"
                               else Returned Sample.ready) Sample.world0)
                  Common.default_max_attempts 3 Common.default_delay
                  Sample.ready self0 []
                  ltac:(unfold Common.default_max_attempts; lia)
                  ltac:(intros i Hi; simpl;
                        destruct (Nat.ltb_spec i 3); [exact I | lia])
                  eq_refl eq_refl)).
Defined.

(** ** The levels over the whole range of a byte *)

Lemma byte_in_seq (v : Z) :
  0 <= v <= 255 -> In (Z.to_nat v) (seq 0 256).
Proof. intros H. apply in_seq. lia. Qed.

(** X10.  The level grows strictly with the raw value over the whole
    range 0..255 of a byte, and nothing clamps it: every level is a
    binary64 number nearest to v/100, at most 1.0 for raw values up
    to 100 and above 1.0 beyond (255 gives 2.55). *)
Theorem levels_increase_and_are_not_clamped :
  forall u v : Z,
    0 <= u -> u < v -> v <= 255 ->
    PrimFloat.ltb (Common.div100 u) (Common.div100 v) = true
    /\ nearest_to_hundredth v (Common.div100 v) = true
    /\ (v <= 100 -> PrimFloat.leb (Common.div100 v) 1%float = true)
    /\ (100 < v -> PrimFloat.ltb 1%float (Common.div100 v) = true)
    /\ Common.div100 255 = 2.55%float.
Proof.
  intros u v Hu Huv Hv.
  assert (P : forallb
                (fun a =>
                   forallb
                     (fun b =>
                        if (a <? b)%nat
                        then PrimFloat.ltb (Common.div100 (Z.of_nat a))
                                           (Common.div100 (Z.of_nat b))
                        else true)
                     (seq 0 256))
                (seq 0 256) = true) by (vm_compute; reflexivity).
  assert (N : forallb
                (fun b =>
                   nearest_to_hundredth (Z.of_nat b)
                     (Common.div100 (Z.of_nat b))
                   && (if (b <=? 100)%nat
                       then PrimFloat.leb (Common.div100 (Z.of_nat b)) 1%float
                       else PrimFloat.ltb 1%float
                              (Common.div100 (Z.of_nat b))))
                (seq 0 256) = true) by (vm_compute; reflexivity).
  rewrite forallb_forall in P, N.
  specialize (P (Z.to_nat u) (byte_in_seq u ltac:(lia))).
  rewrite forallb_forall in P.
  specialize (P (Z.to_nat v) (byte_in_seq v ltac:(lia))).
  specialize (N (Z.to_nat v) (byte_in_seq v ltac:(lia))).
  rewrite !Z2Nat.id in P by lia. rewrite !Z2Nat.id in N by lia.
  destruct (Nat.ltb_spec (Z.to_nat u) (Z.to_nat v)) as [_|C]; [|lia].
  apply andb_true_iff in N. destruct N as [N1 N2].
  split; [exact P|]. split; [exact N1|].
  destruct (Nat.leb_spec (Z.to_nat v) 100) as [L|L].
  - split; [intros _; exact N2|]. split; [intros C; lia|].
    vm_compute. reflexivity.
  - split; [intros C; lia|]. split; [intros _; exact N2|].
    vm_compute. reflexivity.
Qed.

Lemma levels_increase_and_are_not_clamped_witness :
  PrimFloat.ltb (Common.div100 100) (Common.div100 255) = true.
Proof.
  exact (proj1 (levels_increase_and_are_not_clamped 100 255
                  ltac:(lia) ltac:(lia) ltac:(lia))).
Defined.

(** ** What the patterns capture *)

Lemma string_length_append (a b : string) :
  String.length (a ++ b)%string = (String.length a + String.length b)%nat.
Proof. induction a as [|c a IH]; simpl; [reflexivity | rewrite IH; reflexivity]. Qed.

Lemma substring_zero (s : string) : substring 0 0 s = EmptyString.
Proof. destruct s; reflexivity. Qed.

Lemma substring_prefix (a b : string) :
  substring 0 (String.length (a ++ b)%string - String.length b)
            (a ++ b)%string = a.
Proof.
  rewrite string_length_append.
  replace (String.length a + String.length b - String.length b)%nat
    with (String.length a) by lia.
  induction a as [|c a IH]; simpl; [apply substring_zero|].
  rewrite IH. reflexivity.
Qed.

Section Captures.
Variable X : Type.

(** A greedy star hands its continuation a suffix; what it consumed
    is all in the class. *)
Lemma star_some (k : Re.cclass) (s : string) (cont : string -> option X)
      (x : X) :
  Re.star X k s cont = Some x ->
  exists pre s',
    s = (pre ++ s')%string
    /\ all_chars (Re.cclass_match k) pre = true
    /\ cont s' = Some x.
Proof.
  induction s as [|c s IH]; simpl.
  - intros H. exists EmptyString, EmptyString. auto.
  - destruct (Re.cclass_match k c) eqn:M.
    + destruct (Re.star X k s cont) as [y|] eqn:S.
      * intros H. injection H as ->.
        destruct (IH eq_refl) as (pre & s' & -> & A & C).
        exists (String c pre), s'. simpl. rewrite M, A. auto.
      * intros H. exists EmptyString, (String c s). auto.
    + intros H. exists EmptyString, (String c s). auto.
Qed.

(** A pattern without group leaves the captures as they are. *)
Lemma rmatch_groupless (r : Re.regex) :
  groupless r = true ->
  forall s caps (cont : string -> Re.captures -> option X) x,
    Re.rmatch X r s caps cont = Some x ->
    exists s', cont s' caps = Some x.
Proof.
  induction r as [l|k|k|k|r IH|r1 IH1 r2 IH2]; simpl; intros G s caps cont x H.
  - destruct (PyStr.strip_prefix l s) as [s'|]; [eauto | discriminate H].
  - destruct s as [|c s]; [discriminate H|].
    destruct (Re.cclass_match k c); [eauto | discriminate H].
  - destruct (star_some k s _ x H) as (pre & s' & _ & _ & C). eauto.
  - destruct s as [|c s]; [discriminate H|].
    destruct (Re.cclass_match k c); [|discriminate H].
    destruct (star_some k s _ x H) as (pre & s' & _ & _ & C). eauto.
  - discriminate G.
  - apply andb_true_iff in G. destruct G as [G1 G2].
    destruct (IH1 G1 s caps _ x H) as (s1 & H1).
    exact (IH2 G2 s1 caps cont x H1).
Qed.

(** A group around a plussed class captures a non-empty string of
    characters of the class. *)
Lemma rmatch_group_plus (k : Re.cclass) (s : string) (caps : Re.captures)
      (cont : string -> Re.captures -> option X) (x : X) :
  Re.rmatch X (Re.Group (Re.Plus k)) s caps cont = Some x ->
  exists cap s',
    cont s' (caps ++ [cap]) = Some x
    /\ PyStr.truthy cap = true
    /\ all_chars (Re.cclass_match k) cap = true.
Proof.
  simpl. destruct s as [|c s]; [discriminate|].
  destruct (Re.cclass_match k c) eqn:M; [|discriminate].
  intros H. destruct (star_some k s _ x H) as (pre & s' & -> & A & C).
  exists (String c pre), s'.
  change (String c (pre ++ s')%string) with ((String c pre) ++ s')%string in C.
  rewrite substring_prefix in C.
  split; [exact C|]. split; [reflexivity|]. simpl. rewrite M, A. reflexivity.
Qed.

End Captures.

Lemma search_some (r : Re.regex) (s : string) (m : Re.captures) :
  Re.search r s = Some m ->
  exists s0, Re.rmatch Re.captures r s0 [] (fun _ caps => Some caps) = Some m.
Proof.
  induction s as [|c s IH]; simpl.
  - destruct (Re.rmatch Re.captures r EmptyString [] _) as [y|] eqn:E;
      [|discriminate].
    intros H. injection H as ->. eauto.
  - destruct (Re.rmatch Re.captures r (String c s) [] _) as [y|] eqn:E.
    + intros H. injection H as ->. eauto.
    + exact IH.
Qed.

Lemma rmatch_seq {X : Type} (r1 r2 : Re.regex) (s : string)
      (caps : Re.captures) (cont : string -> Re.captures -> option X) :
  Re.rmatch X (Re.Seq r1 r2) s caps cont
  = Re.rmatch X r1 s caps (fun s' caps' => Re.rmatch X r2 s' caps' cont).
Proof. reflexivity. Qed.

(** The shape of the three patterns that extract an id or a name:
    some groupless prefix, one group around a plussed class, and a
    groupless rest. *)
Lemma search_one_group (pre : Re.regex) (k : Re.cclass) (rest : Re.regex)
      (s : string) (m : Re.captures) :
  groupless pre = true -> groupless rest = true ->
  Re.search (Re.Seq pre (Re.Seq (Re.Group (Re.Plus k)) rest)) s = Some m ->
  exists cap,
    m = [cap] /\ PyStr.truthy cap = true
    /\ all_chars (Re.cclass_match k) cap = true.
Proof.
  intros Gp Gr H.
  destruct (search_some _ _ _ H) as (s0 & H0).
  rewrite rmatch_seq in H0.
  destruct (rmatch_groupless Re.captures pre Gp _ _ _ _ H0) as (s1 & H1).
  rewrite rmatch_seq in H1.
  destruct (rmatch_group_plus Re.captures k s1 [] _ m H1)
    as (cap & s2 & H2 & T & A).
  destruct (rmatch_groupless Re.captures rest Gr _ _ _ _ H2) as (s3 & H3).
  injection H3 as <-. exists cap. auto.
Qed.

Lemma id_of_role_captures (prefix role out : string) (m : Re.captures) :
  Re.search (Re.id_of_role prefix role) out = Some m ->
  PyStr.truthy (Re.group1 m) = true
  /\ all_chars PyStr.is_digit (Re.group1 m) = true.
Proof.
  intros H.
  destruct (search_one_group (Re.Star Re.Space) Re.Digit
              (Re.seq_of [Re.Lit "."; Re.Plus Re.Space; Re.Lit prefix;
                          Re.Star Re.Dot; Re.Lit role]) out m
              eq_refl eq_refl H) as (cap & -> & T & A).
  auto.
Qed.

Lemma id_of_name_captures (name out : string) (m : Re.captures) :
  Re.search (Re.id_of_name name) out = Some m ->
  PyStr.truthy (Re.group1 m) = true
  /\ all_chars PyStr.is_digit (Re.group1 m) = true.
Proof.
  intros H.
  destruct (search_one_group (Re.Star Re.Space) Re.Digit
              (Re.seq_of [Re.Lit "."; Re.Plus Re.Space; Re.Lit name]) out m
              eq_refl eq_refl H) as (cap & -> & T & A).
  auto.
Qed.

Lemma well_formed_id_truthy (id : option string) :
  well_formed_id id -> (Common.truthy_id id = true <-> id <> None).
Proof.
  destruct id as [x|]; simpl.
  - intros [T _]. rewrite T. split; [discriminate | reflexivity].
  - intros _. split; [discriminate | congruence].
Qed.

Lemma arctis_resolve_ids_run (w : world) (s : self) (t : trace) :
  exists s' t1,
    Arctis_7_Plus_ChatMix.resolve_ids w (s, t) = (Ok tt, (s', t ++ t1))
    /\ (forall out, wpctl_status_ids w = Returned out ->
          game_id s' = option_map Re.group1
                         (Re.search (Re.id_of_role "Arctis" "Game") out)
          /\ chat_id s' = option_map Re.group1
                            (Re.search (Re.id_of_role "Arctis" "Chat") out))
    /\ (forall n, wpctl_status_ids w = Raised n ->
          game_id s' = None /\ chat_id s' = None).
Proof.
  unfold Arctis_7_Plus_ChatMix.resolve_ids, try_except, bind, emit,
    of_outcome, modify, system, log, emit, ret, raise.
  cbn [fst snd].
  destruct (wpctl_status_ids w) as [out|n]; cbn [fst snd].
  - destruct (Re.search (Re.id_of_role "Arctis" "Game") out) as [mg|] eqn:G;
      destruct (Re.search (Re.id_of_role "Arctis" "Chat") out) as [mc|] eqn:C;
      cbn [fst snd]; rewrite <- ?app_assoc;
      eexists _, _; (split; [reflexivity|]); split;
      try (intros out' H; injection H as <-; rewrite ?G, ?C; split; reflexivity);
      intros n H; discriminate H.
  - rewrite <- ?app_assoc. eexists _, _. split; [reflexivity|]. split.
    + intros out H. discriminate H.
    + intros n' _. split; reflexivity.
Qed.

Lemma allsound_resolve_ids_run (w : world) (s : self) (t : trace) :
  exists s' t1,
    AllSound7P_ChatMix.resolve_ids w (s, t) = (Ok tt, (s', t ++ t1))
    /\ (forall out, wpctl_status_ids w = Returned out ->
          game_id s' = option_map Re.group1
                         (Re.search (Re.id_of_role "ChatMix" "Game") out)
          /\ chat_id s' = option_map Re.group1
                            (Re.search (Re.id_of_role "ChatMix" "Chat") out))
    /\ (forall n, wpctl_status_ids w = Raised n ->
          game_id s' = None /\ chat_id s' = None).
Proof.
  unfold AllSound7P_ChatMix.resolve_ids, try_except, bind, emit,
    of_outcome, modify, system, log, emit, ret, raise.
  cbn [fst snd].
  destruct (wpctl_status_ids w) as [out|n]; cbn [fst snd].
  - destruct (Re.search (Re.id_of_role "ChatMix" "Game") out) as [mg|] eqn:G;
      destruct (Re.search (Re.id_of_role "ChatMix" "Chat") out) as [mc|] eqn:C;
      cbn [fst snd]; rewrite <- ?app_assoc;
      eexists _, _; (split; [reflexivity|]); split;
      try (intros out' H; injection H as <-; rewrite ?G, ?C; split; reflexivity);
      intros n H; discriminate H.
  - rewrite <- ?app_assoc. eexists _, _. split; [reflexivity|]. split.
    + intros out H. discriminate H.
    + intros n' _. split; reflexivity.
Qed.

Lemma option_map_group1_well_formed (prefix role out : string) :
  well_formed_id
    (option_map Re.group1 (Re.search (Re.id_of_role prefix role) out)).
Proof.
  destruct (Re.search (Re.id_of_role prefix role) out) as [m|] eqn:S;
    simpl; [|exact I].
  exact (id_of_role_captures prefix role out m S).
Qed.

(** X11.  The block that looks the two sink ids up never fails, in
    either file, and leaves each id either [None] or a non-empty
    string of decimal digits, whatever [wpctl status] printed (and
    [None] twice when reading it raised).  So the test
    [if self.arctis_game_id:] of the loop holds exactly when the id
    was found. *)
Theorem resolved_ids_are_digit_strings :
  forall (w : world) (s : self) (t : trace),
    (exists s' t1,
        Arctis_7_Plus_ChatMix.resolve_ids w (s, t) = (Ok tt, (s', t ++ t1))
        /\ well_formed_id (game_id s') /\ well_formed_id (chat_id s')
        /\ (Common.truthy_id (game_id s') = true <-> game_id s' <> None)
        /\ (Common.truthy_id (chat_id s') = true <-> chat_id s' <> None))
    /\
    (exists s' t1,
        AllSound7P_ChatMix.resolve_ids w (s, t) = (Ok tt, (s', t ++ t1))
        /\ well_formed_id (game_id s') /\ well_formed_id (chat_id s')
        /\ (Common.truthy_id (game_id s') = true <-> game_id s' <> None)
        /\ (Common.truthy_id (chat_id s') = true <-> chat_id s' <> None)).
Proof.
  intros w s t. split.
  - destruct (arctis_resolve_ids_run w s t) as (s' & t1 & E & Hr & Hx).
    exists s', t1. split; [exact E|].
    assert (W : well_formed_id (game_id s') /\ well_formed_id (chat_id s')).
    { destruct (wpctl_status_ids w) as [out|n] eqn:O.
      - destruct (Hr out eq_refl) as [-> ->].
        split; apply option_map_group1_well_formed.
      - destruct (Hx n eq_refl) as [-> ->]. split; exact I. }
    destruct W as [Wg Wc].
    repeat split; auto; apply well_formed_id_truthy; assumption.
  - destruct (allsound_resolve_ids_run w s t) as (s' & t1 & E & Hr & Hx).
    exists s', t1. split; [exact E|].
    assert (W : well_formed_id (game_id s') /\ well_formed_id (chat_id s')).
    { destruct (wpctl_status_ids w) as [out|n] eqn:O.
      - destruct (Hr out eq_refl) as [-> ->].
        split; apply option_map_group1_well_formed.
      - destruct (Hx n eq_refl) as [-> ->]. split; exact I. }
    destruct W as [Wg Wc].
    repeat split; auto; apply well_formed_id_truthy; assumption.
Qed.

(** ** Recording the default sink *)

Lemma default_sink_name_run (w : world) (s : self) (t : trace) :
  exists r t1,
    Common.default_sink_name w (s, t) = (r, (s, t ++ t1))
    /\ forallb is_query t1 = true
    /\ (forall c, r <> Raise (SystemExit c))
    /\ (forall n, pw_dump w = Raised n -> exists x, r = Raise (PyError x)).
Proof.
  destruct (default_sink_name_keeps (@eq self) is_query is_py_error
              (@eq_refl self) (@eq_trans self) (fun _ => eq_refl) w
              eq_refl eq_refl s t)
    as (r & s' & t1 & E & <- & Q & X).
  exists r, t1. repeat split; auto.
  - intros c H. specialize (X _ H). discriminate X.
  - intros n Hn. unfold Common.default_sink_name, bind, emit, of_outcome,
      raise in E. cbn [fst snd] in E. rewrite Hn in E.
    injection E as <- _. eauto.
Qed.

Ltac capture_falls_back Q :=
  cbv [bind modify popen emit ret Common.re_escape raise log get_self
         fst snd]; rewrite <- !app_assoc;
  eexists _, _, "auto"; split; [reflexivity|];
  split; [rewrite !forallb_app, Q; reflexivity|];
  split; [reflexivity|]; split; [reflexivity|];
  split; [exists None; split; [reflexivity | exact I]|];
  split; [repeat split|]; intros; split; reflexivity.

Lemma arctis_capture_run (w : world) (s : self) (t : trace) :
  exists s' t1 name,
    Arctis_7_Plus_ChatMix.capture_default_sink w (s, t)
    = (Ok tt, (s', t ++ t1))
    /\ forallb is_query t1 = true
    /\ system_default_sink s' = Some (PStr name)
    /\ PyStr.truthy name = true
    /\ (exists id, system_default_sink_id s' = Some id /\ well_formed_id id)
    /\ same_but_default s s'
    /\ (forall n, pw_dump w = Raised n ->
          name = "auto" /\ system_default_sink_id s' = Some None).
Proof.
  unfold Arctis_7_Plus_ChatMix.capture_default_sink, try_except.
  unfold bind at 1.
  destruct (default_sink_name_run w s t) as (r & t0 & E & Q & X & Hraised).
  rewrite E.
  destruct r as [name|[c|x]].
  - assert (Hok : forall (P : Prop) n, pw_dump w = Raised n -> P).
    { intros P n Hn. destruct (Hraised n Hn) as [y Hy]. discriminate Hy. }
    destruct (Py.truthy name) eqn:T.
    + destruct name as [|b|z|n0|l0|f0];
        [ capture_falls_back Q.. | | capture_falls_back Q
        | capture_falls_back Q ].
      cbv [bind modify popen emit ret Common.re_escape get_self log fst snd].
      destruct (Re.search (Re.id_of_name n0) (wpctl_status_default w))
        as [m|] eqn:S;
        cbv [bind modify popen emit ret Common.re_escape get_self log fst snd
               system_default_sink system_default_sink_id
               Common.set_system_default_sink
               Common.set_system_default_sink_id].
      * destruct (id_of_name_captures _ _ _ S) as [Tm Am].
        rewrite Tm. rewrite <- !app_assoc.
        eexists _, _, n0. split; [reflexivity|].
        split; [rewrite !forallb_app, Q; reflexivity|].
        split; [reflexivity|]. split; [exact T|].
        split; [exists (Some (Re.group1 m)); split;
                [reflexivity | split; assumption]|].
        split; [repeat split|]. intros n Hn. exact (Hok _ n Hn).
      * rewrite <- !app_assoc.
        eexists _, _, n0. split; [reflexivity|].
        split; [rewrite !forallb_app, Q; reflexivity|].
        split; [reflexivity|]. split; [exact T|].
        split; [exists None; split; [reflexivity | exact I]|].
        split; [repeat split|]. intros n Hn. exact (Hok _ n Hn).
    + cbv [bind modify get_self log emit fst snd system_default_sink
               system_default_sink_id Common.set_system_default_sink
               Common.set_system_default_sink_id].
      rewrite <- !app_assoc.
      eexists _, _, "auto". split; [reflexivity|].
      split; [rewrite !forallb_app, Q; reflexivity|].
      split; [reflexivity|]. split; [reflexivity|].
      split; [exists None; split; [reflexivity | exact I]|].
      split; [repeat split|]. intros n Hn. exact (Hok _ n Hn).
  - exfalso. exact (X c eq_refl).
  - capture_falls_back Q.
Qed.

Lemma allsound_capture_run (w : world) (s : self) (t : trace) :
  exists s' t1 v,
    AllSound7P_ChatMix.capture_default_sink w (s, t)
    = (Ok tt, (s', t ++ t1))
    /\ forallb is_query t1 = true
    /\ system_default_sink s' = Some v
    /\ Py.truthy v = true
    /\ same_but_default s s'
    /\ system_default_sink_id s' = system_default_sink_id s
    /\ (forall n, pw_dump w = Raised n -> v = PStr "auto").
Proof.
  unfold AllSound7P_ChatMix.capture_default_sink, try_except.
  unfold bind at 1.
  destruct (default_sink_name_run w s t) as (r & t0 & E & Q & X & Hraised).
  rewrite E.
  destruct r as [name|[c|x]].
  - assert (Hok : forall (P : Prop) n, pw_dump w = Raised n -> P).
    { intros P n Hn. destruct (Hraised n Hn) as [y Hy]. discriminate Hy. }
    unfold bind, modify, log, emit. cbn [fst snd].
    rewrite <- !app_assoc.
    destruct (Py.truthy name) eqn:T.
    + eexists _, _, name. split; [reflexivity|].
      split; [rewrite !forallb_app, Q; reflexivity|].
      split; [reflexivity|]. split; [exact T|].
      split; [repeat split|]. split; [reflexivity|].
      intros n Hn. exact (Hok _ n Hn).
    + eexists _, _, (PStr "auto"). split; [reflexivity|].
      split; [rewrite !forallb_app, Q; reflexivity|].
      split; [reflexivity|]. split; [reflexivity|].
      split; [repeat split|]. split; [reflexivity|].
      intros n Hn. exact (Hok _ n Hn).
  - exfalso. exact (X c eq_refl).
  - unfold bind, modify, log, emit. cbn [fst snd].
    rewrite <- !app_assoc.
    eexists _, _, (PStr "auto"). split; [reflexivity|].
    split; [rewrite !forallb_app, Q; reflexivity|].
    split; [reflexivity|]. split; [reflexivity|].
    split; [repeat split|]. split; [reflexivity|].
    intros n Hn. reflexivity.
Qed.

(** X12.  Recording the default sink never fails and only queries
    PipeWire, whatever pw-dump, pw-cli and wpctl answer.  In
    [Arctis_7_Plus_ChatMix.py] it always leaves [system_default_sink]
    a non-empty string and [system_default_sink_id] either [None] or a
    non-empty string of decimal digits; when the output of pw-dump
    cannot be read as JSON they are [auto] and [None].  In
    [AllSound7P_ChatMix.py] it always leaves [system_default_sink] a
    value that is true, [auto] when pw-dump cannot be read, and never
    assigns an id.  In both files the other attributes are left
    alone. *)
Theorem default_sink_is_always_recorded :
  forall (w : world) (s : self) (t : trace),
    (exists s' t1 name,
        Arctis_7_Plus_ChatMix.capture_default_sink w (s, t)
        = (Ok tt, (s', t ++ t1))
        /\ forallb is_query t1 = true
        /\ system_default_sink s' = Some (PStr name)
        /\ PyStr.truthy name = true
        /\ (exists id, system_default_sink_id s' = Some id
                       /\ well_formed_id id)
        /\ same_but_default s s'
        /\ (forall n, pw_dump w = Raised n ->
              name = "auto" /\ system_default_sink_id s' = Some None))
    /\
    (exists s' t1 v,
        AllSound7P_ChatMix.capture_default_sink w (s, t)
        = (Ok tt, (s', t ++ t1))
        /\ forallb is_query t1 = true
        /\ system_default_sink s' = Some v
        /\ Py.truthy v = true
        /\ same_but_default s s'
        /\ system_default_sink_id s' = system_default_sink_id s
        /\ (forall n, pw_dump w = Raised n -> v = PStr "auto")).
Proof.
  intros w s t. split.
  - apply arctis_capture_run.
  - apply allsound_capture_run.
Qed.

(** ** A termination signal while polling *)

Lemma establishes_bind_right (P : self -> Prop) {A B : Type}
      (m : M A) (k : A -> M B) :
  (forall a, establishes P (k a)) -> establishes P (bind m k).
Proof.
  intros Hk s t b s' t'. unfold bind.
  destruct (m (s, t)) as [[a|e] [s1 t1]]; intros H.
  - exact (Hk a s1 t1 b s' t' H).
  - discriminate H.
Qed.

Lemma establishes_bind_left (P : self -> Prop) (R : self -> self -> Prop)
      (Q : event -> bool) (E : exn -> bool) {A B : Type}
      (m : M A) (k : A -> M B) :
  (forall s s', R s s' -> P s -> P s') ->
  establishes P m -> (forall a, keeps R Q E (k a)) ->
  establishes P (bind m k).
Proof.
  intros HR Hm Hk s t b s' t'. unfold bind.
  destruct (m (s, t)) as [[a|e] [s1 t1]] eqn:E1; intros H.
  - destruct (Hk a s1 t1) as (r & s2 & t2 & E2 & R2 & _).
    rewrite E2 in H. assert (s2 = s') as <- by congruence.
    exact (HR _ _ R2 (Hm _ _ _ _ _ E1)).
  - discriminate H.
Qed.

Lemma arctis_capture_establishes (w : world) :
  establishes default_recorded
    (Arctis_7_Plus_ChatMix.capture_default_sink w).
Proof.
  intros s t a s' t' H.
  destruct (arctis_capture_run w s t)
    as (s1 & t1 & name & E & _ & D & T & (id & I & W) & _).
  rewrite E in H. assert (s1 = s') as <- by congruence.
  exists name, id. auto.
Qed.

Lemma same_default_recorded (s s' : self) :
  same_default s s' -> default_recorded s -> default_recorded s'.
Proof.
  intros [H1 H2] (name & id & D & T & I & W).
  exists name, id. rewrite H1, H2. auto.
Qed.

Lemma same_default_refl (s : self) : same_default s s.
Proof. split; reflexivity. Qed.

Lemma same_default_trans (s1 s2 s3 : self) :
  same_default s1 s2 -> same_default s2 s3 -> same_default s1 s3.
Proof. intros [A B] [C D]. split; congruence. Qed.

Lemma arctis_after_capture_same_default (w : world) :
  keeps same_default any_event any_exn
    (default_sink <- Arctis_7_Plus_ChatMix.choose_default_sink w ;;
     Arctis_7_Plus_ChatMix.destroy_old_sinks w ;;
     Arctis_7_Plus_ChatMix.create_sinks w ;;
     Arctis_7_Plus_ChatMix.link_sinks w default_sink ;;
     Arctis_7_Plus_ChatMix.resolve_ids w)%py.
Proof.
  pose proof same_default_refl. pose proof same_default_trans.
  keeps_service.
Qed.

Lemma arctis_init_records_default (w : world) :
  establishes default_recorded (Arctis_7_Plus_ChatMix.__init__ w).
Proof.
  unfold Arctis_7_Plus_ChatMix.__init__, Common.__init__.
  do 3 (apply establishes_bind_right; intros ?).
  apply establishes_bind_right; intros s0.
  apply establishes_bind_right; intros ?.
  unfold Arctis_7_Plus_ChatMix._init_VAC.
  do 4 (apply establishes_bind_right; intros ?).
  apply (establishes_bind_left default_recorded same_default
           any_event any_exn).
  - apply same_default_recorded.
  - apply arctis_capture_establishes.
  - intros _. apply arctis_after_capture_same_default.
Qed.

Lemma restore_trace_restoration (w : world) (s : self) (name : string)
      (id : option string) :
  system_default_sink_id s = Some id -> well_formed_id id ->
  restore_trace w s name = restoration w name id.
Proof.
  intros I W. unfold restore_trace, restoration. rewrite I.
  destruct id as [x|]; [|reflexivity].
  destruct W as [T _]. rewrite T. reflexivity.
Qed.

Lemma arctis_iteration_sigterm (w : world)
      (l : Arctis_7_Plus_ChatMix.loop_state) (s : self) (t : trace)
      (name : string) (id : option string) :
  system_default_sink s = Some (PStr name) ->
  system_default_sink_id s = Some id -> well_formed_id id ->
  Arctis_7_Plus_ChatMix.iteration w l Sigterm (s, t)
  = (Raise (SystemExit 0),
     (s, t ++ UsbRead (addr s) 64 (Some 1000)
           :: graceful_shutdown "Arctis"
                "Artcis 7+ ChatMix shut down gracefully... Bye Bye!"
                (restoration w name id))).
Proof.
  intros D I W.
  unfold Arctis_7_Plus_ChatMix.iteration,
    Arctis_7_Plus_ChatMix.__handle_sigterm,
    Arctis_7_Plus_ChatMix.die_gracefully, Common.call_die_gracefully.
  cbn [forallb Py.lookup].
  unfold Arctis_7_Plus_ChatMix.die_gracefully_body.
  unfold bind at 1. unfold get_self at 1. cbn [fst snd].
  unfold bind at 1. unfold emit at 1. cbn [fst snd].
  unfold bind at 1. unfold bind at 1. unfold log at 1. unfold emit at 1.
  cbn [fst snd].
  unfold bind at 1.
  rewrite (arctis_restore_default_trace w s _ name D).
  rewrite (restore_trace_restoration w s name id I W).
  unfold bind, when, log, system, emit, sys_exit, raise, ret,
    graceful_shutdown.
  simpl. rewrite <- !app_assoc. reflexivity.
Qed.

Lemma allsound_iteration_sigterm (s : self) (t : trace) :
  AllSound7P_ChatMix.iteration Sigterm (s, t)
  = (Raise (SystemExit 0),
     (s, t ++ UsbRead (addr s) 64 None
           :: graceful_shutdown "ChatMix"
                "AllSound ChatMix shut down gracefully... Bye Bye!" [])).
Proof.
  unfold AllSound7P_ChatMix.iteration,
    AllSound7P_ChatMix.__handle_sigterm,
    AllSound7P_ChatMix.die_gracefully, Common.call_die_gracefully.
  cbn [forallb Py.lookup].
  unfold AllSound7P_ChatMix.die_gracefully_body.
  unfold bind, get_self, when, log, system, emit, sys_exit, raise, ret,
    graceful_shutdown.
  simpl. rewrite <- !app_assoc. reflexivity.
Qed.

Lemma arctis_poll_until_sigterm (w : world) (rs : list read_result)
      (rest : list loop_event) (name : string) (id : option string)
      (s : self) :
  system_default_sink s = Some (PStr name) ->
  system_default_sink_id s = Some id -> well_formed_id id ->
  Forall readable rs ->
  forall (l : Arctis_7_Plus_ChatMix.loop_state) (t : trace),
  exists t',
    Arctis_7_Plus_ChatMix.poll w l (map Read rs ++ Sigterm :: rest) (s, t)
    = (Raise (SystemExit 0),
       (s, t ++ t' ++ UsbRead (addr s) 64 (Some 1000)
             :: graceful_shutdown "Arctis"
                  "Artcis 7+ ChatMix shut down gracefully... Bye Bye!"
                  (restoration w name id)))
    /\ forallb quiet t' = true.
Proof.
  intros D I W.
  induction 1 as [|r rs Hr Hrs IH]; intros l t.
  - simpl. unfold bind.
    rewrite (arctis_iteration_sigterm w l s t name id D I W).
    exists []. split; reflexivity.
  - simpl. unfold bind.
    destruct (arctis_iteration_readable w l r s t Hr) as (l' & t1 & E & Q).
    rewrite E.
    destruct (IH l' (t ++ t1)) as (t2 & E2 & Q2).
    fold (@bind (Common.loop_ctl Arctis_7_Plus_ChatMix.loop_state)
                (option Arctis_7_Plus_ChatMix.loop_state)) in E2.
    exists (t1 ++ t2). split.
    + rewrite E2, <- !app_assoc. reflexivity.
    + rewrite forallb_app, Q, Q2. reflexivity.
Qed.

Lemma allsound_poll_until_sigterm (rs : list read_result)
      (rest : list loop_event) (s : self) :
  Forall readable rs ->
  forall (t : trace),
  exists t',
    AllSound7P_ChatMix.poll (map Read rs ++ Sigterm :: rest) (s, t)
    = (Raise (SystemExit 0),
       (s, t ++ t' ++ UsbRead (addr s) 64 None
             :: graceful_shutdown "ChatMix"
                  "AllSound ChatMix shut down gracefully... Bye Bye!" []))
    /\ forallb quiet t' = true.
Proof.
  induction 1 as [|r rs Hr Hrs IH]; intros t.
  - simpl. unfold bind.
    rewrite (allsound_iteration_sigterm s t).
    exists []. split; reflexivity.
  - simpl. unfold bind.
    destruct (allsound_iteration_readable r s t Hr) as (t1 & E & Q).
    rewrite E.
    destruct (IH (t ++ t1)) as (t2 & E2 & Q2).
    fold (@bind (Common.loop_ctl unit) (option unit)) in E2.
    exists (t1 ++ t2). split.
    + rewrite E2, <- !app_assoc. reflexivity.
    + rewrite forallb_app, Q, Q2. reflexivity.
Qed.

(** X13.  A termination signal that arrives while the loop polls
    always ends the service cleanly.  After a start-up that completed,
    and whatever full reports and time-outs the loop has handled since,
    the signal makes the process exit with status 0 after exactly this
    teardown: the default sink is restored (in
    [Arctis_7_Plus_ChatMix.py] only: by the id recorded at start-up
    when there is one, else by looking the recorded name up), then
    both virtual sinks are destroyed, then the farewell is logged.
    The start-up always leaves the recorded name a string, so the
    restoration cannot fail.  Nothing that comes after the signal is
    read, and nothing before it belonged to a teardown. *)
Theorem sigterm_shuts_down_cleanly :
  forall (w : world) (rs : list read_result) (rest : list loop_event)
         (s : self) (t : trace),
    Forall readable rs ->
    (Arctis_7_Plus_ChatMix.__init__ w (self0, []) = (Ok tt, (s, t)) ->
     exists name id t',
       system_default_sink s = Some (PStr name)
       /\ system_default_sink_id s = Some id
       /\ forallb quiet t' = true
       /\ Arctis_7_Plus_ChatMix.main w (map Read rs ++ Sigterm :: rest)
          = (Common.Exited 0,
             t ++ banner "Arctis 7+ ChatMix Enabled!" ++ t'
               ++ UsbRead (addr s) 64 (Some 1000)
               :: graceful_shutdown "Arctis"
                    "Artcis 7+ ChatMix shut down gracefully... Bye Bye!"
                    (restoration w name id)))
    /\
    (AllSound7P_ChatMix.__init__ w (self0, []) = (Ok tt, (s, t)) ->
     exists t',
       forallb quiet t' = true
       /\ AllSound7P_ChatMix.main w (map Read rs ++ Sigterm :: rest)
          = (Common.Exited 0,
             t ++ banner "ChatMix Enabled!" ++ t'
               ++ UsbRead (addr s) 64 None
               :: graceful_shutdown "ChatMix"
                    "AllSound ChatMix shut down gracefully... Bye Bye!"
                    [])).
Proof.
  intros w rs rest s t Hrs. split; intros Hinit.
  - destruct (arctis_init_records_default w _ _ _ _ _ Hinit)
      as (name & id & D & _ & I & W).
    exists name, id.
    rewrite (arctis_main_after_init w _ s t Hinit).
    rewrite arctis_start_modulator_signal.
    destruct (arctis_poll_until_sigterm w rs rest name id s D I W Hrs
                Arctis_7_Plus_ChatMix.loop_start
                (t ++ banner "Arctis 7+ ChatMix Enabled!"))
      as (t' & E & Q).
    exists t'. unfold banner in *. rewrite E. cbn [snd].
    rewrite <- !app_assoc. auto.
  - rewrite (allsound_main_after_init w _ s t Hinit).
    rewrite allsound_start_modulator_signal.
    destruct (allsound_poll_until_sigterm rs rest s Hrs
                (t ++ banner "ChatMix Enabled!"))
      as (t' & E & Q).
    exists t'. unfold banner in *. rewrite E. cbn [snd].
    rewrite <- !app_assoc. auto.
Qed.

Lemma sigterm_shuts_down_cleanly_witness :
  exists t',
    fst (Arctis_7_Plus_ChatMix.main Sample.world0
           [Read (Data (Sample.report 50 50)); Read USBTimeoutError;
            Sigterm; Read USBError])
    = Common.Exited 0
    /\ forallb quiet t' = true.
Proof.
  destruct (sigterm_shuts_down_cleanly Sample.world0
              [Data (Sample.report 50 50); USBTimeoutError]
              [Read USBError]
              (fst (snd (Arctis_7_Plus_ChatMix.__init__ Sample.world0
                           (self0, []))))
              (snd (snd (Arctis_7_Plus_ChatMix.__init__ Sample.world0
                           (self0, []))))) as [HA _].
  - repeat constructor. simpl. discriminate.
  - destruct HA as (name & id & t' & _ & _ & Q & E).
    + vm_compute. reflexivity.
    + exists t'. split; [|exact Q].
      simpl map in E. simpl app in E at 1.
      rewrite E. reflexivity.
Defined.

(** ** The calls of find, detach and read *)

Lemma find_headset_finds (w : world) (s : self) (t : trace) :
  usb_backend w = true ->
  Common.find_headset w (s, t)
  = (Ok (headset_of (usb_devices w)), (s, t ++ finds (usb_devices w))).
Proof.
  intros Hb.
  unfold Common.find_headset, Common.usb_core_find, headset_of, finds,
    bind, emit, ret.
  cbn [fst snd]. rewrite Hb.
  destruct (find (Common.matches 0x1038 0x220e) (usb_devices w)).
  - reflexivity.
  - cbn [fst snd]. rewrite <- app_assoc. reflexivity.
Qed.

(** With the headset attached and its dial endpoint present, the
    start-up reaches [_init_VAC] in the state [located]. *)
Lemma init_with_endpoint (w : world) (d : device) (i : interface)
      (e : endpoint) (die : list (string * pyval) -> M unit) (vac : M unit)
      (models : string) :
  usb_backend w = true ->
  headset_of (usb_devices w) = Some d ->
  chatmix_endpoint_of d = Some (i, e) ->
  Common.__init__ w die vac models (self0, [])
  = vac (located d i e,
         Log INFO "Initializing ac7pcm..." [] :: finds (usb_devices w)
         ++ Log INFO "ChatMix interface: {}, endpoint: {}, max packet: {}"
              [PInt (bInterfaceNumber i);
               PStr (Py.hex (bEndpointAddress e));
               PInt (wMaxPacketSize e)]
         :: detach d i).
Proof.
  intros Hb Hd He.
  unfold Common.__init__.
  unfold bind at 1. unfold log at 1. unfold emit at 1. cbn [fst snd].
  unfold bind at 1. unfold try_except at 1. unfold bind at 1.
  rewrite (find_headset_finds w _ _ Hb), Hd. unfold modify. cbn [fst snd].
  unfold bind at 1. unfold try_except at 1.
  unfold bind at 1. unfold get_self at 1. cbn [fst snd].
  unfold Common.set_dev at 1. cbn [dev].
  unfold chatmix_endpoint_of in He.
  unfold Common.select_interface, Common.first_endpoint.
  destruct (nth_error (configurations d) 0) as [cfg|]; [|discriminate He].
  destruct (nth_error (interfaces cfg) 8) as [i'|]; [|discriminate He].
  unfold raise, ret, bind, modify, log, emit, get_self, when, detach, located.
  cbn [fst snd].
  destruct (nth_error (endpoints i') 0) as [e'|]; [|discriminate He].
  injection He as -> ->.
  cbn [fst snd dev interface_num Common.set_addr Common.set_interface_num
         Common.set_dev].
  destruct (existsb (Z.eqb (bInterfaceNumber i)) (kernel_driver d));
    cbn [fst snd app]; rewrite <- ?app_assoc; reflexivity.
Qed.

Lemma same_usb_refl (s : self) : same_usb s s.
Proof. repeat split. Qed.

Lemma same_usb_trans (s1 s2 s3 : self) :
  same_usb s1 s2 -> same_usb s2 s3 -> same_usb s1 s3.
Proof. intros (A & B & C) (D & E & F). repeat split; congruence. Qed.

Lemma no_usb_events (t : trace) :
  forallb no_usb t = true -> usb_events t = [].
Proof.
  unfold usb_events.
  induction t as [|e t IH]; simpl; [reflexivity|].
  intros H. apply andb_prop in H as [He Ht].
  destruct e; simpl in *; try discriminate He; auto.
Qed.

Lemma usb_events_app (t1 t2 : trace) :
  usb_events (t1 ++ t2) = usb_events t1 ++ usb_events t2.
Proof. apply filter_app. Qed.

Lemma usb_events_finds (devs : list device) :
  usb_events (finds devs) = finds devs.
Proof. unfold finds. destruct (find _ devs); reflexivity. Qed.

Lemma usb_events_detach (d : device) (i : interface) :
  usb_events (detach d i) = detach d i.
Proof. unfold detach. destruct (existsb _ _); reflexivity. Qed.

Lemma arctis_init_VAC_no_usb (w : world) :
  keeps same_usb no_usb any_exn (Arctis_7_Plus_ChatMix._init_VAC w).
Proof.
  pose proof same_usb_refl. pose proof same_usb_trans.
  keeps_service.
Qed.

Lemma allsound_init_VAC_no_usb (w : world) :
  keeps same_usb no_usb any_exn (AllSound7P_ChatMix._init_VAC w).
Proof.
  pose proof same_usb_refl. pose proof same_usb_trans.
  keeps_service.
Qed.

(** One turn of the loop is one read on [self.addr] and no other call
    to the USB library. *)
Lemma arctis_iteration_usb (w : world)
      (l : Arctis_7_Plus_ChatMix.loop_state) (ev : loop_event)
      (s : self) (t : trace) :
  exists r t1,
    Arctis_7_Plus_ChatMix.iteration w l ev (s, t)
    = (r, (s, t ++ UsbRead (addr s) 64 (Some 1000) :: t1))
    /\ forallb no_usb t1 = true.
Proof.
  unfold Arctis_7_Plus_ChatMix.iteration.
  unfold bind at 1. unfold get_self at 1. cbn [fst snd].
  unfold bind at 1. unfold emit at 1. cbn [fst snd].
  match goal with
  | |- context [?m (s, (t ++ [?e])%list)] =>
      assert (K : keeps (@eq self) no_usb any_exn m)
  end.
  { pose proof (@eq_refl self). pose proof (@eq_trans self).
    keeps_service. }
  destruct (K s (t ++ [UsbRead (addr s) 64 (Some 1000)]))
    as (r & s' & t1 & E & <- & Q & _).
  rewrite E, <- app_assoc. exists r, t1. split; [reflexivity | exact Q].
Qed.

Lemma allsound_iteration_usb (ev : loop_event) (s : self) (t : trace) :
  exists r t1,
    AllSound7P_ChatMix.iteration ev (s, t)
    = (r, (s, t ++ UsbRead (addr s) 64 None :: t1))
    /\ forallb no_usb t1 = true.
Proof.
  unfold AllSound7P_ChatMix.iteration.
  unfold bind at 1. unfold get_self at 1. cbn [fst snd].
  unfold bind at 1. unfold emit at 1. cbn [fst snd].
  match goal with
  | |- context [?m (s, (t ++ [?e])%list)] =>
      assert (K : keeps (@eq self) no_usb any_exn m)
  end.
  { pose proof (@eq_refl self). pose proof (@eq_trans self).
    keeps_service. }
  destruct (K s (t ++ [UsbRead (addr s) 64 None]))
    as (r & s' & t1 & E & <- & Q & _).
  rewrite E, <- app_assoc. exists r, t1. split; [reflexivity | exact Q].
Qed.

Lemma arctis_poll_usb (w : world) (evs : list loop_event) :
  forall (l : Arctis_7_Plus_ChatMix.loop_state) (s : self) (t : trace),
  exists r n t1,
    Arctis_7_Plus_ChatMix.poll w l evs (s, t) = (r, (s, t ++ t1))
    /\ usb_events t1 = repeat (UsbRead (addr s) 64 (Some 1000)) n
    /\ (n <= List.length evs)%nat
    /\ (forall x, r = Ok (Some x) -> n = List.length evs).
Proof.
  induction evs as [|ev evs IH]; intros l s t.
  - exists (Ok (Some l)), 0%nat, []. rewrite app_nil_r.
    repeat split; auto.
  - cbn [Arctis_7_Plus_ChatMix.poll]. unfold bind.
    destruct (arctis_iteration_usb w l ev s t) as (r & t1 & E & Q).
    rewrite E.
    destruct r as [[l'|]|e].
    + destruct (IH l' s (t ++ UsbRead (addr s) 64 (Some 1000) :: t1))
        as (r2 & n & t2 & E2 & U & Hn & Hx).
      rewrite E2, <- app_assoc.
      exists r2, (S n), (UsbRead (addr s) 64 (Some 1000) :: t1 ++ t2).
      split; [reflexivity|].
      split.
      { change (UsbRead (addr s) 64 (Some 1000) :: t1 ++ t2)
          with ([UsbRead (addr s) 64 (Some 1000)] ++ t1 ++ t2).
        rewrite !usb_events_app, (no_usb_events t1 Q), U. reflexivity. }
      split; [simpl; lia|].
      intros x Hr. simpl. f_equal. exact (Hx x Hr).
    + exists (Ok None), 1%nat, (UsbRead (addr s) 64 (Some 1000) :: t1).
      split; [reflexivity|].
      split.
      { change (UsbRead (addr s) 64 (Some 1000) :: t1)
          with ([UsbRead (addr s) 64 (Some 1000)] ++ t1).
        rewrite usb_events_app, (no_usb_events t1 Q). reflexivity. }
      split; [simpl; lia | discriminate].
    + exists (Raise e), 1%nat, (UsbRead (addr s) 64 (Some 1000) :: t1).
      split; [reflexivity|].
      split.
      { change (UsbRead (addr s) 64 (Some 1000) :: t1)
          with ([UsbRead (addr s) 64 (Some 1000)] ++ t1).
        rewrite usb_events_app, (no_usb_events t1 Q). reflexivity. }
      split; [simpl; lia | discriminate].
Qed.

Lemma allsound_poll_usb (evs : list loop_event) :
  forall (s : self) (t : trace),
  exists r n t1,
    AllSound7P_ChatMix.poll evs (s, t) = (r, (s, t ++ t1))
    /\ usb_events t1 = repeat (UsbRead (addr s) 64 None) n
    /\ (n <= List.length evs)%nat
    /\ (forall x, r = Ok (Some x) -> n = List.length evs).
Proof.
  induction evs as [|ev evs IH]; intros s t.
  - exists (Ok (Some tt)), 0%nat, []. rewrite app_nil_r.
    repeat split; auto.
  - cbn [AllSound7P_ChatMix.poll]. unfold bind.
    destruct (allsound_iteration_usb ev s t) as (r & t1 & E & Q).
    rewrite E.
    destruct r as [[l'|]|e].
    + destruct (IH s (t ++ UsbRead (addr s) 64 None :: t1))
        as (r2 & n & t2 & E2 & U & Hn & Hx).
      rewrite E2, <- app_assoc.
      exists r2, (S n), (UsbRead (addr s) 64 None :: t1 ++ t2).
      split; [reflexivity|].
      split.
      { change (UsbRead (addr s) 64 None :: t1 ++ t2)
          with ([UsbRead (addr s) 64 None] ++ t1 ++ t2).
        rewrite !usb_events_app, (no_usb_events t1 Q), U. reflexivity. }
      split; [simpl; lia|].
      intros x Hr. simpl. f_equal. exact (Hx x Hr).
    + exists (Ok None), 1%nat, (UsbRead (addr s) 64 None :: t1).
      split; [reflexivity|].
      split.
      { change (UsbRead (addr s) 64 None :: t1)
          with ([UsbRead (addr s) 64 None] ++ t1).
        rewrite usb_events_app, (no_usb_events t1 Q). reflexivity. }
      split; [simpl; lia | discriminate].
    + exists (Raise e), 1%nat, (UsbRead (addr s) 64 None :: t1).
      split; [reflexivity|].
      split.
      { change (UsbRead (addr s) 64 None :: t1)
          with ([UsbRead (addr s) 64 None] ++ t1).
        rewrite usb_events_app, (no_usb_events t1 Q). reflexivity. }
      split; [simpl; lia | discriminate].
Qed.

Lemma usb_events_start_up (devs : list device) (d : device) (i : interface)
      (l1 l2 : event) :
  no_usb l1 = true -> no_usb l2 = true ->
  usb_events (l1 :: finds devs ++ l2 :: detach d i)
  = finds devs ++ detach d i.
Proof.
  intros H1 H2.
  change (l1 :: finds devs ++ l2 :: detach d i)
    with ([l1] ++ finds devs ++ [l2] ++ detach d i).
  rewrite !usb_events_app, usb_events_finds, usb_events_detach.
  rewrite (no_usb_events [l1]), (no_usb_events [l2]);
    [reflexivity | simpl; rewrite H2; reflexivity
    | simpl; rewrite H1; reflexivity].
Qed.

Lemma arctis_run_usb (w : world) (d : device) (i : interface) (e : endpoint)
      (evs : list loop_event) :
  usb_backend w = true ->
  headset_of (usb_devices w) = Some d ->
  chatmix_endpoint_of d = Some (i, e) ->
  exists r s t n,
    (Arctis_7_Plus_ChatMix.__init__ w ;;
     Arctis_7_Plus_ChatMix.start_modulator_signal w evs)%py (self0, [])
    = (r, (s, t))
    /\ usb_events t
       = finds (usb_devices w) ++ detach d i
         ++ repeat (UsbRead (bEndpointAddress e) 64 (Some 1000)) n
    /\ (n <= List.length evs)%nat
    /\ (forall x, r = Ok (Some x) -> n = List.length evs).
Proof.
  intros Hb Hd He. unfold bind, Arctis_7_Plus_ChatMix.__init__.
  rewrite (init_with_endpoint w d i e _ _ _ Hb Hd He).
  match goal with
  | |- context [Arctis_7_Plus_ChatMix._init_VAC w (?s1, ?t1)] =>
      destruct (arctis_init_VAC_no_usb w s1 t1)
        as (r & s2 & t2 & E & (_ & _ & A) & Q & _)
  end.
  rewrite E. cbn [located Common.set_addr addr] in A.
  destruct r as [[]|x].
  - rewrite arctis_start_modulator_signal.
    match goal with
    | |- context [Arctis_7_Plus_ChatMix.poll w ?l evs (s2, ?t0)] =>
        destruct (arctis_poll_usb w evs l s2 t0)
          as (r & n & t3 & E3 & U & Hn & Hx)
    end.
    rewrite E3. exists r, s2. eexists. exists n.
    split; [reflexivity|].
    split; [|split; assumption].
    rewrite !usb_events_app, U, A, (no_usb_events t2 Q).
    rewrite usb_events_start_up by reflexivity.
    rewrite (no_usb_events _ (eq_refl : forallb no_usb
              [Log INFO "Reading modulator USB input started" [];
               Log INFO dashes [];
               Log INFO "Arctis 7+ ChatMix Enabled!" [];
               Log INFO dashes []] = true)).
    cbn [app]. rewrite ?app_nil_r, <- ?app_assoc. reflexivity.
  - exists (Raise x), s2. eexists. exists 0%nat.
    split; [reflexivity|].
    split; [|split; [lia | discriminate]].
    rewrite !usb_events_app, (no_usb_events t2 Q).
    rewrite usb_events_start_up by reflexivity.
    cbn [repeat]. rewrite !app_nil_r. reflexivity.
Qed.

Lemma allsound_run_usb (w : world) (d : device) (i : interface) (e : endpoint)
      (evs : list loop_event) :
  usb_backend w = true ->
  headset_of (usb_devices w) = Some d ->
  chatmix_endpoint_of d = Some (i, e) ->
  exists r s t n,
    (AllSound7P_ChatMix.__init__ w ;;
     AllSound7P_ChatMix.start_modulator_signal evs)%py (self0, [])
    = (r, (s, t))
    /\ usb_events t
       = finds (usb_devices w) ++ detach d i
         ++ repeat (UsbRead (bEndpointAddress e) 64 None) n
    /\ (n <= List.length evs)%nat
    /\ (forall x, r = Ok (Some x) -> n = List.length evs).
Proof.
  intros Hb Hd He. unfold bind, AllSound7P_ChatMix.__init__.
  rewrite (init_with_endpoint w d i e _ _ _ Hb Hd He).
  match goal with
  | |- context [AllSound7P_ChatMix._init_VAC w (?s1, ?t1)] =>
      destruct (allsound_init_VAC_no_usb w s1 t1)
        as (r & s2 & t2 & E & (_ & _ & A) & Q & _)
  end.
  rewrite E. cbn [located Common.set_addr addr] in A.
  destruct r as [[]|x].
  - rewrite allsound_start_modulator_signal.
    match goal with
    | |- context [AllSound7P_ChatMix.poll evs (s2, ?t0)] =>
        destruct (allsound_poll_usb evs s2 t0)
          as (r & n & t3 & E3 & U & Hn & Hx)
    end.
    rewrite E3. exists r, s2. eexists. exists n.
    split; [reflexivity|].
    split; [|split; assumption].
    rewrite !usb_events_app, U, A, (no_usb_events t2 Q).
    rewrite usb_events_start_up by reflexivity.
    rewrite (no_usb_events _ (eq_refl : forallb no_usb
              [Log INFO "Reading modulator USB input started" [];
               Log INFO dashes [];
               Log INFO "ChatMix Enabled!" [];
               Log INFO dashes []] = true)).
    cbn [app]. rewrite ?app_nil_r, <- ?app_assoc. reflexivity.
  - exists (Raise x), s2. eexists. exists 0%nat.
    split; [reflexivity|].
    split; [|split; [lia | discriminate]].
    rewrite !usb_events_app, (no_usb_events t2 Q).
    rewrite usb_events_start_up by reflexivity.
    cbn [repeat]. rewrite !app_nil_r. reflexivity.
Qed.

(** X14.  The calls of [usb.core.find], [detach_kernel_driver] and
    [read] of a whole run; the look-ups [dev[0]], [interfaces()],
    [endpoints()] and the query [is_kernel_driver_active], which the
    scripts also make, leave no event and are not counted, and the
    query and the detaching are taken to return.  With the headset
    attached and its dial endpoint present (endpoint 0 of interface
    index 8 of the first configuration), every run of the script,
    whatever the audio service and the loop meet, makes these calls
    exactly so: [usb.core.find] for the first product id and, only
    when that found nothing, for the second; then
    [detach_kernel_driver] on the interface number of that interface
    exactly when a kernel driver holds it; then nothing but reads of
    64 bytes on that endpoint's address, one per turn of the loop,
    with a time-out of 1000 ms in [Arctis_7_Plus_ChatMix.py] and with
    none in [AllSound7P_ChatMix.py].  While the loop is still polling
    the number of reads is the number of turns. *)
Theorem find_detach_and_read_calls_of_a_run :
  forall (w : world) (d : device) (i : interface) (e : endpoint)
         (evs : list loop_event),
    usb_backend w = true ->
    headset_of (usb_devices w) = Some d ->
    chatmix_endpoint_of d = Some (i, e) ->
    (exists n,
        usb_events (snd (Arctis_7_Plus_ChatMix.main w evs))
        = finds (usb_devices w) ++ detach d i
          ++ repeat (UsbRead (bEndpointAddress e) 64 (Some 1000)) n
        /\ (n <= List.length evs)%nat
        /\ (fst (Arctis_7_Plus_ChatMix.main w evs) = Common.Polling ->
            n = List.length evs))
    /\
    (exists n,
        usb_events (snd (AllSound7P_ChatMix.main w evs))
        = finds (usb_devices w) ++ detach d i
          ++ repeat (UsbRead (bEndpointAddress e) 64 None) n
        /\ (n <= List.length evs)%nat
        /\ (fst (AllSound7P_ChatMix.main w evs) = Common.Polling ->
            n = List.length evs)).
Proof.
  intros w d i e evs Hb Hd He. split.
  - destruct (arctis_run_usb w d i e evs Hb Hd He)
      as (r & s & t & n & E & U & Hn & Hx).
    unfold Arctis_7_Plus_ChatMix.main. rewrite E. exists n.
    destruct r as [[l|]|[c|x]]; cbn [fst snd];
      (split; [exact U|]); (split; [exact Hn|]);
      intros H; try discriminate H.
    exact (Hx l eq_refl).
  - destruct (allsound_run_usb w d i e evs Hb Hd He)
      as (r & s & t & n & E & U & Hn & Hx).
    unfold AllSound7P_ChatMix.main. rewrite E. exists n.
    destruct r as [[l|]|[c|x]]; cbn [fst snd];
      (split; [exact U|]); (split; [exact Hn|]);
      intros H; try discriminate H.
    exact (Hx l eq_refl).
Qed.

Lemma find_detach_and_read_calls_of_a_run_witness :
  exists n,
    usb_events
      (snd (Arctis_7_Plus_ChatMix.main Sample.world0
              [Read (Data (Sample.report 50 50)); Read USBTimeoutError]))
    = finds (usb_devices Sample.world0)
      ++ detach Sample.arctis7p Sample.hid
      ++ repeat (UsbRead 0x85 64 (Some 1000)) n
    /\ (n <= 2)%nat.
Proof.
  destruct (find_detach_and_read_calls_of_a_run Sample.world0 Sample.arctis7p Sample.hid
              Sample.chatmix_endpoint
              [Read (Data (Sample.report 50 50)); Read USBTimeoutError])
    as [(n & U & Hn & _) _].
  - reflexivity.
  - vm_compute. reflexivity.
  - vm_compute. reflexivity.
  - exists n. split; [exact U | exact Hn].
Defined.

(** ** What a start-up changes in the audio graph *)

Lemma mutations_app (t1 t2 : trace) :
  mutations (t1 ++ t2) = mutations t1 ++ mutations t2.
Proof. apply filter_app. Qed.

Lemma no_mutations (t : trace) :
  forallb no_mutation t = true -> mutations t = [].
Proof.
  unfold mutations.
  induction t as [|e t IH]; simpl; [reflexivity|].
  intros H. apply andb_prop in H as [He Ht].
  destruct e as [| c | | | |]; try destruct c; simpl in *;
    try discriminate He; auto.
Qed.

Lemma does_bind {A B : Type} (m : M A) (k : A -> M B)
      (P1 : A -> self -> trace -> Prop)
      (P2 : A -> B -> self -> trace -> Prop) :
  does m P1 -> (forall a, does (k a) (P2 a)) ->
  does (bind m k)
       (fun b s' x => exists a s1 x1 x2,
            x = x1 ++ x2 /\ P1 a s1 x1 /\ P2 a b s' x2).
Proof.
  intros Hm Hk s t. unfold bind.
  destruct (Hm s t) as (r & s1 & t1 & E1 & H1). rewrite E1.
  destruct r as [a|e].
  - destruct (Hk a s1 (t ++ t1)) as (r2 & s2 & t2 & E2 & H2).
    rewrite E2, <- app_assoc. exists r2, s2, (t1 ++ t2).
    split; [reflexivity|]. intros b Hb.
    exists a, s1, (mutations t1), (mutations t2).
    split; [apply mutations_app|]. split; [exact (H1 a eq_refl)|].
    exact (H2 b Hb).
  - exists (Raise e), s1, t1. split; [reflexivity|].
    intros b Hb. discriminate Hb.
Qed.

Lemma does_keeps (R : self -> self -> Prop) (E : exn -> bool)
      {A : Type} (m : M A) :
  keeps R no_mutation E m -> does m (fun _ _ x => x = []).
Proof.
  intros H s t. destruct (H s t) as (r & s' & t1 & E1 & _ & Q & _).
  exists r, s', t1. split; [exact E1|].
  intros a _. exact (no_mutations t1 Q).
Qed.

Lemma does_weaken {A : Type} (m : M A)
      (P P' : A -> self -> trace -> Prop) :
  (forall a s x, P a s x -> P' a s x) -> does m P -> does m P'.
Proof.
  intros HP H s t. destruct (H s t) as (r & s' & t1 & E1 & H1).
  exists r, s', t1. split; [exact E1|]. intros a Ha. apply HP, H1, Ha.
Qed.

Ltac die_raises w :=
  match goal with
  | |- context [Arctis_7_Plus_ChatMix.die_gracefully w ?kw (?s0, ?t0)] =>
      let e := fresh "e" in
      let td := fresh "td" in
      let Ed := fresh "Ed" in
      destruct (arctis_die_gracefully w kw s0 t0) as (e & td & Ed & _);
      rewrite Ed
  | |- context [AllSound7P_ChatMix.die_gracefully ?kw (?s0, ?t0)] =>
      let e := fresh "e" in
      let td := fresh "td" in
      let Ed := fresh "Ed" in
      destruct (allsound_die_gracefully kw s0 t0) as (e & td & Ed & _);
      rewrite Ed
  end;
  cbn [fst snd]; rewrite <- ?app_assoc;
  eexists _, _, _; split; [reflexivity|];
  let a := fresh "a" in
  let H := fresh "H" in
  intros a H; discriminate H.

Ltac returns_with :=
  cbn [fst snd]; rewrite <- ?app_assoc;
  eexists _, _, _; split; [reflexivity|];
  let a := fresh "a" in intros a _.

Lemma arctis_wait_block (w : world) (up : bool) :
  does (when (negb up)
          (log ERROR "PipeWire is not available after waiting. Check if pipewire.service is running." [] ;;
           log ERROR "XDG_RUNTIME_DIR={}" [] ;;
           log ERROR "PIPEWIRE_RUNTIME_DIR={}" [] ;;
           Arctis_7_Plus_ChatMix.die_gracefully w
             [("trigger", PStr "PipeWire not available")])%py)
       (fun _ _ x => x = []).
Proof.
  intros s t. destruct up; unfold when; cbn [negb].
  - exists (Ok tt), s, []. rewrite app_nil_r. split; [reflexivity|].
    intros; reflexivity.
  - unfold bind, log, emit. cbn [fst snd]. die_raises w.
Qed.

Lemma allsound_wait_block (up : bool) :
  does (when (negb up)
          (log ERROR "PipeWire is not available after waiting. Check if pipewire.service is running." [] ;;
           log ERROR "XDG_RUNTIME_DIR={}" [] ;;
           log ERROR "PIPEWIRE_RUNTIME_DIR={}" [] ;;
           AllSound7P_ChatMix.die_gracefully
             [("trigger", PStr "PipeWire not available")])%py)
       (fun _ _ x => x = []).
Proof.
  intros s t. destruct up; unfold when; cbn [negb].
  - exists (Ok tt), s, []. rewrite app_nil_r. split; [reflexivity|].
    intros; reflexivity.
  - unfold bind, log, emit. cbn [fst snd]. die_raises tt.
Qed.

Lemma arctis_destroy_old_does (w : world) :
  does (Arctis_7_Plus_ChatMix.destroy_old_sinks w)
       (fun _ _ x => x = stale "Arctis").
Proof.
  intros s t.
  unfold Arctis_7_Plus_ChatMix.destroy_old_sinks, bind, system, when, log,
    emit, ret.
  cbn [fst snd].
  destruct ((destroy_old_game w =? 0) || (destroy_old_chat w =? 0));
    returns_with; reflexivity.
Qed.

Lemma allsound_destroy_old_does (w : world) :
  does (AllSound7P_ChatMix.destroy_old_sinks w)
       (fun _ _ x => x = stale "ChatMix").
Proof.
  intros s t.
  unfold AllSound7P_ChatMix.destroy_old_sinks, bind, system, when, log,
    emit, ret.
  cbn [fst snd].
  destruct ((destroy_old_game w =? 0) || (destroy_old_chat w =? 0));
    returns_with; reflexivity.
Qed.

Lemma arctis_create_does (w : world) :
  does (Arctis_7_Plus_ChatMix.create_sinks w)
       (fun _ _ x => x = created_before "Arctis" "Arctis 7+" 2).
Proof.
  intros s t.
  unfold Arctis_7_Plus_ChatMix.create_sinks, try_except, Common.step.
  destruct (create_fault w) as [[|[|[|k]]]|];
    cbv [bind log system emit raise ret fst snd Nat.eqb];
    first [ die_raises w | returns_with; reflexivity ].
Qed.

Lemma allsound_create_does (w : world) :
  does (AllSound7P_ChatMix.create_sinks w)
       (fun _ _ x => x = created_before "ChatMix" "ChatMix" 2).
Proof.
  intros s t.
  unfold AllSound7P_ChatMix.create_sinks, try_except, Common.step.
  destruct (create_fault w) as [[|[|[|k]]]|];
    cbv [bind log system emit raise ret fst snd Nat.eqb];
    first [ die_raises w | returns_with; reflexivity ].
Qed.

Lemma arctis_link_does (w : world) (target : pyval) :
  does (Arctis_7_Plus_ChatMix.link_sinks w target)
       (fun _ _ x => x = links_to "Arctis" target).
Proof.
  intros s t.
  unfold Arctis_7_Plus_ChatMix.link_sinks, try_except, Common.step.
  destruct (link_fault w) as [[|[|[|[|k]]]]|];
    cbv [bind log system emit raise ret fst snd Nat.eqb];
    first [ die_raises w | returns_with; reflexivity ].
Qed.

Lemma allsound_link_does (w : world) :
  does (AllSound7P_ChatMix.link_sinks w)
       (fun _ s' x => exists target,
            system_default_sink s' = Some target
            /\ x = links_to "ChatMix" target).
Proof.
  intros s t.
  unfold AllSound7P_ChatMix.link_sinks, try_except, Common.step.
  unfold bind at 1. unfold get_self at 1. cbn [fst snd].
  destruct (system_default_sink s) as [target|] eqn:D.
  - destruct (link_fault w) as [[|[|[|[|k]]]]|];
      cbv [bind log system emit raise ret fst snd Nat.eqb];
      first [ die_raises w
            | returns_with; exists target; split; [exact D | reflexivity] ].
  - cbv [bind log system emit raise ret fst snd Nat.eqb]. die_raises w.
Qed.

Lemma arctis_resolve_does (w : world) :
  does (Arctis_7_Plus_ChatMix.resolve_ids w)
       (fun _ s' x => x = game_default s').
Proof.
  intros s t.
  unfold Arctis_7_Plus_ChatMix.resolve_ids, try_except, game_default.
  unfold bind at 1. unfold bind at 1. unfold emit at 1. cbn [fst snd].
  unfold bind at 1.
  destruct (wpctl_status_ids w) as [out|n]; unfold of_outcome.
  - unfold ret at 1. cbn [fst snd].
    destruct (Re.search (Re.id_of_role "Arctis" "Game") out) as [g|];
      destruct (Re.search (Re.id_of_role "Arctis" "Chat") out) as [c|];
      cbv [bind log system emit raise ret modify fst snd];
      returns_with; reflexivity.
  - cbv [bind log system emit raise ret modify fst snd].
    returns_with; reflexivity.
Qed.

Ltac quiet_block :=
  apply (does_keeps any_state any_exn); keeps_service.

Ltac unpack_post :=
  repeat match goal with
         | H : exists _, _ |- _ => destruct H
         | H : _ /\ _ |- _ => destruct H
         end;
  subst; cbn [app].

Lemma arctis_init_VAC_does (w : world) :
  does (Arctis_7_Plus_ChatMix._init_VAC w)
       (fun _ s' x =>
          exists target,
            x = provisioning "Arctis" "Arctis 7+" target (game_default s')).
Proof.
  eassert (H : does (Arctis_7_Plus_ChatMix._init_VAC w) _).
  { unfold Arctis_7_Plus_ChatMix._init_VAC.
    eapply does_bind; [quiet_block | intros ?].
    eapply does_bind; [quiet_block | intros up].
    eapply does_bind; [apply arctis_wait_block | intros ?].
    eapply does_bind; [quiet_block | intros ?].
    eapply does_bind; [quiet_block | intros ?].
    eapply does_bind; [quiet_block | intros target].
    eapply does_bind; [apply arctis_destroy_old_does | intros ?].
    eapply does_bind; [apply arctis_create_does | intros ?].
    eapply does_bind; [apply (arctis_link_does w target) | intros ?].
    apply arctis_resolve_does. }
  revert H. apply does_weaken. intros a s x H.
  unpack_post. eexists. reflexivity.
Qed.

Lemma allsound_init_VAC_does (w : world) :
  does (AllSound7P_ChatMix._init_VAC w)
       (fun _ s' x =>
          exists target,
            x = provisioning "ChatMix" "ChatMix" target []).
Proof.
  eassert (H : does (AllSound7P_ChatMix._init_VAC w) _).
  { unfold AllSound7P_ChatMix._init_VAC.
    eapply does_bind; [quiet_block | intros ?].
    eapply does_bind; [quiet_block | intros up].
    eapply does_bind; [apply allsound_wait_block | intros ?].
    eapply does_bind; [quiet_block | intros ?].
    eapply does_bind; [quiet_block | intros ?].
    eapply does_bind; [apply allsound_destroy_old_does | intros ?].
    eapply does_bind; [apply allsound_create_does | intros ?].
    eapply does_bind; [apply (allsound_link_does w) | intros ?].
    quiet_block. }
  revert H. apply does_weaken. intros a s x H.
  unpack_post. eexists. reflexivity.
Qed.

Lemma does_try_except {A : Type} (body : M A) (handler : string -> M A)
      (P : A -> self -> trace -> Prop) :
  does body P ->
  (forall n s t, exists e s' t1,
      handler n (s, t) = (Raise e, (s', t ++ t1))) ->
  does (try_except body handler) P.
Proof.
  intros Hb Hh s t. unfold try_except.
  destruct (Hb s t) as (r & s1 & t1 & E & H1). rewrite E.
  destruct r as [a|[c|n]].
  - exists (Ok a), s1, t1. split; [reflexivity | exact H1].
  - exists (Raise (SystemExit c)), s1, t1. split; [reflexivity|].
    intros a H. discriminate H.
  - destruct (Hh n s1 (t ++ t1)) as (e & s2 & t2 & E2).
    rewrite E2, <- app_assoc. exists (Raise e), s2, (t1 ++ t2).
    split; [reflexivity|]. intros a H. discriminate H.
Qed.

Ltac handler_dies w :=
  let s0 := fresh "s" in
  let t0 := fresh "t" in
  intros ? s0 t0; unfold bind, log, emit; cbn [fst snd];
  match goal with
  | |- context [Arctis_7_Plus_ChatMix.die_gracefully w ?kw (?s1, ?t1)] =>
      let e := fresh "e" in
      let td := fresh "td" in
      let Ed := fresh "Ed" in
      destruct (arctis_die_gracefully w kw s1 t1) as (e & td & Ed & _);
      rewrite Ed
  | |- context [AllSound7P_ChatMix.die_gracefully ?kw (?s1, ?t1)] =>
      let e := fresh "e" in
      let td := fresh "td" in
      let Ed := fresh "Ed" in
      destruct (allsound_die_gracefully kw s1 t1) as (e & td & Ed & _);
      rewrite Ed
  end;
  rewrite <- ?app_assoc; eexists _, _, _; reflexivity.

Lemma arctis_init_does (w : world) :
  does (Arctis_7_Plus_ChatMix.__init__ w)
       (fun _ s' x =>
          exists target,
            x = provisioning "Arctis" "Arctis 7+" target (game_default s')).
Proof.
  eassert (H : does (Arctis_7_Plus_ChatMix.__init__ w) _).
  { unfold Arctis_7_Plus_ChatMix.__init__, Common.__init__.
    eapply does_bind; [quiet_block | intros ?].
    eapply does_bind;
      [apply does_try_except; [quiet_block | handler_dies w] | intros ?].
    eapply does_bind;
      [apply does_try_except; [quiet_block | handler_dies w] | intros ?].
    eapply does_bind; [quiet_block | intros s0].
    eapply does_bind; [quiet_block | intros ?].
    apply arctis_init_VAC_does. }
  revert H. apply does_weaken. intros a s x H.
  unpack_post. eexists. reflexivity.
Qed.

Lemma allsound_init_does (w : world) :
  does (AllSound7P_ChatMix.__init__ w)
       (fun _ s' x =>
          exists target,
            x = provisioning "ChatMix" "ChatMix" target []).
Proof.
  eassert (H : does (AllSound7P_ChatMix.__init__ w) _).
  { unfold AllSound7P_ChatMix.__init__, Common.__init__.
    eapply does_bind; [quiet_block | intros ?].
    eapply does_bind;
      [apply does_try_except; [quiet_block | handler_dies w] | intros ?].
    eapply does_bind;
      [apply does_try_except; [quiet_block | handler_dies w] | intros ?].
    eapply does_bind; [quiet_block | intros s0].
    eapply does_bind; [quiet_block | intros ?].
    apply allsound_init_VAC_does. }
  revert H. apply does_weaken. intros a s x H.
  unpack_post. eexists. reflexivity.
Qed.

Lemma only_volume_mutations (t : trace) :
  forallb only_volume t = true ->
  forallb is_set_volume (mutations t) = true.
Proof.
  unfold mutations.
  induction t as [|e t IH]; simpl; [reflexivity|].
  intros H. apply andb_prop in H as [He Ht].
  destruct e as [| c | | | |]; try destruct c; simpl in *;
    try discriminate He; auto.
Qed.

Lemma arctis_iteration_does (w : world)
      (l : Arctis_7_Plus_ChatMix.loop_state) (ev : loop_event) :
  does (Arctis_7_Plus_ChatMix.iteration w l ev)
       (fun _ _ x => forallb is_set_volume x = true).
Proof.
  destruct ev as [r|].
  - intros s t.
    assert (K : keeps any_state only_volume any_exn
                  (Arctis_7_Plus_ChatMix.iteration w l (Read r)))
      by (destruct r; keeps_service).
    destruct (K s t) as (r0 & s' & t1 & E & _ & Q & _).
    exists r0, s', t1. split; [exact E|].
    intros a _. apply only_volume_mutations, Q.
  - intros s t.
    unfold Arctis_7_Plus_ChatMix.iteration,
      Arctis_7_Plus_ChatMix.__handle_sigterm.
    cbv [bind get_self emit fst snd]. die_raises w.
Qed.

Lemma allsound_iteration_does (ev : loop_event) :
  does (AllSound7P_ChatMix.iteration ev)
       (fun _ _ x => forallb is_set_volume x = true).
Proof.
  destruct ev as [r|].
  - intros s t.
    assert (K : keeps any_state only_volume any_exn
                  (AllSound7P_ChatMix.iteration (Read r)))
      by (destruct r; keeps_service).
    destruct (K s t) as (r0 & s' & t1 & E & _ & Q & _).
    exists r0, s', t1. split; [exact E|].
    intros a _. apply only_volume_mutations, Q.
  - intros s t.
    unfold AllSound7P_ChatMix.iteration,
      AllSound7P_ChatMix.__handle_sigterm.
    cbv [bind get_self emit fst snd]. die_raises tt.
Qed.

Lemma arctis_poll_does (w : world) (evs : list loop_event) :
  forall l,
    does (Arctis_7_Plus_ChatMix.poll w l evs)
         (fun _ _ x => forallb is_set_volume x = true).
Proof.
  induction evs as [|ev evs IH]; intros l; cbn [Arctis_7_Plus_ChatMix.poll].
  - intros s t. exists (Ok (Some l)), s, []. rewrite app_nil_r.
    split; [reflexivity|]. intros; reflexivity.
  - match goal with |- does ?m _ => eassert (H : does m _) end;
      [ eapply (does_bind _ _ _ (fun _ _ _ x => forallb is_set_volume x = true));
        [apply arctis_iteration_does | intros c];
        destruct c as [l'|];
        [ cbv beta; apply IH
        | intros s t; exists (Ok None), s, []; rewrite app_nil_r;
          split; [reflexivity|]; intros; reflexivity ]
      | revert H; apply does_weaken; intros a s x H; cbv beta in H;
        unpack_post; rewrite forallb_app;
        match goal with
        | H1 : forallb _ _ = true, H2 : forallb _ _ = true |- _ =>
            rewrite H1, H2
        end;
        reflexivity ].
Qed.

Lemma allsound_poll_does (evs : list loop_event) :
  does (AllSound7P_ChatMix.poll evs)
       (fun _ _ x => forallb is_set_volume x = true).
Proof.
  induction evs as [|ev evs IH]; cbn [AllSound7P_ChatMix.poll].
  - intros s t. exists (Ok (Some tt)), s, []. rewrite app_nil_r.
    split; [reflexivity|]. intros; reflexivity.
  - match goal with |- does ?m _ => eassert (H : does m _) end;
      [ eapply (does_bind _ _ _ (fun _ _ _ x => forallb is_set_volume x = true));
        [apply allsound_iteration_does | intros c];
        destruct c as [l'|];
        [ cbv beta; apply IH
        | intros s t; exists (Ok None), s, []; rewrite app_nil_r;
          split; [reflexivity|]; intros; reflexivity ]
      | revert H; apply does_weaken; intros a s x H; cbv beta in H;
        unpack_post; rewrite forallb_app;
        match goal with
        | H1 : forallb _ _ = true, H2 : forallb _ _ = true |- _ =>
            rewrite H1, H2
        end;
        reflexivity ].
Qed.

Lemma arctis_init_changes (w : world) (s : self) (t : trace) :
  Arctis_7_Plus_ChatMix.__init__ w (self0, []) = (Ok tt, (s, t)) ->
  exists target,
    mutations t = provisioning "Arctis" "Arctis 7+" target (game_default s).
Proof.
  intros Hinit.
  destruct (arctis_init_does w self0 []) as (r & s' & t1 & E & H).
  cbn [app] in E. rewrite Hinit in E.
  assert (r = Ok tt) as -> by congruence.
  assert (s' = s) as -> by congruence.
  assert (t1 = t) as -> by congruence.
  exact (H tt eq_refl).
Qed.

Lemma allsound_init_changes (w : world) (s : self) (t : trace) :
  AllSound7P_ChatMix.__init__ w (self0, []) = (Ok tt, (s, t)) ->
  exists target,
    mutations t = provisioning "ChatMix" "ChatMix" target [].
Proof.
  intros Hinit.
  destruct (allsound_init_does w self0 []) as (r & s' & t1 & E & H).
  cbn [app] in E. rewrite Hinit in E.
  assert (r = Ok tt) as -> by congruence.
  assert (s' = s) as -> by congruence.
  assert (t1 = t) as -> by congruence.
  exact (H tt eq_refl).
Qed.

(** X15.  What a run changes in the audio graph.  A start-up that
    completes has issued exactly these changing commands, in this
    order: the two sinks a previous run may have left are destroyed,
    the Game and the Chat sink are created, the four monitor ports are
    linked to one and the same target, and, in
    [Arctis_7_Plus_ChatMix.py] only, the Game sink is made the default
    when its id was found.  So stale sinks are always removed before
    new ones are created and nothing is linked before both exist.
    After that, for as long as the service has neither exited nor
    crashed, the loop changes nothing but volumes. *)
Theorem changes_of_a_run :
  forall (w : world) (evs : list loop_event) (s : self) (t : trace),
    (Arctis_7_Plus_ChatMix.__init__ w (self0, []) = (Ok tt, (s, t)) ->
     exists target vols,
       mutations t
       = provisioning "Arctis" "Arctis 7+" target (game_default s)
       /\ forallb is_set_volume vols = true
       /\ (fst (Arctis_7_Plus_ChatMix.main w evs) = Common.Polling
           \/ fst (Arctis_7_Plus_ChatMix.main w evs) = Common.Finished ->
           mutations (snd (Arctis_7_Plus_ChatMix.main w evs))
           = mutations t ++ vols))
    /\
    (AllSound7P_ChatMix.__init__ w (self0, []) = (Ok tt, (s, t)) ->
     exists target vols,
       mutations t = provisioning "ChatMix" "ChatMix" target []
       /\ forallb is_set_volume vols = true
       /\ (fst (AllSound7P_ChatMix.main w evs) = Common.Polling
           \/ fst (AllSound7P_ChatMix.main w evs) = Common.Finished ->
           mutations (snd (AllSound7P_ChatMix.main w evs))
           = mutations t ++ vols)).
Proof.
  intros w evs s t. split; intros Hinit.
  - destruct (arctis_init_changes w s t Hinit) as (target & Ht).
    exists target.
    rewrite (arctis_main_after_init w _ s t Hinit).
    rewrite arctis_start_modulator_signal.
    match goal with
    | |- context [Arctis_7_Plus_ChatMix.poll w ?l evs (s, ?t0)] =>
        destruct (arctis_poll_does w evs l s t0) as (r & s' & t1 & E & H)
    end.
    rewrite E.
    destruct r as [[l|]|[c|x]]; cbn [fst snd].
    1, 2: exists (mutations t1); split; [exact Ht|];
      split; [exact (H _ eq_refl)|]; intros _;
      rewrite !mutations_app; cbn [mutations filter is_mutation];
      rewrite app_nil_r; reflexivity.
    1, 2: exists []; split; [exact Ht|]; split; [reflexivity|];
      intros [F|F]; discriminate F.
  - destruct (allsound_init_changes w s t Hinit) as (target & Ht).
    exists target.
    rewrite (allsound_main_after_init w _ s t Hinit).
    rewrite allsound_start_modulator_signal.
    match goal with
    | |- context [AllSound7P_ChatMix.poll evs (s, ?t0)] =>
        destruct (allsound_poll_does evs s t0) as (r & s' & t1 & E & H)
    end.
    rewrite E.
    destruct r as [[l|]|[c|x]]; cbn [fst snd].
    1, 2: exists (mutations t1); split; [exact Ht|];
      split; [exact (H _ eq_refl)|]; intros _;
      rewrite !mutations_app; cbn [mutations filter is_mutation];
      rewrite app_nil_r; reflexivity.
    1, 2: exists []; split; [exact Ht|]; split; [reflexivity|];
      intros [F|F]; discriminate F.
Qed.

Lemma changes_of_a_run_witness :
  exists target vols,
    mutations (snd (snd (Arctis_7_Plus_ChatMix.__init__ Sample.world0
                           (self0, []))))
    = provisioning "Arctis" "Arctis 7+" target
        (game_default
           (fst (snd (Arctis_7_Plus_ChatMix.__init__ Sample.world0
                        (self0, [])))))
    /\ forallb is_set_volume vols = true.
Proof.
  destruct (changes_of_a_run Sample.world0
              [Read (Data (Sample.report 50 50)); Read USBTimeoutError]
              (fst (snd (Arctis_7_Plus_ChatMix.__init__ Sample.world0
                           (self0, []))))
              (snd (snd (Arctis_7_Plus_ChatMix.__init__ Sample.world0
                           (self0, []))))) as [HA _].
  destruct HA as (target & vols & P & V & _).
  - vm_compute. reflexivity.
  - exists target, vols. split; [exact P | exact V].
Defined.

(** ** The default sink in the output of pw-dump *)

Lemma scan_metadata_found (metas1 metas2 : list pyval) (m : pyval)
      (name : string) (name0 : pyval) (st : self * trace) :
  forallb is_other_entry metas1 = true ->
  names_default m name ->
  Common.scan_metadata (metas1 ++ m :: metas2) name0 st
  = (Ok (PStr name), st).
Proof.
  intros H1 (g & h & -> & Kg & Vg & Nh).
  induction metas1 as [|m1 metas1 IH]; cbn [app Common.scan_metadata].
  - unfold bind, Common.get, ret. rewrite Kg. cbn [Py.eq_str String.eqb].
    cbn. rewrite Vg, Nh. reflexivity.
  - cbn [forallb] in H1. apply andb_prop in H1 as [Hm H1].
    destruct m1 as [| | | | |g1]; try discriminate Hm.
    unfold bind, Common.get, ret. unfold is_other_entry, field in Hm.
    destruct (Py.eq_str _ _); [discriminate Hm|].
    exact (IH H1).
Qed.

Lemma scan_items_found (objs1 objs2 : list pyval) (obj : pyval)
      (metas1 metas2 : list pyval) (m : pyval) (name : string)
      (st : self * trace) :
  forallb is_other_object objs1 = true ->
  metadata_object obj (metas1 ++ m :: metas2) ->
  forallb is_other_entry metas1 = true ->
  names_default m name ->
  PyStr.truthy name = true ->
  Common.scan_items (objs1 ++ obj :: objs2) PNone st = (Ok (PStr name), st).
Proof.
  intros H1 (f & -> & Tf & Mf) H2 Hm T.
  induction objs1 as [|o objs1 IH]; cbn [app Common.scan_items].
  - unfold bind, Common.get, ret, Common.iter. rewrite Tf.
    cbn [Py.eq_str String.eqb Ascii.eqb Bool.eqb]. rewrite Mf.
    unfold ret. cbv beta iota.
    rewrite (scan_metadata_found metas1 metas2 m name PNone st H2 Hm).
    cbn [Py.truthy]. rewrite T. reflexivity.
  - cbn [forallb] in H1. apply andb_prop in H1 as [Ho H1].
    destruct o as [| | | | |f1]; try discriminate Ho.
    unfold bind, Common.get, ret. unfold is_other_object, field in Ho.
    destruct (Py.eq_str _ _); [discriminate Ho|].
    exact (IH H1).
Qed.

Lemma scan_items_others (objs : list pyval) (st : self * trace) :
  forallb is_other_object objs = true ->
  Common.scan_items objs PNone st = (Ok PNone, st).
Proof.
  induction objs as [|o objs IH]; cbn [Common.scan_items forallb];
    [reflexivity|].
  intros H. apply andb_prop in H as [Ho H].
  destruct o as [| | | | |f1]; try discriminate Ho.
  unfold bind, Common.get, ret. unfold is_other_object, field in Ho.
  destruct (Py.eq_str _ _); [discriminate Ho|].
  exact (IH H).
Qed.

(** The two blocks on a name that the shared statements produced. *)
Lemma arctis_capture_of_name (w : world) (s : self) (t t0 : trace)
      (name : string) :
  Common.default_sink_name w (s, t) = (Ok (PStr name), (s, t ++ t0)) ->
  exists s' t1,
    Arctis_7_Plus_ChatMix.capture_default_sink w (s, t)
    = (Ok tt, (s', t ++ t0 ++ t1))
    /\ system_default_sink s'
       = Some (PStr (if PyStr.truthy name then name else "auto"))
    /\ system_default_sink_id s'
       = Some (if PyStr.truthy name
               then listed_id name (wpctl_status_default w)
               else None)
    /\ existsb is_pw_cli_info t1 = false.
Proof.
  intros E.
  unfold Arctis_7_Plus_ChatMix.capture_default_sink, try_except.
  unfold bind at 1. rewrite E. cbn [Py.truthy].
  destruct (PyStr.truthy name) eqn:T.
  - cbv [bind modify popen emit ret Common.re_escape get_self log fst snd].
    unfold listed_id.
    destruct (Re.search (Re.id_of_name name) (wpctl_status_default w))
      as [m|] eqn:S;
      cbv [bind modify popen emit ret Common.re_escape get_self log fst snd
             system_default_sink system_default_sink_id
             Common.set_system_default_sink
             Common.set_system_default_sink_id option_map].
    + destruct (id_of_name_captures _ _ _ S) as [Tm _]. rewrite Tm.
      rewrite <- !app_assoc. eexists _, _. split; [reflexivity|].
      repeat split; reflexivity.
    + rewrite <- !app_assoc. eexists _, _. split; [reflexivity|].
      repeat split; reflexivity.
  - cbv [bind modify get_self log emit fst snd system_default_sink
           system_default_sink_id Common.set_system_default_sink
           Common.set_system_default_sink_id].
    rewrite <- !app_assoc. eexists _, _. split; [reflexivity|].
    repeat split; reflexivity.
Qed.

Lemma allsound_capture_of_name (w : world) (s : self) (t t0 : trace)
      (name : string) :
  Common.default_sink_name w (s, t) = (Ok (PStr name), (s, t ++ t0)) ->
  exists s' t1,
    AllSound7P_ChatMix.capture_default_sink w (s, t)
    = (Ok tt, (s', t ++ t0 ++ t1))
    /\ system_default_sink s'
       = Some (PStr (if PyStr.truthy name then name else "auto"))
    /\ existsb is_pw_cli_info t1 = false.
Proof.
  intros E.
  unfold AllSound7P_ChatMix.capture_default_sink, try_except.
  unfold bind at 1. rewrite E. cbn [Py.truthy].
  cbv [bind modify log emit fst snd].
  rewrite <- !app_assoc. eexists _, _. split; [reflexivity|].
  destruct (PyStr.truthy name); split; reflexivity.
Qed.

Lemma default_sink_name_found (w : world) (s : self) (t : trace)
      (objs1 objs2 : list pyval) (obj : pyval)
      (metas1 metas2 : list pyval) (m : pyval) (name : string) :
  pw_dump w = Returned (PList (objs1 ++ obj :: objs2)) ->
  forallb is_other_object objs1 = true ->
  metadata_object obj (metas1 ++ m :: metas2) ->
  forallb is_other_entry metas1 = true ->
  names_default m name ->
  PyStr.truthy name = true ->
  Common.default_sink_name w (s, t)
  = (Ok (PStr name), (s, t ++ [Run PwDump])).
Proof.
  intros D H1 Ho H2 Hm T.
  unfold Common.default_sink_name.
  unfold bind at 1. unfold emit at 1. cbn [fst snd].
  unfold bind at 1. rewrite D. unfold of_outcome, ret at 1.
  unfold bind at 1. unfold Common.iter, ret at 1.
  unfold bind at 1.
  rewrite (scan_items_found objs1 objs2 obj metas1 metas2 m name _
             H1 Ho H2 Hm T).
  cbn [Py.truthy]. rewrite T. reflexivity.
Qed.

Lemma default_sink_name_fallback (w : world) (s : self) (t : trace)
      (objs : list pyval) :
  pw_dump w = Returned (PList objs) ->
  forallb is_other_object objs = true ->
  Common.default_sink_name w (s, t)
  = (Ok (PStr (PyStr.strip (pw_cli_info_default_sink w))),
     (s, t ++ [Run PwDump; Run PwCliInfoDefaultSink])).
Proof.
  intros D H.
  unfold Common.default_sink_name.
  unfold bind at 1. unfold emit at 1. cbn [fst snd].
  unfold bind at 1. rewrite D. unfold of_outcome, ret at 1.
  unfold bind at 1. unfold Common.iter, ret at 1.
  unfold bind at 1.
  rewrite (scan_items_others objs _ H).
  cbv [Py.truthy negb bind popen emit ret fst snd].
  rewrite <- app_assoc. reflexivity.
Qed.

(** X16.  Where the recorded default sink comes from.  When the
    output of pw-dump is a list whose first metadata object holds, as
    its first entry for the key [default.audio.sink], a non-empty
    name, both files record exactly that name, and pw-cli is not asked.
    [Arctis_7_Plus_ChatMix.py] records with it the id under which
    [wpctl status] lists that name, or [None] when it lists none.
    What follows that entry or that object is not looked at. *)
Theorem default_sink_from_metadata :
  forall (w : world) (s : self) (t : trace)
         (objs1 objs2 : list pyval) (obj : pyval)
         (metas1 metas2 : list pyval) (m : pyval) (name : string),
    pw_dump w = Returned (PList (objs1 ++ obj :: objs2)) ->
    forallb is_other_object objs1 = true ->
    metadata_object obj (metas1 ++ m :: metas2) ->
    forallb is_other_entry metas1 = true ->
    names_default m name ->
    PyStr.truthy name = true ->
    (exists s' t1,
        Arctis_7_Plus_ChatMix.capture_default_sink w (s, t)
        = (Ok tt, (s', t ++ t1))
        /\ system_default_sink s' = Some (PStr name)
        /\ system_default_sink_id s'
           = Some (listed_id name (wpctl_status_default w))
        /\ existsb is_pw_cli_info t1 = false)
    /\
    (exists s' t1,
        AllSound7P_ChatMix.capture_default_sink w (s, t)
        = (Ok tt, (s', t ++ t1))
        /\ system_default_sink s' = Some (PStr name)
        /\ existsb is_pw_cli_info t1 = false).
Proof.
  intros w s t objs1 objs2 obj metas1 metas2 m name D H1 Ho H2 Hm T.
  pose proof (default_sink_name_found w s t objs1 objs2 obj metas1 metas2
                m name D H1 Ho H2 Hm T) as E.
  split.
  - destruct (arctis_capture_of_name w s t _ name E)
      as (s' & t1 & E1 & A & B & C).
    rewrite T in A, B. exists s', ([Run PwDump] ++ t1).
    split; [exact E1|]. repeat split; assumption.
  - destruct (allsound_capture_of_name w s t _ name E)
      as (s' & t1 & E1 & A & C).
    rewrite T in A. exists s', ([Run PwDump] ++ t1).
    split; [exact E1|]. repeat split; assumption.
Qed.

Lemma default_sink_from_metadata_witness :
  exists s' t1,
    Arctis_7_Plus_ChatMix.capture_default_sink Sample.world0 (self0, [])
    = (Ok tt, (s', [] ++ t1))
    /\ system_default_sink s' = Some (PStr "speakers")
    /\ system_default_sink_id s' = Some (Some "46").
Proof.
  destruct (default_sink_from_metadata Sample.world0 self0 []
              [PDict [("id", PInt 0); ("type", PStr "PipeWire:Interface:Core")]]
              []
              (PDict [("id", PInt 31);
                      ("type", PStr "PipeWire:Interface:Metadata");
                      ("metadata",
                       PList [PDict [("subject", PInt 0);
                                     ("key", PStr "default.audio.source");
                                     ("value", PDict [("name", PStr "mic")])];
                              PDict [("subject", PInt 0);
                                     ("key", PStr "default.audio.sink");
                                     ("value",
                                      PDict [("name", PStr "speakers")])]])])
              [PDict [("subject", PInt 0);
                      ("key", PStr "default.audio.source");
                      ("value", PDict [("name", PStr "mic")])]]
              []
              (PDict [("subject", PInt 0);
                      ("key", PStr "default.audio.sink");
                      ("value", PDict [("name", PStr "speakers")])])
              "speakers")
    as [(s' & t1 & E & A & B & _) _].
  - reflexivity.
  - reflexivity.
  - eexists. repeat split; reflexivity.
  - reflexivity.
  - eexists _, _. repeat split; reflexivity.
  - reflexivity.
  - exists s', t1. split; [exact E|]. split; [exact A|].
    rewrite B. vm_compute. reflexivity.
Defined.

(** X17.  The fall-back of the default sink.  When the output of
    pw-dump is a list without any metadata object, both files ask
    pw-cli and record its answer with the surrounding white space
    removed; when nothing is left of it they record [auto], and
    [Arctis_7_Plus_ChatMix.py] then records no id and does not run
    [wpctl status]. *)
Theorem default_sink_from_pw_cli :
  forall (w : world) (s : self) (t : trace) (objs : list pyval),
    pw_dump w = Returned (PList objs) ->
    forallb is_other_object objs = true ->
    (exists s' t1,
        Arctis_7_Plus_ChatMix.capture_default_sink w (s, t)
        = (Ok tt, (s', t ++ Run PwDump :: Run PwCliInfoDefaultSink :: t1))
        /\ system_default_sink s'
           = Some (PStr (if PyStr.truthy
                              (PyStr.strip (pw_cli_info_default_sink w))
                         then PyStr.strip (pw_cli_info_default_sink w)
                         else "auto"))
        /\ system_default_sink_id s'
           = Some (if PyStr.truthy
                        (PyStr.strip (pw_cli_info_default_sink w))
                   then listed_id (PyStr.strip (pw_cli_info_default_sink w))
                          (wpctl_status_default w)
                   else None)
        /\ (PyStr.strip (pw_cli_info_default_sink w) = EmptyString ->
            existsb is_audio_call t1 = false))
    /\
    (exists s' t1,
        AllSound7P_ChatMix.capture_default_sink w (s, t)
        = (Ok tt, (s', t ++ Run PwDump :: Run PwCliInfoDefaultSink :: t1))
        /\ system_default_sink s'
           = Some (PStr (if PyStr.truthy
                              (PyStr.strip (pw_cli_info_default_sink w))
                         then PyStr.strip (pw_cli_info_default_sink w)
                         else "auto"))
        /\ existsb is_audio_call t1 = false).
Proof.
  intros w s t objs D H.
  pose proof (default_sink_name_fallback w s t objs D H) as E.
  split.
  - unfold Arctis_7_Plus_ChatMix.capture_default_sink, try_except.
    unfold bind at 1. rewrite E. cbn [Py.truthy].
    destruct (PyStr.strip (pw_cli_info_default_sink w)) as [|c name] eqn:N.
    + cbv [PyStr.truthy bind modify get_self log emit fst snd
             system_default_sink system_default_sink_id
             Common.set_system_default_sink
             Common.set_system_default_sink_id].
      rewrite <- !app_assoc. eexists _, _. split; [reflexivity|].
      repeat split; reflexivity.
    + change (PyStr.truthy (String c name)) with true. cbv beta iota.
      cbv [bind modify popen emit ret Common.re_escape get_self log fst snd].
      unfold listed_id.
      destruct (Re.search (Re.id_of_name (String c name))
                  (wpctl_status_default w)) as [m|] eqn:S;
        cbv [bind modify popen emit ret Common.re_escape get_self log
               fst snd system_default_sink system_default_sink_id
               Common.set_system_default_sink
               Common.set_system_default_sink_id option_map].
      * destruct (id_of_name_captures _ _ _ S) as [Tm _]. rewrite Tm.
        rewrite <- !app_assoc. eexists _, _. split; [reflexivity|].
        repeat split; try reflexivity. intros F; discriminate F.
      * rewrite <- !app_assoc. eexists _, _. split; [reflexivity|].
        repeat split; try reflexivity. intros F; discriminate F.
  - unfold AllSound7P_ChatMix.capture_default_sink, try_except.
    unfold bind at 1. rewrite E. cbn [Py.truthy].
    cbv [bind modify log emit fst snd].
    rewrite <- !app_assoc. eexists _, _. split; [reflexivity|].
    destruct (PyStr.truthy _); split; reflexivity.
Qed.

Lemma default_sink_from_pw_cli_witness :
  exists s' t1,
    AllSound7P_ChatMix.capture_default_sink
      (world_with_dump
         (PList [PDict [("id", PInt 0);
                        ("type", PStr "PipeWire:Interface:Core")]]))
      (self0, [])
    = (Ok tt, (s', [] ++ Run PwDump :: Run PwCliInfoDefaultSink :: t1))
    /\ system_default_sink s' = Some (PStr "speakers").
Proof.
  destruct (default_sink_from_pw_cli
              (world_with_dump
                 (PList [PDict [("id", PInt 0);
                                ("type", PStr "PipeWire:Interface:Core")]]))
              self0 []
              [PDict [("id", PInt 0);
                      ("type", PStr "PipeWire:Interface:Core")]])
    as [_ (s' & t1 & E & A & _)].
  - reflexivity.
  - reflexivity.
  - exists s', t1. split; [exact E|]. rewrite A. vm_compute. reflexivity.
Defined.

(** ** Time-outs *)

Lemma framed_ret {A : Type} (a : A) : framed (ret a).
Proof.
  intros s. exists (Ok a), s, []. intros t. rewrite app_nil_r. reflexivity.
Qed.

Lemma framed_raise {A : Type} (e : exn) : framed (@raise A e).
Proof.
  intros s. exists (Raise e), s, []. intros t. rewrite app_nil_r.
  reflexivity.
Qed.

Lemma framed_get_self : framed get_self.
Proof.
  intros s. exists (Ok s), s, []. intros t. rewrite app_nil_r. reflexivity.
Qed.

Lemma framed_emit (e : event) : framed (emit e).
Proof. intros s. exists (Ok tt), s, [e]. intros t. reflexivity. Qed.

Lemma framed_bind {A B : Type} (m : M A) (k : A -> M B) :
  framed m -> (forall a, framed (k a)) -> framed (bind m k).
Proof.
  intros Hm Hk s. destruct (Hm s) as (r & s1 & t1 & E1).
  destruct r as [a|e].
  - destruct (Hk a s1) as (r2 & s2 & t2 & E2).
    exists r2, s2, (t1 ++ t2). intros t. unfold bind.
    rewrite E1, E2, app_assoc. reflexivity.
  - exists (Raise e), s1, t1. intros t. unfold bind. rewrite E1.
    reflexivity.
Qed.

Lemma framed_when (b : bool) (m : M unit) : framed m -> framed (when b m).
Proof. intros H. destruct b; [exact H | apply framed_ret]. Qed.

Lemma framed_popen (c : command) (out : string) : framed (popen c out).
Proof.
  unfold popen. apply framed_bind; [apply framed_emit|].
  intros _. apply framed_ret.
Qed.

Ltac framed_go :=
  repeat match goal with
  | |- framed _ => progress cbv beta iota
  | |- framed _ =>
      progress cbn [forallb fst snd String.eqb Ascii.eqb Bool.eqb orb andb
                    negb Py.lookup Common.eq_False]
  | |- framed (ret _) => apply framed_ret
  | |- framed get_self => apply framed_get_self
  | |- framed (bind _ _) => apply framed_bind
  | |- framed (when _ _) => apply framed_when
  | |- framed (log _ _ _) => apply framed_emit
  | |- framed (system _) => apply framed_emit
  | |- framed (popen _ _) => apply framed_popen
  | |- framed (emit _) => apply framed_emit
  | |- framed (raise _) => apply framed_raise
  | |- framed (match ?x with _ => _ end) => destruct x
  | |- framed _ => keeps_unfold
  | |- forall _, _ => intro
  end.

Lemma arctis_iteration_framed (w : world)
      (l : Arctis_7_Plus_ChatMix.loop_state) (ev : loop_event) :
  framed (Arctis_7_Plus_ChatMix.iteration w l ev).
Proof. unfold_service. framed_go. Qed.

Lemma allsound_iteration_framed (ev : loop_event) :
  framed (AllSound7P_ChatMix.iteration ev).
Proof. unfold_service. framed_go. Qed.

Lemma apart_from_usb_app (t1 t2 : trace) :
  apart_from_usb (t1 ++ t2) = apart_from_usb t1 ++ apart_from_usb t2.
Proof. apply filter_app. Qed.

(** One turn, from two different pasts: the same outcome, the same
    attributes, the same events appended. *)
Lemma arctis_iteration_twice (w : world)
      (l : Arctis_7_Plus_ChatMix.loop_state) (ev : loop_event)
      (s : self) :
  exists r t1, forall t,
    Arctis_7_Plus_ChatMix.iteration w l ev (s, t) = (r, (s, t ++ t1)).
Proof.
  destruct (arctis_iteration_framed w l ev s) as (r & s' & t1 & E).
  destruct (arctis_iteration_usb w l ev s []) as (r0 & t0 & E0 & _).
  rewrite E in E0. assert (s' = s) as -> by congruence.
  exists r, t1. exact E.
Qed.

Lemma allsound_iteration_twice (ev : loop_event) (s : self) :
  exists r t1, forall t,
    AllSound7P_ChatMix.iteration ev (s, t) = (r, (s, t ++ t1)).
Proof.
  destruct (allsound_iteration_framed ev s) as (r & s' & t1 & E).
  destruct (allsound_iteration_usb ev s []) as (r0 & t0 & E0 & _).
  rewrite E in E0. assert (s' = s) as -> by congruence.
  exists r, t1. exact E.
Qed.

Lemma arctis_poll_without_timeouts (w : world) (evs : list loop_event) :
  forall (l : Arctis_7_Plus_ChatMix.loop_state) (s : self) (t t' : trace),
  exists r t1 t2,
    Arctis_7_Plus_ChatMix.poll w l evs (s, t) = (r, (s, t ++ t1))
    /\ Arctis_7_Plus_ChatMix.poll w l (without_timeouts evs) (s, t')
       = (r, (s, t' ++ t2))
    /\ apart_from_usb t1 = apart_from_usb t2.
Proof.
  induction evs as [|ev evs IH]; intros l s t t'.
  - exists (Ok (Some l)), [], []. cbn. rewrite !app_nil_r.
    repeat split; reflexivity.
  - destruct (is_timeout ev) eqn:T.
    + destruct ev as [[| |]|]; try discriminate T.
      cbn [without_timeouts filter is_timeout negb].
      fold (without_timeouts evs).
      cbn [Arctis_7_Plus_ChatMix.poll]. unfold bind at 1.
      rewrite arctis_iteration_timeout.
      destruct (IH l s (t ++ [UsbRead (addr s) 64 (Some 1000)]) t')
        as (r & t1 & t2 & E1 & E2 & A).
      exists r, ([UsbRead (addr s) 64 (Some 1000)] ++ t1), t2.
      split; [rewrite E1, <- app_assoc; reflexivity|].
      split; [exact E2|].
      rewrite apart_from_usb_app. exact A.
    + unfold without_timeouts. cbn [filter]. rewrite T. cbn [negb].
      fold (without_timeouts evs).
      cbn [Arctis_7_Plus_ChatMix.poll]. unfold bind.
      destruct (arctis_iteration_twice w l ev s) as (r0 & t0 & E0).
      rewrite !E0.
      destruct r0 as [[l'|]|e].
      * destruct (IH l' s (t ++ t0) (t' ++ t0))
          as (r & t1 & t2 & E1 & E2 & A).
        exists r, (t0 ++ t1), (t0 ++ t2).
        split; [rewrite E1, <- app_assoc; reflexivity|].
        split; [rewrite E2, <- app_assoc; reflexivity|].
        rewrite !apart_from_usb_app, A. reflexivity.
      * exists (Ok None), t0, t0. repeat split; reflexivity.
      * exists (Raise e), t0, t0. repeat split; reflexivity.
Qed.

Lemma allsound_iteration_timeout (s : self) (t : trace) :
  AllSound7P_ChatMix.iteration (Read USBTimeoutError) (s, t) =
  (Ok (Common.Continue tt), (s, t ++ [UsbRead (addr s) 64 None])).
Proof. reflexivity. Qed.

Lemma allsound_poll_without_timeouts (evs : list loop_event) :
  forall (s : self) (t t' : trace),
  exists r t1 t2,
    AllSound7P_ChatMix.poll evs (s, t) = (r, (s, t ++ t1))
    /\ AllSound7P_ChatMix.poll (without_timeouts evs) (s, t')
       = (r, (s, t' ++ t2))
    /\ apart_from_usb t1 = apart_from_usb t2.
Proof.
  induction evs as [|ev evs IH]; intros s t t'.
  - exists (Ok (Some tt)), [], []. cbn. rewrite !app_nil_r.
    repeat split; reflexivity.
  - destruct (is_timeout ev) eqn:T.
    + destruct ev as [[| |]|]; try discriminate T.
      cbn [without_timeouts filter is_timeout negb].
      fold (without_timeouts evs).
      cbn [AllSound7P_ChatMix.poll]. unfold bind at 1.
      rewrite allsound_iteration_timeout.
      destruct (IH s (t ++ [UsbRead (addr s) 64 None]) t')
        as (r & t1 & t2 & E1 & E2 & A).
      exists r, ([UsbRead (addr s) 64 None] ++ t1), t2.
      split; [rewrite E1, <- app_assoc; reflexivity|].
      split; [exact E2|].
      rewrite apart_from_usb_app. exact A.
    + unfold without_timeouts. cbn [filter]. rewrite T. cbn [negb].
      fold (without_timeouts evs).
      cbn [AllSound7P_ChatMix.poll]. unfold bind.
      destruct (allsound_iteration_twice ev s) as (r0 & t0 & E0).
      rewrite !E0.
      destruct r0 as [[l'|]|e].
      * destruct (IH s (t ++ t0) (t' ++ t0))
          as (r & t1 & t2 & E1 & E2 & A).
        exists r, (t0 ++ t1), (t0 ++ t2).
        split; [rewrite E1, <- app_assoc; reflexivity|].
        split; [rewrite E2, <- app_assoc; reflexivity|].
        rewrite !apart_from_usb_app, A. reflexivity.
      * exists (Ok None), t0, t0. repeat split; reflexivity.
      * exists (Raise e), t0, t0. repeat split; reflexivity.
Qed.

(** X18.  A read that times out changes nothing.  Over any events of
    the loop, in both files, leaving out the reads that timed out
    leaves the outcome of the process the same, and the same log
    lines, commands and pauses in the same order; only the number of
    reads differs.  In particular a time-out between two equal reports
    does not make [Arctis_7_Plus_ChatMix.py] issue the volume again,
    and no number of time-outs ends the service. *)
Theorem timeouts_change_nothing :
  forall (w : world) (evs : list loop_event),
    (fst (Arctis_7_Plus_ChatMix.main w evs)
     = fst (Arctis_7_Plus_ChatMix.main w (without_timeouts evs))
     /\ apart_from_usb (snd (Arctis_7_Plus_ChatMix.main w evs))
        = apart_from_usb
            (snd (Arctis_7_Plus_ChatMix.main w (without_timeouts evs))))
    /\
    (fst (AllSound7P_ChatMix.main w evs)
     = fst (AllSound7P_ChatMix.main w (without_timeouts evs))
     /\ apart_from_usb (snd (AllSound7P_ChatMix.main w evs))
        = apart_from_usb
            (snd (AllSound7P_ChatMix.main w (without_timeouts evs)))).
Proof.
  intros w evs. split.
  - unfold Arctis_7_Plus_ChatMix.main, bind.
    destruct (Arctis_7_Plus_ChatMix.__init__ w (self0, []))
      as [[[]|[c|x]] [s t]]; try (split; reflexivity).
    rewrite !arctis_start_modulator_signal.
    match goal with
    | |- context [Arctis_7_Plus_ChatMix.poll w ?l evs (s, ?t0)] =>
        destruct (arctis_poll_without_timeouts w evs l s t0 t0)
          as (r & t1 & t2 & E1 & E2 & A)
    end.
    rewrite E1, E2.
    destruct r as [[l|]|[c|x]]; cbn [fst snd];
      (split; [reflexivity|]);
      rewrite !apart_from_usb_app, A; reflexivity.
  - unfold AllSound7P_ChatMix.main, bind.
    destruct (AllSound7P_ChatMix.__init__ w (self0, []))
      as [[[]|[c|x]] [s t]]; try (split; reflexivity).
    rewrite !allsound_start_modulator_signal.
    match goal with
    | |- context [AllSound7P_ChatMix.poll evs (s, ?t0)] =>
        destruct (allsound_poll_without_timeouts evs s t0 t0)
          as (r & t1 & t2 & E1 & E2 & A)
    end.
    rewrite E1, E2.
    destruct r as [[l|]|[c|x]]; cbn [fst snd];
      (split; [reflexivity|]);
      rewrite !apart_from_usb_app, A; reflexivity.
Qed.

(** ** C6: the node the sinks are linked to *)

Lemma leads_bind {A B : Type} (m : M A) (k : A -> M B)
      (P1 : self -> A -> self -> trace -> Prop)
      (P2 : A -> self -> B -> self -> trace -> Prop) :
  leads m P1 -> (forall a, leads (k a) (P2 a)) ->
  leads (bind m k)
        (fun s b s' x => exists a s1 x1 x2,
             x = x1 ++ x2 /\ P1 s a s1 x1 /\ P2 a s1 b s' x2).
Proof.
  intros Hm Hk s t. unfold bind.
  destruct (Hm s t) as (r & s1 & t1 & E1 & H1). rewrite E1.
  destruct r as [a|e].
  - destruct (Hk a s1 (t ++ t1)) as (r2 & s2 & t2 & E2 & H2).
    rewrite E2, <- app_assoc. exists r2, s2, (t1 ++ t2).
    split; [reflexivity|]. intros b Hb.
    exists a, s1, t1, t2.
    split; [reflexivity|]. split; [exact (H1 a eq_refl)|].
    exact (H2 b Hb).
  - exists (Raise e), s1, t1. split; [reflexivity|].
    intros b Hb. discriminate Hb.
Qed.

Lemma leads_weaken {A : Type} (m : M A)
      (P P' : self -> A -> self -> trace -> Prop) :
  (forall s a s' x, P s a s' x -> P' s a s' x) -> leads m P -> leads m P'.
Proof.
  intros HP H s t. destruct (H s t) as (r & s' & t1 & E1 & H1).
  exists r, s', t1. split; [exact E1|]. intros a Ha. apply HP, H1, Ha.
Qed.

Lemma leads_of_keeps (R : self -> self -> Prop) (E : exn -> bool)
      {A : Type} (m : M A) :
  keeps R no_mutation E m ->
  leads m (fun s _ s' x => R s s' /\ mutations x = []).
Proof.
  intros H s t. destruct (H s t) as (r & s' & t1 & E1 & R1 & Q & _).
  exists r, s', t1. split; [exact E1|].
  intros a _. split; [exact R1 | exact (no_mutations t1 Q)].
Qed.

Lemma leads_of_does (R : self -> self -> Prop) (Q : event -> bool)
      (E : exn -> bool) {A : Type} (m : M A)
      (P : A -> self -> trace -> Prop) :
  does m P -> keeps R Q E m ->
  leads m (fun s a s' x => R s s' /\ P a s' (mutations x)).
Proof.
  intros Hd Hk s t.
  destruct (Hd s t) as (r & s' & t1 & E1 & H1).
  destruct (Hk s t) as (r2 & s2 & t2 & E2 & R2 & _).
  rewrite E1 in E2.
  assert (s2 = s') as -> by congruence.
  exists r, s', t1. split; [exact E1|].
  intros a Ha. split; [exact R2 | exact (H1 a Ha)].
Qed.

Ltac skip_groupless H :=
  rewrite rmatch_seq in H;
  match type of H with
  | Re.rmatch _ ?r _ _ _ = _ =>
      let s1 := fresh "s" in
      let H1 := fresh "H" in
      destruct (rmatch_groupless Re.captures r eq_refl _ _ _ _ H)
        as (s1 & H1);
      cbv beta in H1; clear H; rename H1 into H
  end.

(** The quoted name that the pattern extracts is not empty. *)
Lemma node_name_captures (line : string) (m : Re.captures) :
  Re.search Re.node_name line = Some m ->
  PyStr.truthy (Re.group1 m) = true.
Proof.
  intros H. destruct (search_some _ _ _ H) as (s0 & H0).
  unfold Re.node_name, Re.seq_of in H0.
  do 5 skip_groupless H0.
  rewrite rmatch_seq in H0.
  destruct (rmatch_group_plus Re.captures _ _ _ _ m H0)
    as (cap & rest & H2 & T & _).
  destruct (rmatch_groupless Re.captures
              (Re.One (Re.OneOf [PyStr.dquote])) eq_refl _ _ _ _ H2)
    as (rest' & H3).
  injection H3 as <-. exact T.
Qed.

Lemma arctis_node_name_truthy (line name : string) :
  arctis_node_name line = Some name -> PyStr.truthy name = true.
Proof.
  unfold arctis_node_name.
  destruct (_ && _); [|discriminate].
  destruct (Re.search Re.node_name line) as [m|] eqn:S; [|discriminate].
  cbn [option_map]. intros H. injection H as <-.
  exact (node_name_captures line m S).
Qed.

(** The loop over the listing stops at the first line that names an
    Arctis node. *)
Lemma find_arctis_device_first (before after : list string)
      (line name : string) :
  forallb names_no_arctis_node before = true ->
  arctis_node_name line = Some name ->
  Arctis_7_Plus_ChatMix.find_arctis_device (before ++ line :: after)
  = Some name.
Proof.
  intros Hb Hl.
  induction before as [|l before IH];
    cbn [app Arctis_7_Plus_ChatMix.find_arctis_device].
  - unfold arctis_node_name in Hl.
    destruct (_ && _); [|discriminate Hl].
    destruct (Re.search Re.node_name line) as [m|]; [|discriminate Hl].
    exact Hl.
  - cbn [forallb] in Hb. apply andb_prop in Hb as [Hl0 Hb].
    unfold names_no_arctis_node, arctis_node_name in Hl0.
    destruct (_ && _).
    + destruct (Re.search Re.node_name l) as [m|]; [discriminate Hl0|].
      exact (IH Hb).
    + exact (IH Hb).
Qed.

Lemma find_arctis_device_none (lines : list string) :
  forallb names_no_arctis_node lines = true ->
  Arctis_7_Plus_ChatMix.find_arctis_device lines = None.
Proof.
  induction lines as [|l lines IH];
    cbn [forallb Arctis_7_Plus_ChatMix.find_arctis_device];
    [reflexivity|].
  intros H. apply andb_prop in H as [Hl H].
  unfold names_no_arctis_node, arctis_node_name in Hl.
  destruct (_ && _).
  - destruct (Re.search Re.node_name l) as [m|]; [discriminate Hl|].
    exact (IH H).
  - exact (IH H).
Qed.

(** The three cases of the target, by the listing. *)
Lemma link_target_first (w : world) (v : pyval) (out : string)
      (before after : list string) (line name : string) :
  pw_cli_list_objects w = Returned out ->
  PyStr.split_lines out = before ++ line :: after ->
  forallb names_no_arctis_node before = true ->
  arctis_node_name line = Some name ->
  link_target w v = PStr name.
Proof.
  intros Ho Hs Hb Hl. unfold link_target. rewrite Ho, Hs.
  rewrite (find_arctis_device_first before after line name Hb Hl).
  rewrite (arctis_node_name_truthy line name Hl). reflexivity.
Qed.

Lemma link_target_none (w : world) (v : pyval) (out : string) :
  pw_cli_list_objects w = Returned out ->
  forallb names_no_arctis_node (PyStr.split_lines out) = true ->
  link_target w v = v.
Proof.
  intros Ho Hn. unfold link_target. rewrite Ho.
  rewrite (find_arctis_device_none _ Hn). reflexivity.
Qed.

Lemma link_target_unread (w : world) (v : pyval) (n : string) :
  pw_cli_list_objects w = Raised n -> link_target w v = v.
Proof. intros Ho. unfold link_target. rewrite Ho. reflexivity. Qed.

(** The block that chooses [default_sink] returns the target, changes
    no attribute and nothing in the audio graph. *)
Lemma arctis_choose_leads (w : world) :
  leads (Arctis_7_Plus_ChatMix.choose_default_sink w)
        (fun s a s1 x =>
           s1 = s /\ mutations x = []
           /\ forall v, system_default_sink s = Some v ->
                        a = link_target w v).
Proof.
  intros s t.
  unfold Arctis_7_Plus_ChatMix.choose_default_sink, try_except, link_target,
    Arctis_7_Plus_ChatMix.the_system_default_sink.
  unfold bind at 1 2. unfold emit at 1. cbn [fst snd].
  destruct (pw_cli_list_objects w) as [out|n]; unfold of_outcome.
  - unfold ret at 1.
    destruct (Arctis_7_Plus_ChatMix.find_arctis_device _) as [a|];
      [unfold bind at 1; unfold log at 1; unfold emit at 1; cbn [fst snd];
       destruct (PyStr.truthy a)|];
      destruct (system_default_sink s) as [v|] eqn:D;
      repeat (progress (cbv [bind get_self log emit ret raise fst snd];
                        rewrite ?D));
      rewrite <- ?app_assoc;
      (eexists _, _, _; split; [reflexivity|]);
      intros b Hb; try discriminate Hb; injection Hb as <-;
      (split; [reflexivity|]); (split; [reflexivity|]);
      intros v' Hv; congruence.
  - destruct (system_default_sink s) as [v|] eqn:D;
      repeat (progress (cbv [bind get_self log emit ret raise fst snd];
                        rewrite ?D));
      rewrite <- ?app_assoc;
      (eexists _, _, _; split; [reflexivity|]);
      intros b Hb; try discriminate Hb; injection Hb as <-;
      (split; [reflexivity|]); (split; [reflexivity|]);
      intros v' Hv; congruence.
Qed.

Lemma links_of_mutations (t : trace) :
  filter is_link t = filter is_link (mutations t).
Proof.
  unfold mutations.
  induction t as [|e t IH]; simpl; [reflexivity|].
  destruct e as [| c | | | |]; try destruct c; simpl; rewrite ?IH;
    reflexivity.
Qed.

Lemma links_of_provisioning (prefix description : string) (target : pyval)
      (s : self) :
  filter is_link (provisioning prefix description target (game_default s))
  = links_to prefix target.
Proof.
  unfold provisioning, game_default.
  destruct (game_id s); reflexivity.
Qed.

Lemma arctis_capture_leads (w : world) :
  leads (Arctis_7_Plus_ChatMix.capture_default_sink w)
        (fun _ _ s1 x =>
           mutations x = []
           /\ exists name, system_default_sink s1 = Some (PStr name)).
Proof.
  intros s t.
  destruct (arctis_capture_run w s t)
    as (s' & t1 & name & E & _ & D & _).
  assert (K : keeps any_state no_mutation any_exn
                (Arctis_7_Plus_ChatMix.capture_default_sink w))
    by keeps_service.
  destruct (K s t) as (r & s2 & t2 & E2 & _ & Q & _).
  rewrite E in E2.
  assert (t ++ t1 = t ++ t2) as Ht by congruence.
  apply app_inv_head in Ht. subst t2.
  exists (Ok tt), s', t1. split; [exact E|].
  intros a _. split; [exact (no_mutations t1 Q)|]. exists name. exact D.
Qed.

(** From the removal of the stale sinks to the end of [_init_VAC]. *)
Lemma arctis_provision_leads (w : world) (target : pyval) :
  leads (Arctis_7_Plus_ChatMix.destroy_old_sinks w ;;
         Arctis_7_Plus_ChatMix.create_sinks w ;;
         Arctis_7_Plus_ChatMix.link_sinks w target ;;
         Arctis_7_Plus_ChatMix.resolve_ids w)%py
        (fun s _ s' x =>
           same_default s s'
           /\ mutations x
              = provisioning "Arctis" "Arctis 7+" target (game_default s')).
Proof.
  apply (leads_of_does same_default any_event any_exn _
           (fun _ s' x =>
              x = provisioning "Arctis" "Arctis 7+" target
                    (game_default s'))).
  - match goal with |- does ?m _ => eassert (H : does m _) end.
    { eapply does_bind; [apply arctis_destroy_old_does | intros ?].
      eapply does_bind; [apply arctis_create_does | intros ?].
      eapply does_bind; [apply (arctis_link_does w target) | intros ?].
      apply arctis_resolve_does. }
    revert H. apply does_weaken. intros a s x H.
    unpack_post. reflexivity.
  - pose proof same_default_refl. pose proof same_default_trans.
    keeps_service.
Qed.

Lemma arctis_init_VAC_links (w : world) :
  leads (Arctis_7_Plus_ChatMix._init_VAC w)
        (fun _ _ s' x =>
           exists v,
             system_default_sink s' = Some v
             /\ filter is_link x = links_to "Arctis" (link_target w v)).
Proof.
  match goal with |- leads ?m _ => eassert (H : leads m _) end.
  { unfold Arctis_7_Plus_ChatMix._init_VAC.
    eapply leads_bind;
      [apply (leads_of_keeps any_state any_exn); keeps_service | intros ?].
    eapply leads_bind;
      [apply (leads_of_keeps any_state any_exn); keeps_service | intros up].
    eapply leads_bind;
      [apply (leads_of_does any_state any_event any_exn _ _
                (arctis_wait_block w up)); keeps_service
      | intros ?].
    eapply leads_bind;
      [apply (leads_of_keeps any_state any_exn); keeps_service | intros ?].
    eapply leads_bind; [apply arctis_capture_leads | intros ?].
    eapply leads_bind; [apply arctis_choose_leads | intros target].
    apply arctis_provision_leads. }
  revert H. apply leads_weaken. intros s a s' x H.
  unpack_post.
  match goal with
  | D : system_default_sink _ = Some (PStr ?name),
    S : same_default _ s' |- _ =>
      destruct S as [S1 S2]; exists (PStr name);
      split; [rewrite S1; exact D|]
  end.
  rewrite links_of_mutations, !mutations_app.
  repeat match goal with
         | M : mutations _ = _ |- _ => rewrite M; clear M
         end.
  cbn [app].
  match goal with
  | T : forall v, _ -> _ = link_target w v |- _ =>
      rewrite <- (T _ ltac:(eassumption))
  end.
  apply links_of_provisioning.
Qed.

Lemma allsound_init_VAC_links (w : world) :
  leads (AllSound7P_ChatMix._init_VAC w)
        (fun _ _ s' x =>
           exists v,
             system_default_sink s' = Some v
             /\ filter is_link x = links_to "ChatMix" v).
Proof.
  match goal with |- leads ?m _ => eassert (H : leads m _) end.
  { unfold AllSound7P_ChatMix._init_VAC.
    eapply leads_bind;
      [apply (leads_of_keeps any_state any_exn); keeps_service | intros ?].
    eapply leads_bind;
      [apply (leads_of_keeps any_state any_exn); keeps_service | intros up].
    eapply leads_bind;
      [apply (leads_of_does any_state any_event any_exn _ _
                (allsound_wait_block up)); keeps_service
      | intros ?].
    eapply leads_bind;
      [apply (leads_of_keeps any_state any_exn); keeps_service | intros ?].
    eapply leads_bind;
      [apply (leads_of_keeps any_state any_exn); keeps_service | intros ?].
    eapply leads_bind;
      [apply (leads_of_does any_state any_event any_exn _ _
                (allsound_destroy_old_does w)); keeps_service
      | intros ?].
    eapply leads_bind;
      [apply (leads_of_does any_state any_event any_exn _ _
                (allsound_create_does w)); keeps_service
      | intros ?].
    eapply leads_bind;
      [apply (leads_of_does any_state any_event any_exn _ _
                (allsound_link_does w)); keeps_service
      | intros ?].
    apply (leads_of_keeps same_default any_exn).
    pose proof same_default_refl. pose proof same_default_trans.
    keeps_service. }
  revert H. apply leads_weaken. intros s a s' x H.
  unpack_post.
  match goal with
  | D : system_default_sink _ = Some ?v,
    S : same_default _ s' |- _ =>
      destruct S as [S1 S2]; exists v;
      split; [rewrite S1; exact D|]
  end.
  rewrite links_of_mutations, !mutations_app.
  repeat match goal with
         | M : mutations _ = _ |- _ => rewrite M; clear M
         end.
  reflexivity.
Qed.

(** C6, amended.  When the provisioning of [_init_VAC] completes,
    the links it has made are exactly four: the left and the right
    monitor output of the Game sink and of the Chat sink, each to the
    [playback_FL] or [playback_FR] port of one and the same node.  In
    [AllSound7P_ChatMix.py] that node is the recorded pre-session
    default output, the attribute [system_default_sink].  In
    [Arctis_7_Plus_ChatMix.py] it is the node named by the first line
    of the pw-cli listing that names an Arctis node (a line that holds
    [node.name], matches [.*[aA]rctis.*7] and carries a quoted name),
    whatever comes after that line; it is the recorded pre-session
    default output only when no line of the listing names an Arctis
    node or the listing cannot be read. *)
Theorem link_targets :
  forall (w : world) (s s' : self) (t t' : trace),
    (AllSound7P_ChatMix._init_VAC w (s, t) = (Ok tt, (s', t')) ->
     exists t1 v,
       t' = t ++ t1
       /\ system_default_sink s' = Some v
       /\ filter is_link t1 = links_to "ChatMix" v)
    /\
    (Arctis_7_Plus_ChatMix._init_VAC w (s, t) = (Ok tt, (s', t')) ->
     exists t1 v target,
       t' = t ++ t1
       /\ system_default_sink s' = Some v
       /\ filter is_link t1 = links_to "Arctis" target
       /\ (forall out before line after name,
              pw_cli_list_objects w = Returned out ->
              PyStr.split_lines out = before ++ line :: after ->
              forallb names_no_arctis_node before = true ->
              arctis_node_name line = Some name ->
              target = PStr name)
       /\ (forall out,
              pw_cli_list_objects w = Returned out ->
              forallb names_no_arctis_node (PyStr.split_lines out) = true ->
              target = v)
       /\ (forall n, pw_cli_list_objects w = Raised n -> target = v)).
Proof.
  intros w s s' t t'. split; intros H.
  - destruct (allsound_init_VAC_links w s t) as (r & s1 & t1 & E & P).
    rewrite H in E.
    assert (r = Ok tt) as -> by congruence.
    assert (s1 = s') as -> by congruence.
    assert (t' = t ++ t1) as -> by congruence.
    destruct (P tt eq_refl) as (v & D & L).
    exists t1, v. auto.
  - destruct (arctis_init_VAC_links w s t) as (r & s1 & t1 & E & P).
    rewrite H in E.
    assert (r = Ok tt) as -> by congruence.
    assert (s1 = s') as -> by congruence.
    assert (t' = t ++ t1) as -> by congruence.
    destruct (P tt eq_refl) as (v & D & L).
    exists t1, v, (link_target w v).
    split; [reflexivity|]. split; [exact D|]. split; [exact L|].
    split; [|split].
    + intros out before line after name Ho Hs Hb Hl.
      exact (link_target_first w v out before after line name Ho Hs Hb Hl).
    + intros out Ho Hn. exact (link_target_none w v out Ho Hn).
    + intros n Ho. exact (link_target_unread w v n Ho).
Qed.

Lemma link_targets_witness :
  filter is_link
    (snd (snd (Arctis_7_Plus_ChatMix._init_VAC
                 (Sample.with_objects (Returned Sample.objects_headset)
                    Sample.world0)
                 (self0, []))))
  = links_to "Arctis"
      (PStr "alsa_output.usb-SteelSeries_Arctis_7_-00.analog-stereo").
Proof.
  destruct (link_targets
              (Sample.with_objects (Returned Sample.objects_headset)
                 Sample.world0)
              self0
              (fst (snd (Arctis_7_Plus_ChatMix._init_VAC
                           (Sample.with_objects
                              (Returned Sample.objects_headset)
                              Sample.world0)
                           (self0, []))))
              []
              (snd (snd (Arctis_7_Plus_ChatMix._init_VAC
                           (Sample.with_objects
                              (Returned Sample.objects_headset)
                              Sample.world0)
                           (self0, []))))) as [_ HA].
  destruct HA as (t1 & v & target & Ht & _ & L & First & _).
  - vm_compute. reflexivity.
  - cbn [app] in Ht. rewrite Ht, L. f_equal.
    apply (First Sample.objects_headset
             (firstn 3 (PyStr.split_lines Sample.objects_headset))
             (nth 3 (PyStr.split_lines Sample.objects_headset) EmptyString)
             (skipn 4 (PyStr.split_lines Sample.objects_headset))).
    + reflexivity.
    + vm_compute. reflexivity.
    + vm_compute. reflexivity.
    + vm_compute. reflexivity.
Defined.
